(** * Convergence engine of Compose: a shallow embedding of
    [pkg/compose/convergence.go] and the properties of its reconciler,
    reference resolver, divergence detector, recreate protocol and
    dependency waits. *)

From Stdlib Require Import ZArith String Ascii List Bool Lia DecimalString.
From Stdlib Require Import Sorted Permutation.
From stdpp Require Import gmap strings list fin_maps.

Local Open Scope string_scope.
Local Open Scope Z_scope.

(** ** Go primitives *)

Module Go.

(** Go's [error] values are carried as their message. *)
Definition error := string.

(** The three ways a Go call ends: a normal return, a returned error,
    or a run-time panic (index or slice out of range, nil dereference). *)
Inductive result (A : Type) : Type :=
| Ok (a : A)
| Err (e : error)
| Panic.
Arguments Ok {A} a.
Arguments Err {A} e.
Arguments Panic {A}.

Definition isOk {A} (r : result A) : bool :=
  match r with Ok _ => true | _ => false end.
Definition isErr {A} (r : result A) : bool :=
  match r with Err _ => true | _ => false end.

(** [int] is 64 bits wide and wraps around. *)
Definition MinInt : Z := - 2 ^ 63.
Definition MaxInt : Z := 2 ^ 63 - 1.
Definition wrap (z : Z) : Z := (z + 2 ^ 63) mod 2 ^ 64 - 2 ^ 63.
Definition inInt (z : Z) : bool := (MinInt <=? z) && (z <=? MaxInt).

(** [strings.Split(s, sep)] for a one-byte separator: the pieces between
    the separators, always at least one piece. *)
Fixpoint Split (s : string) (sep : ascii) : list string :=
  match s with
  | EmptyString => [EmptyString]
  | String c s' =>
      if Ascii.eqb c sep then EmptyString :: Split s' sep
      else match Split s' sep with
           | [] => [String c EmptyString]
           | p :: ps => String c p :: ps
           end
  end.

(** [strings.HasPrefix] and the slice [s[n:]], [s[:n]] (the latter two
    panic when [n] exceeds the length). *)
Definition HasPrefix (s p : string) : bool := String.prefix p s.

Definition sliceFrom (s : string) (n : nat) : result string :=
  if (n <=? String.length s)%nat
  then Ok (String.substring n (String.length s - n) s)
  else Panic.

Definition sliceTo (s : string) (n : nat) : result string :=
  if (n <=? String.length s)%nat
  then Ok (String.substring 0 n s)
  else Panic.

(** [strconv.Atoi]: an optional sign followed by one or more decimal
    digits, the value within the range of [int]; anything else is an
    error. *)
Definition digitVal (c : ascii) : option Z :=
  let n := Z.of_nat (nat_of_ascii c) in
  if (48 <=? n) && (n <=? 57) then Some (n - 48) else None.

Fixpoint digits (s : string) (acc : Z) : option Z :=
  match s with
  | EmptyString => Some acc
  | String c s' =>
      match digitVal c with
      | Some d => digits s' (10 * acc + d)
      | None => None
      end
  end.

Definition Atoi (s : string) : option Z :=
  let '(neg, body) :=
    match s with
    | String "-"%char r => (true, r)
    | String "+"%char r => (false, r)
    | _ => (false, s)
    end in
  match body with
  | EmptyString => None
  | _ =>
      match digits body 0 with
      | Some n =>
          let v := if neg then - n else n in
          if inInt v then Some v else None
      | None => None
      end
  end.

(** The message of the error [strconv.Atoi] returns; [Quote] is
    [strconv.Quote] on a string that needs no escape. *)
Definition Quote (s : string) : string :=
  String (ascii_of_nat 34) s ++ String (ascii_of_nat 34) EmptyString.

Definition AtoiError (s : string) : error :=
  "strconv.Atoi: parsing " ++ Quote s ++ ": "
  ++ match s with
     | String "-"%char r | String "+"%char r =>
         match r, digits r 0 with
         | String _ _, Some _ => "value out of range"
         | _, _ => "invalid syntax"
         end
     | _ =>
         match s, digits s 0 with
         | String _ _, Some _ => "value out of range"
         | _, _ => "invalid syntax"
         end
     end.

(** [strconv.Itoa]. *)
Definition Itoa (z : Z) : string := NilZero.string_of_int (Z.to_int z).

(** [strings.Join]. *)
Fixpoint Join (l : list string) (sep : string) : string :=
  match l with
  | [] => ""
  | [x] => x
  | x :: rest => x ++ sep ++ Join rest sep
  end.

End Go.
Import Go.

(** ** Data model *)

(** [container.Summary], the observed container.  The pointer
    [NetworkSettings] and its endpoint entries are dereferenced by the
    code without a nil test and are taken non-nil here: [Networks] maps
    a network name to the [NetworkID] of the endpoint. *)
Module Summary.
Record MountPoint := { MountType : string; MountName : string }.
Record t := {
  ID : string;
  Names : list string;
  Labels : gmap string string;
  State : string;
  Created : Z;
  Networks : gmap string string;
  Mounts : list MountPoint
}.
(** The zero value, as [make(Containers, n)] fills a slice with. *)
Definition zero : t :=
  {| ID := ""; Names := []; Labels := ∅; State := ""; Created := 0;
     Networks := ∅; Mounts := [] |}.
Definition withState (st : string) (c : t) : t :=
  {| ID := ID c; Names := Names c; Labels := Labels c; State := st;
     Created := Created c; Networks := Networks c; Mounts := Mounts c |}.
(** [c.Labels[k]]: a missing key reads as the empty string. *)
Definition label (c : t) (k : string) : string := default "" (Labels c !! k).
End Summary.

Abbreviation Containers := (list Summary.t).

(** [types.ServiceConfig], the desired service.  [Scale] is what
    [GetScale()] returns, [Provider] tells whether the provider pointer
    is set, [Networks] holds the keys of the networks map and
    [NetworksByPriority] what the method of that name returns. *)
Module Service.
Record VolumeConfig := { VolType : string; VolSource : string }.
Record t := {
  Name : string;
  ContainerName : string;
  Scale : Z;
  Provider : bool;
  Platform : string;
  Labels : gmap string string;
  CustomLabels : gmap string string;
  Networks : gset string;
  NetworksByPriority : list string;
  Volumes : list VolumeConfig;
  VolumesFrom : list string;
  NetworkMode : string;
  Ipc : string;
  Pid : string
}.
Definition customLabel (s : t) (k : string) : string :=
  default "" (CustomLabels s !! k).
Definition withVolumesFrom (v : list string) (s : t) : t :=
  {| Name := Name s; ContainerName := ContainerName s; Scale := Scale s;
     Provider := Provider s; Platform := Platform s; Labels := Labels s;
     CustomLabels := CustomLabels s; Networks := Networks s;
     NetworksByPriority := NetworksByPriority s; Volumes := Volumes s;
     VolumesFrom := v; NetworkMode := NetworkMode s; Ipc := Ipc s; Pid := Pid s |}.
Definition withNetworkMode (v : string) (s : t) : t :=
  {| Name := Name s; ContainerName := ContainerName s; Scale := Scale s;
     Provider := Provider s; Platform := Platform s; Labels := Labels s;
     CustomLabels := CustomLabels s; Networks := Networks s;
     NetworksByPriority := NetworksByPriority s; Volumes := Volumes s;
     VolumesFrom := VolumesFrom s; NetworkMode := v; Ipc := Ipc s; Pid := Pid s |}.
Definition withIpc (v : string) (s : t) : t :=
  {| Name := Name s; ContainerName := ContainerName s; Scale := Scale s;
     Provider := Provider s; Platform := Platform s; Labels := Labels s;
     CustomLabels := CustomLabels s; Networks := Networks s;
     NetworksByPriority := NetworksByPriority s; Volumes := Volumes s;
     VolumesFrom := VolumesFrom s; NetworkMode := NetworkMode s; Ipc := v; Pid := Pid s |}.
Definition withPid (v : string) (s : t) : t :=
  {| Name := Name s; ContainerName := ContainerName s; Scale := Scale s;
     Provider := Provider s; Platform := Platform s; Labels := Labels s;
     CustomLabels := CustomLabels s; Networks := Networks s;
     NetworksByPriority := NetworksByPriority s; Volumes := Volumes s;
     VolumesFrom := VolumesFrom s; NetworkMode := NetworkMode s; Ipc := Ipc s; Pid := v |}.
End Service.

(** [types.Project]: the fields and methods the reconciler reads.
    [Dependents s] is what [GetDependentsForService] returns for [s]
    under the filter [dependency.Restart]. *)
Module Project.
Record t := {
  Name : string;
  Environment : gmap string string;
  Networks : gmap string string;
  Dependents : Service.t -> list string
}.
End Project.

(** The observed state held by [convergence]: the containers of each
    service, and the optional network and volume id maps. *)
Record convergence := {
  services : gmap string Containers;
  networks : option (gmap string string);
  volumes : option (gmap string string)
}.

Definition withServices (m : gmap string Containers) (c : convergence) : convergence :=
  {| services := m; networks := networks c; volumes := volumes c |}.

(** Collaborators of the file that live in other packages: constants of
    package [api], the service hash (a hash or an error), the ordering
    [sorted] of a container list, and helpers of the Docker and
    compose-go libraries. *)
Class Externals := {
  Separator : string;
  ContainerNumberLabel : string;
  ConfigHashLabel : string;
  ImageDigestLabel : string;
  ContainerReplaceLabel : string;
  TypeVolume : string;
  ServiceHash : Service.t -> string + error;
  sorted : Containers -> Containers;
  platforms_Parse : string -> result string;
  versions_LessThan : string -> string -> bool
}.

(** Modelled from the spec: the recreate policies [api.RecreateNever] and
    [api.RecreateForce], the prefixes [types.ContainerPrefix] and
    [types.NetworkModeServicePrefix] and the container states, whose
    declarations are in other packages. *)
Definition RecreateNever : string := "never".
Definition RecreateForce : string := "force".
Definition ContainerPrefix : string := "container:".
Definition ServicePrefix : string := "service:".
Definition ContainerRunning : string := "running".
Definition ContainerCreated : string := "created".
Definition ContainerRestarting : string := "restarting".
Definition ContainerExited : string := "exited".

(** ** The observed-state store *)

Definition getObservedState (c : convergence) (serviceName : string) : Containers :=
  default [] (services c !! serviceName).

Definition setObservedState (c : convergence) (serviceName : string)
    (containers : Containers) : convergence :=
  withServices (<[serviceName := containers]> (services c)) c.

(** A slice handed out by [getObservedState] shares its backing array
    with the store: sorting or reversing it in place changes what the
    store holds under that name (a missing or empty entry has nothing to
    reorder). *)
Definition reorderInPlace (c : convergence) (serviceName : string)
    (f : Containers -> Containers) : convergence :=
  withServices (alter f serviceName (services c)) c.

(** ** Divergence detector *)

Section Detector.
Context {ext : Externals}.

Definition checkExpectedNetworks (expected : Service.t) (actual : Summary.t)
    (networks : gmap string string) : bool :=
  existsb
    (fun net =>
       let id := default "" (networks !! net) in
       if String.eqb id "swarm" then false
       else negb (existsb (fun settings => String.eqb (snd settings) id)
                          (map_to_list (Summary.Networks actual))))
    (elements (Service.Networks expected)).

Definition checkExpectedVolumes (expected : Service.t) (actual : Summary.t)
    (volumes : gmap string string) : bool :=
  existsb
    (fun vol =>
       if negb (String.eqb (Service.VolType vol) TypeVolume) then false
       else if String.eqb (Service.VolSource vol) "" then false
       else
         let id := default "" (volumes !! Service.VolSource vol) in
         negb (existsb
                 (fun mount =>
                    String.eqb (Summary.MountType mount) TypeVolume
                    && String.eqb (Summary.MountName mount) id)
                 (Summary.Mounts actual)))
    (Service.Volumes expected).

Definition mustRecreate (c : convergence) (expected : Service.t)
    (actual : Summary.t) (policy : string) : result bool :=
  if String.eqb policy RecreateNever then Ok false
  else if String.eqb policy RecreateForce then Ok true
  else
    match ServiceHash expected with
    | inr err => Err err
    | inl configHash =>
        let configChanged :=
          negb (String.eqb (Summary.label actual ConfigHashLabel) configHash) in
        let imageUpdated :=
          negb (String.eqb (Summary.label actual ImageDigestLabel)
                           (Service.customLabel expected ImageDigestLabel)) in
        if configChanged || imageUpdated then Ok true
        else if match networks c with
                | Some nets =>
                    String.eqb (Summary.State actual) "running"
                    && checkExpectedNetworks expected actual nets
                | None => false
                end then Ok true
        else if match volumes c with
                | Some vols => checkExpectedVolumes expected actual vols
                | None => false
                end then Ok true
        else Ok false
    end.

(** [obsolete, _ := c.mustRecreate(...)]: the boolean alone, which is
    false whenever an error is returned. *)
Definition obsolete (c : convergence) (expected : Service.t)
    (actual : Summary.t) (policy : string) : bool :=
  match mustRecreate c expected actual policy with
  | Ok b => b
  | _ => false
  end.

End Detector.

(** ** Reference resolver *)

(** Modelled from the spec: [getDependentServiceFromMode] is declared in
    another file of the package; a mode of the form [service:<svc>]
    yields [<svc>], any other mode the empty string. *)
Definition getDependentServiceFromMode (mode : string) : string :=
  if HasPrefix mode ServicePrefix
  then String.substring (String.length ServicePrefix)
         (String.length mode - String.length ServicePrefix) mode
  else "".

Section Resolver.
Context {ext : Externals}.

(** [dependencies.sorted()[0].ID]: [sorted] orders the slice of the store
    in place, then its first element is read. *)
Definition firstSorted (c : convergence) (name : string)
    : convergence * result string :=
  let c' := reorderInPlace c name sorted in
  match sorted (getObservedState c name) !! 0%nat with
  | Some d => (c', Ok (Summary.ID d))
  | None => (c', Panic)
  end.

(** One iteration of the loop of [resolveVolumeFrom]: the value the entry
    holds afterwards. *)
Definition resolveVolume (c : convergence) (vol : string)
    : convergence * result string :=
  let spec := Split vol ":" in
  if (length spec =? 0)%nat then (c, Ok vol)
  else
    match spec !! 0%nat with
    | None => (c, Panic)
    | Some s0 =>
        if String.eqb s0 "container" then
          match spec !! 1%nat with
          | Some s1 => (c, Ok s1)
          | None => (c, Panic)
          end
        else
          let name := s0 in
          let dependencies := getObservedState c name in
          if (length dependencies =? 0)%nat
          then (c, Err ("cannot share volume with service " ++ name
                          ++ ": container missing"))
          else firstSorted c name
    end.

(** The loop itself: [done] are the entries already rewritten, [todo]
    those still to visit; on an error or a panic the remaining entries
    stay as they are. *)
Fixpoint resolveVolumes (c : convergence) (done todo : list string)
    : convergence * list string * result unit :=
  match todo with
  | [] => (c, done, Ok tt)
  | vol :: rest =>
      match resolveVolume c vol with
      | (c', Ok v) => resolveVolumes c' (done ++ [v])%list rest
      | (c', Err e) => (c', (done ++ vol :: rest)%list, Err e)
      | (c', Panic) => (c', (done ++ vol :: rest)%list, Panic)
      end
  end.

Definition resolveVolumeFrom (c : convergence) (service : Service.t)
    : convergence * Service.t * result unit :=
  let '(c', vf, r) := resolveVolumes c [] (Service.VolumesFrom service) in
  (c', Service.withVolumesFrom vf service, r).

(** The rewrite of one namespace mode ([NetworkMode], [Ipc] or [Pid]);
    [what] is the wording of the error. *)
Definition resolveMode (c : convergence) (what : string) (str : string)
    : convergence * result string :=
  let name := getDependentServiceFromMode str in
  if negb (String.eqb name "") then
    let dependencies := getObservedState c name in
    if (length dependencies =? 0)%nat
    then (c, Err ("cannot share " ++ what ++ " with service " ++ name
                    ++ ": container missing"))
    else
      match firstSorted c name with
      | (c', Ok id) => (c', Ok (ContainerPrefix ++ id))
      | (c', Err e) => (c', Err e)
      | (c', Panic) => (c', Panic)
      end
  else (c, Ok str).

Definition resolveSharedNamespaces (c : convergence) (service : Service.t)
    : convergence * Service.t * result unit :=
  match resolveMode c "network namespace" (Service.NetworkMode service) with
  | (c1, Err e) => (c1, service, Err e)
  | (c1, Panic) => (c1, service, Panic)
  | (c1, Ok nm) =>
      let service := Service.withNetworkMode nm service in
      match resolveMode c1 "IPC namespace" (Service.Ipc service) with
      | (c2, Err e) => (c2, service, Err e)
      | (c2, Panic) => (c2, service, Panic)
      | (c2, Ok ipc) =>
          let service := Service.withIpc ipc service in
          match resolveMode c2 "PID namespace" (Service.Pid service) with
          | (c3, Err e) => (c3, service, Err e)
          | (c3, Panic) => (c3, service, Panic)
          | (c3, Ok pid) => (c3, Service.withPid pid service, Ok tt)
          end
      end
  end.

Definition resolveServiceReferences (c : convergence) (service : Service.t)
    : convergence * Service.t * result unit :=
  match resolveVolumeFrom c service with
  | (c1, service1, Ok _) => resolveSharedNamespaces c1 service1
  | other => other
  end.

End Resolver.

(** ** Scale and names *)

Definition doubledContainerNameWarning (name containerName : string) : string :=
  "WARNING: The " ++ Quote name
   ++ " service is using the custom container name " ++ Quote containerName
   ++ ". Docker requires each container to have a unique name. "
   ++ "Remove the custom name to scale the service".

Definition getScale (config : Service.t) : result Z :=
  let scale := Service.Scale config in
  if (1 <? scale) && negb (String.eqb (Service.ContainerName config) "")
  then Err (doubledContainerNameWarning (Service.Name config)
              (Service.ContainerName config))
  else Ok scale.

Section Names.
Context {ext : Externals}.

Definition getDefaultContainerName (projectName serviceName index : string) : string :=
  Join [projectName; serviceName; index] Separator.

Definition getContainerName (projectName : string) (service : Service.t)
    (number : Z) : string :=
  let name :=
    getDefaultContainerName projectName (Service.Name service) (Itoa number) in
  if negb (String.eqb (Service.ContainerName service) "")
  then Service.ContainerName service
  else name.

(** [nextContainerNumber]: the loop keeps the largest parsed number above
    its initial 0 and returns it plus one, in [int] arithmetic. *)
Definition nextContainerNumber (containers : Containers) : Z :=
  let maxNumber :=
    fold_left
      (fun maxNumber c =>
         match Atoi (Summary.label c ContainerNumberLabel) with
         | None => maxNumber
         | Some n => if maxNumber <? n then n else maxNumber
         end)
      containers 0 in
  wrap (maxNumber + 1).

End Names.

(** ** The engine port *)

(** What [ContainerInspect] answers.  [State] is a pointer the code tests
    for nil; [Healthcheck] tells whether [Config.Healthcheck] is set and
    [Health] is the status of [State.Health] when that pointer is set. *)
Module Inspect.
Record ContainerState := {
  Status : string;
  ExitCode : Z;
  Health : option string
}.
Record t := {
  ID : string;
  Name : string;
  State : option ContainerState;
  Healthcheck : bool;
  ConfigLabels : gmap string string;
  Networks : gmap string string
}.
End Inspect.

(** Modelled from the spec: the health states of the Docker API. *)
Definition Healthy : string := "healthy".
Definition Unhealthy : string := "unhealthy".
Definition Starting : string := "starting".

Record createOptions := {
  AutoRemove : bool;
  AttachStdin : bool;
  UseNetworkAliases : bool;
  OptLabels : gmap string string
}.

(** What [getCreateConfigs] hands to [createMobyContainer]: the network
    mode of the host configuration and the links. *)
Record createConfigs := {
  HostNetworkMode : string;
  Links : list string
}.

(** The arguments [createEndpointSettings] is called with. *)
Record endpointSettings := {
  epService : Service.t;
  epNumber : Z;
  epNetworkKey : string;
  epLinks : list string;
  epUseNetworkAliases : bool
}.

Record createResponse := {
  RespID : string;
  Warnings : list string
}.

(** The calls that leave this file: the engine API, and the methods of
    [composeService] defined elsewhere ([runPlugin], [stop],
    [stopAndRemoveContainer], [getCreateConfigs]). *)
Inductive Op : Type :=
| RunPlugin (project : Project.t) (service : Service.t) (command : string)
| StopServices (projectName : string) (names : list string)
| StopAndRemoveContainer (ctr : Summary.t) (service : Service.t)
    (timeout : option Z) (volumes : bool)
| GetCreateConfigs (project : Project.t) (service : Service.t) (number : Z)
    (inherit : option Summary.t) (opts : createOptions)
| ContainerCreate (cfgs : createConfigs) (platform : option string) (name : string)
| ContainerInspect (id : string)
| RuntimeVersion
| NetworkConnect (net : string) (id : string) (ep : endpointSettings)
| ContainerStop (id : string) (timeout : option Z)
| ContainerRemove (id : string)
| ContainerRename (from to : string)
| ContainerStart (id : string).

Definition Resp (op : Op) : Type :=
  match op with
  | GetCreateConfigs _ _ _ _ _ => createConfigs
  | ContainerCreate _ _ _ => createResponse
  | ContainerInspect _ => Inspect.t
  | RuntimeVersion => string
  | _ => unit
  end.

(** A computation that talks to the engine: it returns, or issues a call
    and goes on with the answer (a value, an error, or a panic of the
    callee). *)
Inductive Eng (A : Type) : Type :=
| Ret (a : A)
| Call (op : Op) (k : result (Resp op) -> Eng A).
Arguments Ret {A} a.
Arguments Call {A} op k.

Fixpoint bind {A B} (m : Eng A) (f : A -> Eng B) : Eng B :=
  match m with
  | Ret a => f a
  | Call op k => Call op (fun r => bind (k r) f)
  end.

Definition call (op : Op) : Eng (result (Resp op)) := Call op Ret.

Declare Scope eng_scope.
Delimit Scope eng_scope with eng.
Notation "x <- m ;; k" := (bind m (fun x => k))
  (at level 100, m at next level, right associativity,
   format "'[v' x  <-  m  ;;  '/' k ']'") : eng_scope.
(** An engine: any state, and an answer to every call in every state. *)
Record Engine := {
  EState : Type;
  respond : EState -> forall op : Op, result (Resp op) * EState
}.

(** Running a computation against an engine: the value, the final engine
    state, and the calls in the order they were issued. *)
Fixpoint run {A} (E : Engine) (m : Eng A) (s : EState E)
    : A * EState E * list Op :=
  match m with
  | Ret a => (a, s, [])
  | Call op k =>
      let '(r, s1) := respond E s op in
      let '(a, s2, tr) := run E (k r) s1 in
      (a, s2, op :: tr)
  end.

Definition value {A} (E : Engine) (m : Eng A) (s : EState E) : A :=
  fst (fst (run E m s)).
Definition trace {A} (E : Engine) (m : Eng A) (s : EState E) : list Op :=
  snd (run E m s).

(** ** Container lifecycle: create, recreate, start *)

Section Lifecycle.
Context {ext : Externals}.
Local Open Scope eng_scope.

Definition mergeLabels (ls : list (gmap string string)) : gmap string string :=
  fold_left (fun merged l => l ∪ merged) ls ∅.

(** The loop of [createMobyContainer] that connects the remaining
    networks one by one on engines older than API 1.44. *)
Fixpoint connectNetworks (project : Project.t) (service : Service.t)
    (number : Z) (cfgs : createConfigs) (opts : createOptions)
    (created : Summary.t) (keys : list string) : Eng (result unit) :=
  match keys with
  | [] => Ret (Ok tt)
  | networkKey :: rest =>
      let mobyNetworkName := default "" (Project.Networks project !! networkKey) in
      if String.eqb (HostNetworkMode cfgs) mobyNetworkName
      then connectNetworks project service number cfgs opts created rest
      else
        let epSettings :=
          {| epService := service; epNumber := number;
             epNetworkKey := networkKey; epLinks := Links cfgs;
             epUseNetworkAliases := UseNetworkAliases opts |} in
        r <- call (NetworkConnect mobyNetworkName (Summary.ID created) epSettings) ;;
        match r with
        | Ok _ => connectNetworks project service number cfgs opts created rest
        | Err e => Ret (Err e)
        | Panic => Ret Panic
        end
  end.

Definition createMobyContainer (project : Project.t) (service : Service.t)
    (name : string) (number : Z) (inherit : option Summary.t)
    (opts : createOptions) : Eng (Summary.t * result unit) :=
  let created := Summary.zero in
  r <- call (GetCreateConfigs project service number inherit opts) ;;
  match r with
  | Err e => Ret (created, Err e)
  | Panic => Ret (created, Panic)
  | Ok cfgs =>
      let platform :=
        if String.eqb (Service.Platform service) ""
        then default "" (Project.Environment project !! "DOCKER_DEFAULT_PLATFORM")
        else Service.Platform service in
      match (if negb (String.eqb platform "")
             then match platforms_Parse platform with
                  | Ok p => Ok (Some p)
                  | Err e => Err e
                  | Panic => Panic
                  end
             else Ok None) with
      | Err e => Ret (created, Err e)
      | Panic => Ret (created, Panic)
      | Ok plat =>
          r <- call (ContainerCreate cfgs plat name) ;;
          match r with
          | Err e => Ret (created, Err e)
          | Panic => Ret (created, Panic)
          | Ok response =>
              r <- call (ContainerInspect (RespID response)) ;;
              match r with
              | Err e => Ret (created, Err e)
              | Panic => Ret (created, Panic)
              | Ok inspectedContainer =>
                  let created :=
                    {| Summary.ID := Inspect.ID inspectedContainer;
                       Summary.Names := [Inspect.Name inspectedContainer];
                       Summary.Labels := Inspect.ConfigLabels inspectedContainer;
                       Summary.State := "";
                       Summary.Created := 0;
                       Summary.Networks := Inspect.Networks inspectedContainer;
                       Summary.Mounts := [] |} in
                  r <- call RuntimeVersion ;;
                  match r with
                  | Err e => Ret (created, Err e)
                  | Panic => Ret (created, Panic)
                  | Ok apiVersion =>
                      if versions_LessThan apiVersion "1.44" then
                        r <- connectNetworks project service number cfgs opts
                               created (Service.NetworksByPriority service) ;;
                        Ret (created, r)
                      else Ret (created, Ok tt)
                  end
              end
          end
      end
  end.

Definition createContainer (project : Project.t) (service : Service.t)
    (name : string) (number : Z) (opts : createOptions)
    : Eng (Summary.t * result unit) :=
  createMobyContainer project service name number None opts.

(** [recreateContainer]: the replacement is created under a transient
    name, then the replaced container is stopped and removed and the
    replacement renamed; every error returns at once.  [timeout] is
    carried in seconds, as [utils.DurationSecondToInt] hands it to the
    engine. *)
Definition recreateContainer (project : Project.t) (service : Service.t)
    (replaced : Summary.t) (inherit : bool) (timeout : option Z)
    : Eng (Summary.t * result unit) :=
  let created := Summary.zero in
  match Atoi (Summary.label replaced ContainerNumberLabel) with
  | None =>
      Ret (created, Err (AtoiError (Summary.label replaced ContainerNumberLabel)))
  | Some number =>
      let inherited := if inherit then Some replaced else None in
      let replacedContainerName :=
        if String.eqb (Service.ContainerName service) ""
        then Service.Name service ++ Separator ++ Itoa number
        else Service.ContainerName service in
      let name := getContainerName (Project.Name project) service number in
      match sliceTo (Summary.ID replaced) 12 with
      | Panic => Ret (created, Panic)
      | Err e => Ret (created, Err e)
      | Ok prefix =>
          let tmpName := prefix ++ "_" ++ name in
          let opts :=
            {| AutoRemove := false; AttachStdin := false;
               UseNetworkAliases := true;
               OptLabels :=
                 <[ContainerReplaceLabel := replacedContainerName]>
                   (mergeLabels [Service.Labels service;
                                 Service.CustomLabels service]) |} in
          cr <- createMobyContainer project service tmpName number inherited opts ;;
          let created := fst cr in
          match snd cr with
          | Err e => Ret (created, Err e)
          | Panic => Ret (created, Panic)
          | Ok _ =>
              r <- call (ContainerStop (Summary.ID replaced) timeout) ;;
              match r with
              | Err e => Ret (created, Err e)
              | Panic => Ret (created, Panic)
              | Ok _ =>
                  r <- call (ContainerRemove (Summary.ID replaced)) ;;
                  match r with
                  | Err e => Ret (created, Err e)
                  | Panic => Ret (created, Panic)
                  | Ok _ =>
                      r <- call (ContainerRename tmpName name) ;;
                      match r with
                      | Err e => Ret (created, Err e)
                      | Panic => Ret (created, Panic)
                      | Ok _ => Ret (created, Ok tt)
                      end
                  end
              end
          end
      end
  end.

Definition startContainer (ctr : Summary.t) : Eng (result unit) :=
  call (ContainerStart (Summary.ID ctr)).

End Lifecycle.

(** ** Per-service reconciler *)

(** [sort.Slice] on a slice of at most 12 elements runs the insertion
    sort of package [sort]: each element in turn moves left while [less]
    puts it before its left neighbour.  [insertLeft] is that inner loop,
    on the already ordered prefix held last element first. *)
Section InsertionSort.
Context {A : Type} (less : A -> A -> bool).

Fixpoint insertLeft (x : A) (rprefix : list A) : list A :=
  match rprefix with
  | [] => [x]
  | y :: r => if less x y then y :: insertLeft x r else x :: y :: r
  end.

Definition sort_Slice (l : list A) : list A :=
  rev (fold_left (fun rprefix x => insertLeft x rprefix) l []).

End InsertionSort.

(** Where [ensureService] returns: after the provider hook, on the scale
    error, on a reference that does not resolve, on an error of the
    detector, on a failure to stop the dependents, after the wait on the
    scheduled tasks (with the list it stores), or by a panic. *)
Inductive Site : Type :=
| AtProvider
| AtScale
| AtReferences
| AtDetector
| AtDependents
| AtWait (updated : Containers)
| AtPanic.

(** The variables the loops of [ensureService] work on: the store, the
    [updated] vector, and the first error the error group has seen. *)
Record loopState := {
  conv : convergence;
  updated : Containers;
  egErr : option error
}.

Section Reconciler.
Context {ext : Externals}.
Local Open Scope eng_scope.

(** The comparison [ensureService] hands to [sort.Slice]. *)
Definition less (c : convergence) (service : Service.t) (recreate : string)
    (ci cj : Summary.t) : bool :=
  if obsolete c service ci recreate then true
  else if obsolete c service cj recreate then false
  else
    match Atoi (Summary.label ci ContainerNumberLabel),
          Atoi (Summary.label cj ContainerNumberLabel) with
    | Some ni, Some nj => nj <? ni
    | _, _ => Summary.Created ci <? Summary.Created cj
    end.

(** The order in which [ensureService] visits the observed containers:
    sorted, then reversed. *)
Definition traversal (c : convergence) (service : Service.t)
    (recreate : string) (containers : Containers) : Containers :=
  rev (sort_Slice (less c service recreate) containers).

(** A task handed to the error group has run: its error, if it is the
    first one, is what [Wait] will return. *)
Definition egGo (st : loopState) (r : result unit) : loopState :=
  match egErr st, r with
  | None, Err e => {| conv := conv st; updated := updated st; egErr := Some e |}
  | _, _ => st
  end.

Definition setUpdated (i : nat) (ctr : Summary.t) (st : loopState) : loopState :=
  {| conv := conv st; updated := <[i := ctr]> (updated st); egErr := egErr st |}.

Definition setConv (c : convergence) (st : loopState) : loopState :=
  {| conv := c; updated := updated st; egErr := egErr st |}.

Definition egWait (st : loopState) : result unit :=
  match egErr st with
  | Some e => Err e
  | None => Ok tt
  end.

Definition stopDependentContainers (c : convergence) (project : Project.t)
    (service : Service.t) : Eng (convergence * result unit) :=
  let dependents := Project.Dependents project service in
  if (length dependents =? 0)%nat then Ret (c, Ok tt)
  else
    r <- call (StopServices (Project.Name project) dependents) ;;
    match r with
    | Err e => Ret (c, Err e)
    | Panic => Ret (c, Panic)
    | Ok _ =>
        Ret (fold_left
               (fun c name =>
                  setObservedState c name
                    (map (Summary.withState ContainerExited)
                         (getObservedState c name)))
               dependents c,
             Ok tt)
    end.

Definition isSettled (state : string) : bool :=
  String.eqb state ContainerRunning || String.eqb state ContainerCreated
  || String.eqb state ContainerRestarting || String.eqb state ContainerExited.

(** The loop over the traversal.  The tasks given to the error group are
    run where they are scheduled; a second component [Some] is an early
    return of [ensureService].  The slice under traversal is the one of
    the service itself, which [stopDependentContainers] leaves alone as
    long as a service is not its own dependent. *)
Fixpoint reconcile (project : Project.t) (service : Service.t)
    (recreate : string) (inherit : bool) (timeout : option Z) (expected : Z)
    (i : nat) (todo : Containers) (st : loopState)
    : Eng (loopState * option (Site * result unit)) :=
  match todo with
  | [] => Ret (st, None)
  | container :: rest =>
      if expected <=? Z.of_nat i then
        r <- call (StopAndRemoveContainer container service timeout false) ;;
        match r with
        | Panic => Ret (st, Some (AtPanic, Panic))
        | _ => reconcile project service recreate inherit timeout expected
                 (S i) rest (egGo st r)
        end
      else
        match mustRecreate (conv st) service container recreate with
        | Err e => Ret (st, Some (AtDetector, Err e))
        | Panic => Ret (st, Some (AtPanic, Panic))
        | Ok true =>
            d <- stopDependentContainers (conv st) project service ;;
            match snd d with
            | Err e => Ret (setConv (fst d) st, Some (AtDependents, Err e))
            | Panic => Ret (setConv (fst d) st, Some (AtPanic, Panic))
            | Ok _ =>
                rc <- recreateContainer project service container inherit timeout ;;
                let st := setUpdated i (fst rc) (setConv (fst d) st) in
                match snd rc with
                | Panic => Ret (st, Some (AtPanic, Panic))
                | r => reconcile project service recreate inherit timeout
                         expected (S i) rest (egGo st r)
                end
            end
        | Ok false =>
            if isSettled (Summary.State container) then
              reconcile project service recreate inherit timeout expected
                (S i) rest (setUpdated i container st)
            else
              r <- startContainer container ;;
              match r with
              | Panic => Ret (st, Some (AtPanic, Panic))
              | _ => reconcile project service recreate inherit timeout
                       expected (S i) rest (setUpdated i container (egGo st r))
              end
        end
  end.

(** The scale-up loop: [count] iterations are left, the next one has
    index [i]. *)
Fixpoint scaleUp (project : Project.t) (service : Service.t) (next : Z)
    (actual : nat) (count : nat) (i : nat) (st : loopState)
    : Eng (loopState * option (Site * result unit)) :=
  match count with
  | O => Ret (st, None)
  | S count' =>
      let number := wrap (next + Z.of_nat i) in
      let name := getContainerName (Project.Name project) service number in
      let opts :=
        {| AutoRemove := false; AttachStdin := false;
           UseNetworkAliases := true;
           OptLabels := mergeLabels [Service.Labels service;
                                     Service.CustomLabels service] |} in
      cr <- createContainer project service name number opts ;;
      let st := setUpdated (actual + i) (fst cr) st in
      match snd cr with
      | Panic => Ret (st, Some (AtPanic, Panic))
      | r => scaleUp project service next actual count' (S i) (egGo st r)
      end
  end.

Definition ensureService (c : convergence) (project : Project.t)
    (service : Service.t) (recreate : string) (inherit : bool)
    (timeout : option Z) : Eng (convergence * Site * result unit) :=
  if Service.Provider service then
    r <- call (RunPlugin project service "up") ;;
    Ret (c, AtProvider, r)
  else
    match getScale service with
    | Err e => Ret (c, AtScale, Err e)
    | Panic => Ret (c, AtPanic, Panic)
    | Ok expected =>
        let actual := length (getObservedState c (Service.Name service)) in
        if expected <? 0 then Ret (c, AtPanic, Panic)
        else
          let allocated := replicate (Z.to_nat expected) Summary.zero in
          match resolveServiceReferences c service with
          | (c1, _, Err e) => Ret (c1, AtReferences, Err e)
          | (c1, _, Panic) => Ret (c1, AtPanic, Panic)
          | (c1, service, Ok _) =>
              let name := Service.Name service in
              let containers :=
                traversal c1 service recreate (getObservedState c1 name) in
              let c2 := reorderInPlace c1 name (traversal c1 service recreate) in
              let st := {| conv := c2; updated := allocated; egErr := None |} in
              l <- reconcile project service recreate inherit timeout expected
                     0 containers st ;;
              match snd l with
              | Some (site, r) => Ret (conv (fst l), site, r)
              | None =>
                  let next := nextContainerNumber containers in
                  u <- scaleUp project service next actual
                         (Z.to_nat (expected - Z.of_nat actual)) 0 (fst l) ;;
                  match snd u with
                  | Some (site, r) => Ret (conv (fst u), site, r)
                  | None =>
                      let st := fst u in
                      Ret (setObservedState (conv st) name (updated st),
                           AtWait (updated st), egWait st)
                  end
              end
          end
    end.

End Reconciler.

(** ** Waiting for dependencies *)

(** Modelled from the spec: the condition strings of compose-go. *)
Definition ServiceConditionRunningOrHealthy : string := "running_or_healthy".
Definition ServiceConditionHealthy : string := "service_healthy".
Definition ServiceConditionCompletedSuccessfully : string :=
  "service_completed_successfully".

Record ServiceDependency := {
  Condition : string;
  Required : bool;
  Restart : bool
}.

(** How the goroutine that waits for one dependency ends: the condition
    is met ([Healthy] or [Exited] events, nil returned); an optional
    dependency failed ([Skipped] events and a warning, nil returned); an
    error is returned; the condition is not a supported one (a warning,
    nil returned); the context is done (nil returned); or a panic. *)
Inductive waitOutcome : Type :=
| Satisfied
| Skipped (reason : string)
| Failed (e : error)
| Unsupported
| ContextDone
| Crashed.

Section Wait.
Local Open Scope eng_scope.

Fixpoint isServiceHealthy (containers : Containers) (fallbackRunning : bool)
    : Eng (result bool) :=
  match containers with
  | [] => Ret (Ok true)
  | c :: rest =>
      r <- call (ContainerInspect (Summary.ID c)) ;;
      match r with
      | Err e => Ret (Err e)
      | Panic => Ret Panic
      | Ok container =>
          match sliceFrom (Inspect.Name container) 1 with
          | Ok name =>
              match Inspect.State container with
              | None => Ret Panic
              | Some state =>
                  if String.eqb (Inspect.Status state) "exited" then
                    Ret (Err ("container " ++ name ++ " exited ("
                                ++ Itoa (Inspect.ExitCode state) ++ ")"))
                  else if negb (Inspect.Healthcheck container) && fallbackRunning
                  then Ret (Ok (String.eqb (Inspect.Status state) "running"))
                  else
                    match Inspect.Health state with
                    | None =>
                        Ret (Err ("container " ++ name
                                    ++ " has no healthcheck configured"))
                    | Some status =>
                        if String.eqb status Healthy
                        then isServiceHealthy rest fallbackRunning
                        else if String.eqb status Unhealthy
                        then Ret (Err ("container " ++ name ++ " is unhealthy"))
                        else if String.eqb status Starting
                        then Ret (Ok false)
                        else Ret (Err ("container " ++ name
                                         ++ " had unexpected health status "
                                         ++ Quote status))
                    end
              end
          | _ => Ret Panic
          end
      end
  end.

(** [isServiceCompleted]: whether a container has exited, and its exit
    code. *)
Fixpoint isServiceCompleted (containers : Containers)
    : Eng (result (bool * Z)) :=
  match containers with
  | [] => Ret (Ok (false, 0))
  | c :: rest =>
      r <- call (ContainerInspect (Summary.ID c)) ;;
      match r with
      | Err e => Ret (Err e)
      | Panic => Ret Panic
      | Ok container =>
          match Inspect.State container with
          | Some state =>
              if String.eqb (Inspect.Status state) "exited"
              then Ret (Ok (true, Inspect.ExitCode state))
              else isServiceCompleted rest
          | None => isServiceCompleted rest
          end
      end
  end.

(** One round of the polling loop of [waitDependencies], once the ticker
    has fired: [Some] ends the goroutine, [None] goes round again. *)
Definition waitTick (dep : string) (config : ServiceDependency)
    (waitingFor : Containers) : Eng (option waitOutcome) :=
  if String.eqb (Condition config) ServiceConditionRunningOrHealthy then
    h <- isServiceHealthy waitingFor true ;;
    match h with
    | Err e =>
        if negb (Required config)
        then Ret (Some (Skipped ("optional dependency " ++ Quote dep
                                   ++ " is not running or is unhealthy")))
        else Ret (Some (Failed e))
    | Panic => Ret (Some Crashed)
    | Ok true => Ret (Some Satisfied)
    | Ok false => Ret None
    end
  else if String.eqb (Condition config) ServiceConditionHealthy then
    h <- isServiceHealthy waitingFor false ;;
    match h with
    | Err e =>
        if negb (Required config)
        then Ret (Some (Skipped ("optional dependency " ++ Quote dep
                                   ++ " failed to start")))
        else Ret (Some (Failed ("dependency failed to start: " ++ e)))
    | Panic => Ret (Some Crashed)
    | Ok true => Ret (Some Satisfied)
    | Ok false => Ret None
    end
  else if String.eqb (Condition config) ServiceConditionCompletedSuccessfully then
    x <- isServiceCompleted waitingFor ;;
    match x with
    | Err e => Ret (Some (Failed e))
    | Panic => Ret (Some Crashed)
    | Ok (true, code) =>
        if code =? 0 then Ret (Some Satisfied)
        else
          let messageSuffix :=
            Quote dep ++ " didn't complete successfully: exit " ++ Itoa code in
          if negb (Required config)
          then Ret (Some (Skipped ("optional dependency " ++ messageSuffix)))
          else Ret (Some (Failed ("service " ++ messageSuffix)))
    | Ok (false, _) => Ret None
    end
  else Ret (Some Unsupported).

(** The goroutine: a round per tick, until a round ends it or the context
    is done, which happens here after [ticks] rounds. *)
Fixpoint waitFor (ticks : nat) (dep : string) (config : ServiceDependency)
    (waitingFor : Containers) : Eng waitOutcome :=
  match ticks with
  | O => Ret ContextDone
  | S ticks' =>
      r <- waitTick dep config waitingFor ;;
      match r with
      | Some outcome => Ret outcome
      | None => waitFor ticks' dep config waitingFor
      end
  end.

End Wait.

(** An engine that answers every inspection from one fixed snapshot, as
    within one round of a poll. *)
Definition snapshotEngine (inspect : string -> result Inspect.t) : Engine :=
  {| EState := unit;
     respond := fun s op =>
       (match op as o return result (Resp o) with
        | ContainerInspect id => inspect id
        | _ => Err "not a query"
        end, s) |}.

(** ** A concrete set of collaborators, and sample inputs *)

Module Sample.

(** Modelled from the spec: [sorted], the deterministic ordering of a
    container set, is declared in another file of the package: ascending
    container number, containers without a parseable number last, ties by
    ascending creation time, then by id. *)
Definition tieLess (a b : Summary.t) : bool :=
  (Summary.Created a <? Summary.Created b)
  || ((Summary.Created a =? Summary.Created b)
      && String.ltb (Summary.ID a) (Summary.ID b)).

Definition sortedLess (numberLabel : string) (a b : Summary.t) : bool :=
  match Atoi (Summary.label a numberLabel), Atoi (Summary.label b numberLabel) with
  | Some x, Some y => (x <? y) || ((x =? y) && tieLess a b)
  | Some _, None => true
  | None, Some _ => false
  | None, None => tieLess a b
  end.

Definition numberLabel : string := "com.docker.compose.container-number".

Definition sortedByNumber (containers : Containers) : Containers :=
  sort_Slice (sortedLess numberLabel) containers.

(** A stand-in for the digest of the service configuration. *)
Definition digest (s : Service.t) : string + error :=
  inl ("sha:" ++ Service.Name s ++ "/" ++ Service.NetworkMode s ++ "/"
        ++ Join (Service.VolumesFrom s) ",").

(** API versions compare component by component. *)
Fixpoint versionLess (a b : list string) : bool :=
  match a, b with
  | [], [] => false
  | [], _ :: _ => true
  | _ :: _, [] => false
  | x :: a', y :: b' =>
      match Atoi x, Atoi y with
      | Some n, Some m =>
          if n <? m then true else if m <? n then false else versionLess a' b'
      | _, _ => false
      end
  end.

#[export] Instance ext : Externals := {|
  Separator := "-";
  ContainerNumberLabel := numberLabel;
  ConfigHashLabel := "com.docker.compose.config-hash";
  ImageDigestLabel := "com.docker.compose.image";
  ContainerReplaceLabel := "com.docker.compose.replace";
  TypeVolume := "volume";
  ServiceHash := digest;
  sorted := sortedByNumber;
  platforms_Parse := fun p => Ok p;
  versions_LessThan := fun a b => versionLess (Split a ".") (Split b ".")
|}.

(** A container of project [app] with the given id, number label, state
    and creation time, whose hash label is [hash]. *)
Definition ctr (id number hash state : string) (created : Z) : Summary.t :=
  {| Summary.ID := id;
     Summary.Names := ["/app-" ++ id];
     Summary.Labels :=
       <[numberLabel := number]>
         (<["com.docker.compose.config-hash" := hash]> ∅);
     Summary.State := state;
     Summary.Created := created;
     Summary.Networks := ∅;
     Summary.Mounts := [] |}.

Definition svc (name containerName : string) (scale : Z) (provider : bool)
    : Service.t :=
  {| Service.Name := name; Service.ContainerName := containerName;
     Service.Scale := scale; Service.Provider := provider;
     Service.Platform := ""; Service.Labels := ∅; Service.CustomLabels := ∅;
     Service.Networks := ∅; Service.NetworksByPriority := [];
     Service.Volumes := []; Service.VolumesFrom := [];
     Service.NetworkMode := ""; Service.Ipc := ""; Service.Pid := "" |}.

Definition project : Project.t :=
  {| Project.Name := "app"; Project.Environment := ∅;
     Project.Networks := ∅; Project.Dependents := fun _ => [] |}.

Definition store (m : gmap string Containers) : convergence :=
  {| services := m; networks := None; volumes := None |}.

(** An engine on which every call succeeds; a created container gets the
    id [new] and is inspected under the name it was asked for. *)
Definition okInspect (id : string) : Inspect.t :=
  {| Inspect.ID := id; Inspect.Name := "/" ++ id; Inspect.State := None;
     Inspect.Healthcheck := false; Inspect.ConfigLabels := ∅;
     Inspect.Networks := ∅ |}.

Definition okEngine : Engine :=
  {| EState := unit;
     respond := fun s op =>
       (match op as o return result (Resp o) with
        | GetCreateConfigs _ _ _ _ _ =>
            Ok {| HostNetworkMode := "default"; Links := [] |}
        | ContainerCreate _ _ name =>
            Ok {| RespID := "new_" ++ name; Warnings := [] |}
        | ContainerInspect id => Ok (okInspect id)
        | RuntimeVersion => Ok "1.47"
        | RunPlugin _ _ _ => Ok tt
        | StopServices _ _ => Ok tt
        | StopAndRemoveContainer _ _ _ _ => Ok tt
        | NetworkConnect _ _ _ => Ok tt
        | ContainerStop _ _ => Ok tt
        | ContainerRemove _ => Ok tt
        | ContainerRename _ _ => Ok tt
        | ContainerStart _ => Ok tt
        end, s) |}.

End Sample.

(** ** Vocabulary of the statements *)

(** The order a slice is in when no element should come before its left
    neighbour; [settled less y z] reads on the slice held last element
    first, [y] being the right neighbour of [z]. *)
Definition settled {A : Type} (less : A -> A -> bool) (y z : A) : Prop :=
  less y z = false.

(** The service a volumes-from entry names: its first segment, unless
    that segment is the word [container]. *)
Definition volumeService (vol : string) : option string :=
  match Split vol ":" with
  | name :: _ => if String.eqb name "container" then None else Some name
  | [] => None
  end.

(** The service a namespace mode of the form [service:<svc>] names. *)
Definition modeService (mode : string) : option string :=
  let name := getDependentServiceFromMode mode in
  if String.eqb name "" then None else Some name.

(** All services a service configuration refers to. *)
Definition referencedServices (service : Service.t) : list string :=
  (omap volumeService (Service.VolumesFrom service)
   ++ omap modeService
        [Service.NetworkMode service; Service.Ipc service; Service.Pid service])%list.

(** The id of the first observed container of [name] under the
    deterministic ordering. *)
Definition firstContainerID {ext : Externals} (c : convergence) (name : string)
    : option string :=
  Summary.ID <$> head (sorted (getObservedState c name)).

(** What a resolved volumes-from entry must be, given the entry before
    the rewrite. *)
Definition volumeResolved {ext : Externals} (c : convergence)
    (vol new : string) : Prop :=
  (forall id rest, Split vol ":" = "container" :: id :: rest -> new = id)
  /\ (forall name, volumeService vol = Some name ->
      firstContainerID c name = Some new).

(** What a resolved namespace mode must be. *)
Definition modeResolved {ext : Externals} (c : convergence)
    (mode new : string) : Prop :=
  (modeService mode = None -> new = mode)
  /\ (forall name, modeService mode = Some name ->
      exists id, firstContainerID c name = Some id
                 /\ new = ContainerPrefix ++ id).

(** The store [c] holds the containers of [c0], each service in the
    order of [c0] or in the deterministic order. *)
Definition reordered {ext : Externals} (c0 c : convergence) : Prop :=
  forall name,
    getObservedState c name = getObservedState c0 name
    \/ getObservedState c name = sorted (getObservedState c0 name).

(** A reference that names a service without observed container and
    that the rewritten configuration [service'] still holds as it was. *)
Definition danglingReference (c : convergence) (service service' : Service.t)
    : Prop :=
  (exists (i : nat) (vol name : string),
      Service.VolumesFrom service !! i = Some vol
      /\ volumeService vol = Some name
      /\ getObservedState c name = []
      /\ Service.VolumesFrom service' !! i = Some vol)
  \/ (exists name, modeService (Service.NetworkMode service) = Some name
        /\ getObservedState c name = []
        /\ Service.NetworkMode service' = Service.NetworkMode service)
  \/ (exists name, modeService (Service.Ipc service) = Some name
        /\ getObservedState c name = []
        /\ Service.Ipc service' = Service.Ipc service)
  \/ (exists name, modeService (Service.Pid service) = Some name
        /\ getObservedState c name = []
        /\ Service.Pid service' = Service.Pid service).

(** The container numbers that parse, in the order of the list. *)
Definition numbers {ext : Externals} (containers : Containers) : list Z :=
  omap (fun c => Atoi (Summary.label c ContainerNumberLabel)) containers.

(** What a trace shows of the creation of containers: the numbers the
    create configurations were asked for, and the names given to
    [ContainerCreate]. *)
Definition requestedNumber (op : Op) : option Z :=
  match op with
  | GetCreateConfigs _ _ number _ _ => Some number
  | _ => None
  end.

Definition createdName (op : Op) : option string :=
  match op with
  | ContainerCreate _ _ name => Some name
  | _ => None
  end.

(** The steps a trace shows, every call but the inspection of a
    container, the version query and the connection of a network: the
    steps of the recreate protocol, the start of a container, and any
    call to the other methods of the service. *)
Inductive step : Type :=
| Configure (number : Z) (inherit : option Summary.t) (labels : gmap string string)
| Create (name : string)
| Stop (id : string) (timeout : option Z)
| Remove (id : string)
| Rename (from to : string)
| Start (id : string)
| Outside (op : Op).

Definition stepOf (op : Op) : option step :=
  match op with
  | GetCreateConfigs _ _ number inherit opts => Some (Configure number inherit (OptLabels opts))
  | ContainerCreate _ _ name => Some (Create name)
  | ContainerStop id timeout => Some (Stop id timeout)
  | ContainerRemove id => Some (Remove id)
  | ContainerRename from to => Some (Rename from to)
  | ContainerStart id => Some (Start id)
  | ContainerInspect _ | RuntimeVersion | NetworkConnect _ _ _ => None
  | op => Some (Outside op)
  end.

(** The containers the steps bring about, each with its name and the
    number it was configured with: a creation adds one under the number
    configured last, a renaming changes the name. *)
Fixpoint born (steps : list step) (pending : Z) (cs : list (string * Z))
    : list (string * Z) :=
  match steps with
  | [] => cs
  | Configure number _ _ :: rest => born rest number cs
  | Create name :: rest => born rest pending (cs ++ [(name, pending)])%list
  | Rename from to :: rest =>
      born rest pending
        (map (fun c => if String.eqb (fst c) from then (to, snd c) else c) cs)
  | _ :: rest => born rest pending cs
  end.

(** The steps of a recreate that runs to its end. *)
Definition recreateSteps {ext : Externals} (project : Project.t)
    (service : Service.t) (replaced : Summary.t) (inherit : bool)
    (timeout : option Z) (number : Z) (prefix : string) : list step :=
  let name := getContainerName (Project.Name project) service number in
  let tmpName := prefix ++ "_" ++ name in
  let replacedContainerName :=
    if String.eqb (Service.ContainerName service) ""
    then Service.Name service ++ Separator ++ Itoa number
    else Service.ContainerName service in
  [Configure number (if inherit then Some replaced else None)
     (<[ContainerReplaceLabel := replacedContainerName]>
        (mergeLabels [Service.Labels service; Service.CustomLabels service]));
   Create tmpName;
   Stop (Summary.ID replaced) timeout;
   Remove (Summary.ID replaced);
   Rename tmpName name].

(** An inspection that shows a container in health status [Healthy]:
    it has a name, a state that is not exited, and that health status. *)
Definition reportsHealthy (r : result Inspect.t) : bool :=
  match r with
  | Ok container =>
      match Inspect.State container with
      | Some state =>
          negb (String.eqb (Inspect.Name container) "")
          && negb (String.eqb (Inspect.Status state) "exited")
          && match Inspect.Health state with
             | Some status => String.eqb status Healthy
             | None => false
             end
      | None => false
      end
  | _ => false
  end.

(** The first container of the list, in its order, that an inspection
    does not show healthy. *)
Definition firstNotHealthy (inspect : string -> result Inspect.t)
    (containers : Containers) : option Summary.t :=
  find (fun c => negb (reportsHealthy (inspect (Summary.ID c)))) containers.

(** The exit code of a container that an inspection shows exited. *)
Definition exitedWith (r : result Inspect.t) : option Z :=
  match r with
  | Ok container =>
      match Inspect.State container with
      | Some state =>
          if String.eqb (Inspect.Status state) "exited"
          then Some (Inspect.ExitCode state)
          else None
      | None => None
      end
  | _ => None
  end.

(** The first container of the list, in its order, that has exited or
    whose inspection fails. *)
Definition firstExited (inspect : string -> result Inspect.t)
    (containers : Containers) : option Summary.t :=
  find (fun c => negb (isOk (inspect (Summary.ID c)))
                 || match exitedWith (inspect (Summary.ID c)) with
                    | Some _ => true
                    | None => false
                    end)
       containers.

(** An early return of a loop of [ensureService] is not the return
    after the wait. *)
Definition notAtWait (x : option (Site * result unit)) : Prop :=
  forall site r u, x = Some (site, r) -> site <> AtWait u.

(** What [less] amounts to between two containers neither of which has
    to be recreated: the higher number first, or else the earlier
    creation first. *)
Definition lessUpToDate {ext : Externals} (ci cj : Summary.t) : bool :=
  match Atoi (Summary.label ci ContainerNumberLabel),
        Atoi (Summary.label cj ContainerNumberLabel) with
  | Some ni, Some nj => nj <? ni
  | _, _ => Summary.Created ci <? Summary.Created cj
  end.

Definition hasNumber {ext : Externals} (c : Summary.t) : Prop :=
  is_Some (Atoi (Summary.label c ContainerNumberLabel)).

(** The containers a trace hands to [stopAndRemoveContainer]. *)
Definition scaledDown (op : Op) : option Summary.t :=
  match op with
  | StopAndRemoveContainer ctr _ _ _ => Some ctr
  | _ => None
  end.

(** ** Inputs of the examples *)

Module Inputs.

(** A service that names its container, asks for two replicas and is
    delegated to a provider: the hook is called and its answer returned. *)
Definition providerService : Service.t := Sample.svc "db" "database" 2 true.

(** Two containers of [db], listed with number 2 first, and a service
    [web] that mounts the volumes of a container and of [db] and shares
    the network and PID namespaces of [db]. *)
Definition db1 : Summary.t := Sample.ctr "1111aaaa2222bbbb" "1" "h" "running" 100.
Definition db2 : Summary.t := Sample.ctr "3333cccc4444dddd" "2" "h" "running" 200.

Definition dbStore : convergence :=
  Sample.store (<["db" := [db2; db1]]> (<["web" := []]> ∅)).

Definition webService : Service.t :=
  {| Service.Name := "web"; Service.ContainerName := ""; Service.Scale := 1;
     Service.Provider := false; Service.Platform := "";
     Service.Labels := ∅; Service.CustomLabels := ∅;
     Service.Networks := ∅; Service.NetworksByPriority := [];
     Service.Volumes := [];
     Service.VolumesFrom := ["container:abc:ro"; "db:rw"];
     Service.NetworkMode := "service:db"; Service.Ipc := "host";
     Service.Pid := "service:db" |}.

(** A service whose only volumes-from entry is the word [container], as
    a reference to a service of that name is written. *)
Definition bareService : Service.t :=
  Service.withVolumesFrom ["container"] (Sample.svc "web" "" 1 false).

Definition containerStore : convergence :=
  Sample.store (<["container" := [db1]]> ∅).

(** A container whose number label is negative, and one whose number
    label is the largest [int]. *)
Definition negativeCtr : Summary.t := Sample.ctr "5555eeee6666ffff" "-3" "h" "running" 300.
Definition maxIntCtr : Summary.t :=
  Sample.ctr "7777aaaa8888bbbb" "9223372036854775807" "h" "running" 400.

(** The service [db] of the two containers above, and an engine on which
    the removal of a container fails. *)
Definition dbService : Service.t := Sample.svc "db" "" 1 false.

Definition noRemoveEngine : Engine :=
  {| EState := unit;
     respond := fun s op =>
       match op as o return result (Resp o) * unit with
       | ContainerRemove _ => (Err "removal in progress", s)
       | o => respond Sample.okEngine s o
       end |}.

(** Inspections of two containers of a dependency, [a] listed before
    [b]. *)
Definition inspected (name status : string) (code : Z) (health : option string)
    : Inspect.t :=
  {| Inspect.ID := name; Inspect.Name := "/" ++ name;
     Inspect.State := Some {| Inspect.Status := status; Inspect.ExitCode := code;
                              Inspect.Health := health |};
     Inspect.Healthcheck := true; Inspect.ConfigLabels := ∅;
     Inspect.Networks := ∅ |}.

Definition depA : Summary.t := Sample.ctr "a" "1" "h" "running" 1.
Definition depB : Summary.t := Sample.ctr "b" "2" "h" "running" 2.

(** [a] is still starting while [b] is unhealthy. *)
Definition startingThenUnhealthy (id : string) : result Inspect.t :=
  if String.eqb id "a" then Ok (inspected "a" "running" 0 (Some Starting))
  else Ok (inspected "b" "running" 0 (Some Unhealthy)).

(** [a] has exited with code 1 and [b] with code 0. *)
Definition failedThenSucceeded (id : string) : result Inspect.t :=
  if String.eqb id "a" then Ok (inspected "a" "exited" 1 None)
  else Ok (inspected "b" "exited" 0 None).

(** [a] is healthy and [b] still starting. *)
Definition healthyThenStarting (id : string) : result Inspect.t :=
  if String.eqb id "a" then Ok (inspected "a" "running" 0 (Some Healthy))
  else Ok (inspected "b" "running" 0 (Some Starting)).

(** [a] is still running and [b] has exited with code 0. *)
Definition runningThenSucceeded (id : string) : result Inspect.t :=
  if String.eqb id "a" then Ok (inspected "a" "running" 0 None)
  else Ok (inspected "b" "exited" 0 None).

Definition requiredDep (condition : string) : ServiceDependency :=
  {| Condition := condition; Required := true; Restart := false |}.
Definition optionalDep (condition : string) : ServiceDependency :=
  {| Condition := condition; Required := false; Restart := false |}.

(** An engine on which the creation of a container fails. *)
Definition noCreateEngine : Engine :=
  {| EState := unit;
     respond := fun s op =>
       match op as o return result (Resp o) * unit with
       | ContainerCreate _ _ _ => (Err "no such image", s)
       | o => respond Sample.okEngine s o
       end |}.

(** The service [db] asked for at three replicas. *)
Definition dbService3 : Service.t := Sample.svc "db" "" 3 false.

(** The two containers of [db] with the hash label its configuration
    has, so that neither has diverged. *)
Definition hashOfDb : string := "sha:db//".
Definition dbA : Summary.t := Sample.ctr "1111aaaa2222bbbb" "1" hashOfDb "running" 100.
Definition dbB : Summary.t := Sample.ctr "3333cccc4444dddd" "2" hashOfDb "running" 200.
Definition dbStoreAB : convergence := Sample.store (<["db" := [dbA; dbB]]> ∅).

End Inputs.

(** * Further code of the file *)

From Stdlib Require DecimalZ.

(** ** Building the observed state *)

(** [newConvergence]: every listed service gets an empty entry, then each
    container that is not a one-off is appended to the entry of the
    service its label names.  The label [api.ServiceLabel] and the
    predicate [isNotOneOff] are declared in other files and are
    parameters here; [filter] keeps the containers the predicate
    accepts, in their order. *)
Definition newConvergence (ServiceLabel : string)
    (isNotOneOff : Summary.t -> bool) (serviceNames : list string)
    (state : Containers) (networks volumes : option (gmap string string))
    : convergence :=
  let observedState : gmap string Containers :=
    fold_left (fun m s => <[s := []]> m) serviceNames ∅ in
  let observedState :=
    fold_left
      (fun m c =>
         let service := Summary.label c ServiceLabel in
         <[service := (default [] (m !! service) ++ [c])%list]> m)
      (List.filter isNotOneOff state) observedState in
  {| services := observedState; networks := networks; volumes := volumes |}.

(** ** Vocabulary of the further statements *)

(** A declared network, not the [swarm] one, to which no endpoint of the
    container is attached. *)
Definition missingNetwork (expected : Service.t) (actual : Summary.t)
    (nets : gmap string string) : Prop :=
  exists net,
    net ∈ Service.Networks expected
    /\ default "" (nets !! net) <> "swarm"
    /\ forall name id, Summary.Networks actual !! name = Some id ->
                       id <> default "" (nets !! net).

(** A declared named volume with a source of which the container has no
    volume mount. *)
Definition missingVolume {ext : Externals} (expected : Service.t)
    (actual : Summary.t) (vols : gmap string string) : Prop :=
  exists vol,
    In vol (Service.Volumes expected)
    /\ Service.VolType vol = TypeVolume
    /\ Service.VolSource vol <> ""
    /\ forall m, In m (Summary.Mounts actual) ->
                 Summary.MountType m = TypeVolume ->
                 Summary.MountName m <> default "" (vols !! Service.VolSource vol).

(** The calls [ensureService] makes for containers none of which has to
    be recreated, the one at the head having index [i]: below the index
    [expected] a container that is not running, created, restarting or
    exited is started, from that index on each container is stopped and
    removed. *)
Fixpoint upToDateCalls (service : Service.t) (timeout : option Z)
    (expected : Z) (i : nat) (todo : Containers) : list Op :=
  match todo with
  | [] => []
  | ctr :: rest =>
      ((if expected <=? Z.of_nat i
        then [StopAndRemoveContainer ctr service timeout false]
        else if isSettled (Summary.State ctr) then []
             else [ContainerStart (Summary.ID ctr)])
       ++ upToDateCalls service timeout expected (S i) rest)%list
  end.

(** The slots of [updated] these containers are copied to. *)
Fixpoint keepUpToDate (expected : Z) (i : nat) (todo : Containers)
    (slots : Containers) : Containers :=
  match todo with
  | [] => slots
  | ctr :: rest =>
      keepUpToDate expected (S i) rest
        (if expected <=? Z.of_nat i then slots else <[i := ctr]> slots)
  end.

(** The calls that create a container: its configuration, its creation,
    its inspection, the version query and the network connections. *)
Definition isCreationOp (op : Op) : Prop :=
  match op with
  | GetCreateConfigs _ _ _ _ _ | ContainerCreate _ _ _ | ContainerInspect _
  | RuntimeVersion | NetworkConnect _ _ _ => True
  | _ => False
  end.

(** The calls by which the recreate protocol replaces a container. *)
Definition isReplaceOp (op : Op) : Prop :=
  match op with
  | ContainerStop _ _ | ContainerRemove _ | ContainerRename _ _ => True
  | _ => False
  end.

(** The network connections [createMobyContainer] makes after the
    creation on an engine older than API 1.44: one for each network of
    the service, by priority, but the one the host configuration names. *)
Fixpoint connectCalls (project : Project.t) (service : Service.t)
    (number : Z) (cfgs : createConfigs) (opts : createOptions)
    (created : Summary.t) (keys : list string) : list Op :=
  match keys with
  | [] => []
  | networkKey :: rest =>
      let mobyNetworkName := default "" (Project.Networks project !! networkKey) in
      if String.eqb (HostNetworkMode cfgs) mobyNetworkName
      then connectCalls project service number cfgs opts created rest
      else NetworkConnect mobyNetworkName (Summary.ID created)
             {| epService := service; epNumber := number;
                epNetworkKey := networkKey; epLinks := Links cfgs;
                epUseNetworkAliases := UseNetworkAliases opts |}
           :: connectCalls project service number cfgs opts created rest
  end.

(** The summary [createMobyContainer] makes of the inspection of the
    container it created. *)
Definition summaryOf (inspected : Inspect.t) : Summary.t :=
  {| Summary.ID := Inspect.ID inspected;
     Summary.Names := [Inspect.Name inspected];
     Summary.Labels := Inspect.ConfigLabels inspected;
     Summary.State := "";
     Summary.Created := 0;
     Summary.Networks := Inspect.Networks inspected;
     Summary.Mounts := [] |}.

Definition isInspection (op : Op) : bool :=
  match op with
  | ContainerInspect _ => true
  | _ => false
  end.

(** Whether a call is the inspection of one of the given containers. *)
Definition inspects (containers : Containers) (op : Op) : Prop :=
  exists c, In c containers /\ op = ContainerInspect (Summary.ID c).

(** ** The loop of [waitDependencies] *)

(** Modelled from the spec: the condition [types.ServiceConditionStarted]
    of compose-go. *)
Definition ServiceConditionStarted : string := "service_started".

Section WaitDependencies.

(** What the project answers to [GetService] and its
    [DisabledServices], of compose-go, and the container filters
    [isService] and [isNotOneOff] of the package. *)
Variable GetService : string -> Service.t + error.
Variable DisabledServices : list Service.t.
Variable isService : string -> Summary.t -> bool.
Variable isNotOneOff : Summary.t -> bool.

Definition shouldWaitForDependency (serviceName : string)
    (dependencyConfig : ServiceDependency) : result bool :=
  if String.eqb (Condition dependencyConfig) ServiceConditionStarted
  then Ok false
  else
    match GetService serviceName with
    | inr err =>
        if existsb (fun ds => String.eqb (Service.Name ds) serviceName)
             DisabledServices
        then Ok false
        else Err err
    | inl service =>
        if Service.Scale service =? 0 then Ok false
        else if Service.Provider service then Ok false
        else Ok true
    end.

(** A goroutine handed to the error group: the dependency, its
    configuration and the containers it waits for. *)
Definition waiter : Type := string * ServiceDependency * Containers.

Definition waitingFor (dep : string) (containers : Containers) : Containers :=
  List.filter (fun c => isService dep c && isNotOneOff c) containers.

(** The [for] loop of [waitDependencies] over the dependencies, in the
    order [range] visits them: the goroutines it has handed to the group
    so far, and the error it returns at once, if any. *)
Fixpoint waitDependenciesLoop (dependant : string)
    (dependencies : list (string * ServiceDependency)) (containers : Containers)
    (launched : list waiter) : list waiter * result unit :=
  match dependencies with
  | [] => (launched, Ok tt)
  | (dep, config) :: rest =>
      match shouldWaitForDependency dep config with
      | Err err => (launched, Err err)
      | Panic => (launched, Panic)
      | Ok false => waitDependenciesLoop dependant rest containers launched
      | Ok true =>
          let waitingFor := waitingFor dep containers in
          if (length waitingFor =? 0)%nat then
            if Required config
            then (launched, Err (dependant ++ " is missing dependency " ++ dep))
            else waitDependenciesLoop dependant rest containers launched
          else waitDependenciesLoop dependant rest containers
                 (launched ++ [(dep, config, waitingFor)])%list
      end
  end.

End WaitDependencies.

(** ** Links *)

(** [strings.TrimPrefix]. *)
Definition TrimPrefix (s p : string) : string :=
  if HasPrefix s p
  then String.substring (String.length p) (String.length s - String.length p) s
  else s.

Section Links.
Context {ext : Externals}.

(** The closure [getServiceContainers] of [getLinks], which asks
    [getContainers] of the package for the containers of a service,
    [getCanonicalContainerName] of the package, the label
    [api.OneoffLabel], and the fields [Links] and [ExternalLinks] of the
    service. *)
Variable getServiceContainers : string -> result Containers.
Variable getCanonicalContainerName : Summary.t -> string.
Variable OneoffLabel : string.

Definition format (k v : string) : string := k ++ ":" ++ v.

(** The service and the alias a link names: the alias is the second
    piece when there are exactly two. *)
Definition splitLink (raw : string) : result (string * string) :=
  match Split raw ":" with
  | [] => Panic
  | name :: rest =>
      Ok (name, match rest with
                | [linkName] => linkName
                | _ => name
                end)
  end.

Fixpoint linksOfServices (projectName : string) (number : Z)
    (rawLinks : list string) (links : list string) : result (list string) :=
  match rawLinks with
  | [] => Ok links
  | rawLink :: rest =>
      match splitLink rawLink with
      | Panic => Panic
      | Err e => Err e
      | Ok (linkServiceName, linkName) =>
          match getServiceContainers linkServiceName with
          | Err e => Err e
          | Panic => Panic
          | Ok cnts =>
              linksOfServices projectName number rest
                (links ++ flat_map
                   (fun c =>
                      let containerName := getCanonicalContainerName c in
                      [format containerName linkName;
                       format containerName
                         (linkServiceName ++ Separator ++ Itoa number);
                       format containerName
                         (Join [projectName; linkServiceName; Itoa number]
                            Separator)])
                   cnts)%list
          end
      end
  end.

Fixpoint externalLinks (rawExtLinks : list string) (links : list string)
    : result (list string) :=
  match rawExtLinks with
  | [] => Ok links
  | rawExtLink :: rest =>
      match splitLink rawExtLink with
      | Panic => Panic
      | Err e => Err e
      | Ok (externalLink, linkName) =>
          externalLinks rest (links ++ [format externalLink linkName])%list
      end
  end.

Definition getLinks (projectName : string) (service : Service.t)
    (Links ExternalLinks : list string) (number : Z) : result (list string) :=
  match linksOfServices projectName number Links [] with
  | Err e => Err e
  | Panic => Panic
  | Ok links =>
      if String.eqb (default "" (Service.Labels service !! OneoffLabel)) "True"
      then
        match getServiceContainers (Service.Name service) with
        | Err e => Err e
        | Panic => Panic
        | Ok cnts =>
            externalLinks ExternalLinks
              (links ++ flat_map
                 (fun c =>
                    let containerName := getCanonicalContainerName c in
                    [format containerName (Service.Name service);
                     format containerName
                       (TrimPrefix containerName (projectName ++ Separator));
                     format containerName containerName])
                 cnts)%list
        end
      else externalLinks ExternalLinks links
  end.

(** The number of containers the lookup of a service answers with. *)
Definition containerCount (serviceName : string) : nat :=
  match getServiceContainers serviceName with
  | Ok cnts => length cnts
  | _ => 0%nat
  end.

Definition linkedService (raw : string) : string :=
  match splitLink raw with
  | Ok (name, _) => name
  | _ => ""
  end.

End Links.

(** ** Further sample inputs *)

Module Cases.

(** The collaborators of [Sample] with a service hash that fails. *)
Definition brokenHash : Externals := {|
  Separator := "-";
  ContainerNumberLabel := Sample.numberLabel;
  ConfigHashLabel := "com.docker.compose.config-hash";
  ImageDigestLabel := "com.docker.compose.image";
  ContainerReplaceLabel := "com.docker.compose.replace";
  TypeVolume := "volume";
  ServiceHash := fun _ => inr "json: unsupported value";
  sorted := Sample.sortedByNumber;
  platforms_Parse := fun p => Ok p;
  versions_LessThan := fun a b => Sample.versionLess (Split a ".") (Split b ".")
|}.

(** The service [db] asked for at no replica and at two. *)
Definition dbService0 : Service.t := Sample.svc "db" "" 0 false.
Definition dbService2 : Service.t := Sample.svc "db" "" 2 false.

(** A service that mounts the volumes of [db], and one that shares its
    network namespace. *)
Definition sidecar : Service.t :=
  Service.withVolumesFrom ["db:ro"] (Sample.svc "web" "" 1 false).
Definition netSidecar : Service.t :=
  Service.withNetworkMode "service:db" (Sample.svc "web" "" 1 false).

(** A project in which [web] depends on every service and restarts with
    it, and a store with a container of each. *)
Definition dependentsProject : Project.t :=
  {| Project.Name := "app"; Project.Environment := ∅;
     Project.Networks := ∅; Project.Dependents := fun _ => ["web"] |}.
Definition webStore : convergence :=
  Sample.store (<["web" := [Inputs.db1]]> (<["db" := [Inputs.db2]]> ∅)).

(** A container whose number label is not a number, and one with a short
    id. *)
Definition unnumbered : Summary.t :=
  Sample.ctr "1111aaaa2222bbbb" "one" "h" "running" 1.
Definition shortId : Summary.t := Sample.ctr "abc" "1" "h" "running" 1.

(** Every container runs without a healthcheck; no container can be
    inspected. *)
Definition plainRunning (id : string) : result Inspect.t :=
  Ok {| Inspect.ID := id; Inspect.Name := "/" ++ id;
        Inspect.State := Some {| Inspect.Status := "running";
                                 Inspect.ExitCode := 0;
                                 Inspect.Health := None |};
        Inspect.Healthcheck := false; Inspect.ConfigLabels := ∅;
        Inspect.Networks := ∅ |}.
Definition unreachable (id : string) : result Inspect.t :=
  Err ("No such container: " ++ id).

(** A project that knows the service [db] only. *)
Definition knownServices (name : string) : Service.t + error :=
  if String.eqb name "db" then inl Inputs.dbService
  else inr ("no such service: " ++ name).

End Cases.

(** * Properties *)

(** ** Go primitives on sample inputs *)

Example Split_ex1 : Split "container:abc:ro" ":" = ["container"; "abc"; "ro"].
Proof. reflexivity. Qed.
Example Split_ex2 : Split "container" ":" = ["container"].
Proof. reflexivity. Qed.
Example Split_ex3 : Split "" ":" = [""].
Proof. reflexivity. Qed.
Example Atoi_ex1 : Atoi "12" = Some 12 /\ Atoi "-3" = Some (-3) /\ Atoi "+7" = Some 7
  /\ Atoi "" = None /\ Atoi "-" = None /\ Atoi "1a" = None
  /\ Atoi "9223372036854775807" = Some MaxInt
  /\ Atoi "9223372036854775808" = None
  /\ Atoi "-9223372036854775808" = Some MinInt.
Proof. vm_compute. repeat split. Qed.
Example Itoa_ex1 : Itoa 0 = "0" /\ Itoa 12 = "12" /\ Itoa (-5) = "-5".
Proof. vm_compute. repeat split. Qed.


(** ** Running computations against an engine *)

Lemma run_bind {A B} (E : Engine) (m : Eng A) (f : A -> Eng B) (s : EState E) :
  run E (bind m f) s =
  let '(a, s1, tr1) := run E m s in
  let '(b, s2, tr2) := run E (f a) s1 in
  (b, s2, (tr1 ++ tr2)%list).
Proof.
  revert s. induction m as [a | op k IH]; intros s; simpl.
  - destruct (run E (f a) s) as [[b s2] tr2]. reflexivity.
  - destruct (respond E s op) as [r s1]. rewrite IH.
    destruct (run E (k r) s1) as [[a s2] tr1].
    destruct (run E (f a) s2) as [[b s3] tr2]. reflexivity.
Qed.

Lemma run_call (E : Engine) (op : Op) (s : EState E) :
  run E (call op) s = (fst (respond E s op), snd (respond E s op), [op]).
Proof. simpl. destruct (respond E s op). reflexivity. Qed.

(** ** Divergence detector *)

(** C3: under the policy [never] the detector answers false and under the
    policy [force] it answers true, for every desired service, observed
    container and network and volume maps, whatever the hash, the image
    digest, the network attachment and the mounts are. *)
Theorem mustRecreate_never_force :
  forall (ext : Externals) (c : convergence) (expected : Service.t)
         (actual : Summary.t),
    mustRecreate c expected actual RecreateNever = Ok false
    /\ mustRecreate c expected actual RecreateForce = Ok true.
Proof.
  intros ext c expected actual. split; reflexivity.
Qed.

(** ** Scale and custom container names *)

Lemma getScale_doubled (service : Service.t) :
  1 < Service.Scale service ->
  Service.ContainerName service <> "" ->
  getScale service =
  Err (doubledContainerNameWarning (Service.Name service)
         (Service.ContainerName service)).
Proof.
  intros Hs Hn. unfold getScale.
  apply Z.ltb_lt in Hs. rewrite Hs.
  apply String.eqb_neq in Hn. rewrite Hn. reflexivity.
Qed.

Lemma getScale_single (service : Service.t) :
  Service.Scale service <= 1 ->
  getScale service = Ok (Service.Scale service).
Proof.
  intros Hs. unfold getScale.
  destruct (Z.ltb_spec 1 (Service.Scale service)) as [H | H]; [lia |].
  reflexivity.
Qed.

(** C9, as stated, fails on a provider service: [ensureService] hands it
    to the provider hook before looking at the scale, so with a hook that
    succeeds no error is returned although the service has a custom
    container name and a scale of 2. *)
Lemma ensureService_provider_skips_scale_check :
  Service.ContainerName Inputs.providerService <> ""
  /\ 1 < Service.Scale Inputs.providerService
  /\ run Sample.okEngine
       (ensureService (ext := Sample.ext) (Sample.store ∅) Sample.project Inputs.providerService
          "diverged" false None) tt
     = ((Sample.store ∅, AtProvider, Ok tt), tt,
        [RunPlugin Sample.project Inputs.providerService "up"]).
Proof.
  split; [discriminate |]. split; [reflexivity |]. reflexivity.
Qed.

(** C9 (amended): for every service that is not delegated to a provider
    and declares a custom container name, [ensureService] with a scale
    above 1 returns the error on any engine without issuing a call and
    with the store as it was; with a scale of at most 1 the scale is
    accepted. *)
Theorem ensureService_custom_name_scale :
  forall (ext : Externals) (E : Engine) (s : EState E) (c : convergence)
         (project : Project.t) (service : Service.t) (recreate : string)
         (inherit : bool) (timeout : option Z),
    Service.Provider service = false ->
    Service.ContainerName service <> "" ->
    (1 < Service.Scale service ->
     run E (ensureService c project service recreate inherit timeout) s
     = ((c, AtScale,
         Err (doubledContainerNameWarning (Service.Name service)
                (Service.ContainerName service))), s, []))
    /\ (Service.Scale service <= 1 ->
        getScale service = Ok (Service.Scale service)).
Proof.
  intros ext E s c project service recreate inherit timeout Hp Hn. split.
  - intros Hs. unfold ensureService. rewrite Hp.
    rewrite (getScale_doubled service Hs Hn). reflexivity.
  - apply getScale_single.
Qed.

Lemma ensureService_custom_name_scale_witness :
  run Sample.okEngine
    (ensureService (ext := Sample.ext) (Sample.store ∅) Sample.project
       (Sample.svc "db" "database" 2 false) "diverged" false None) tt
  = ((Sample.store ∅, AtScale,
      Err (doubledContainerNameWarning "db" "database")), tt, [])
  /\ getScale (Sample.svc "db" "database" 1 false) = Ok 1.
Proof.
  split.
  - apply (ensureService_custom_name_scale Sample.ext Sample.okEngine tt
             (Sample.store ∅) Sample.project
             (Sample.svc "db" "database" 2 false) "diverged" false None);
      [reflexivity | discriminate | reflexivity].
  - apply (ensureService_custom_name_scale Sample.ext Sample.okEngine tt
             (Sample.store ∅) Sample.project
             (Sample.svc "db" "database" 1 false) "diverged" false None);
      [reflexivity | discriminate | simpl; lia].
Defined.

(** ** The insertion sort behind [sort.Slice] *)

Section InsertionSortFacts.
Context {A : Type} (less : A -> A -> bool).

Local Abbreviation settled := (settled less).

Lemma insertLeft_length (x : A) (rprefix : list A) :
  length (insertLeft less x rprefix) = S (length rprefix).
Proof.
  induction rprefix as [| y r IH]; simpl; [reflexivity |].
  destruct (less x y); simpl; congruence.
Qed.

Lemma insertLeft_perm (x : A) (rprefix : list A) :
  Permutation (insertLeft less x rprefix) (x :: rprefix).
Proof.
  induction rprefix as [| y r IH]; simpl; [reflexivity |].
  destruct (less x y); [| reflexivity].
  rewrite IH. apply perm_swap.
Qed.

Lemma fold_insertLeft_perm (l acc : list A) :
  Permutation (fold_left (fun rp x => insertLeft less x rp) l acc) (l ++ acc).
Proof.
  revert acc. induction l as [| x l IH]; intros acc; simpl; [reflexivity |].
  rewrite IH, insertLeft_perm. symmetry. apply Permutation_middle.
Qed.

Lemma sort_Slice_perm (l : list A) : Permutation (sort_Slice less l) l.
Proof.
  unfold sort_Slice. rewrite <- Permutation_rev.
  rewrite fold_insertLeft_perm, app_nil_r. reflexivity.
Qed.

Lemma sort_Slice_length (l : list A) : length (sort_Slice less l) = length l.
Proof. apply Permutation_length, sort_Slice_perm. Qed.

(** A slice that is already in order is left as it is. *)
Lemma fold_insertLeft_settled (l acc : list A) :
  Sorted settled (rev l ++ acc) ->
  fold_left (fun rp x => insertLeft less x rp) l acc = (rev l ++ acc)%list.
Proof.
  revert acc. induction l as [| x l IH]; intros acc Hs; simpl; [reflexivity |].
  simpl in Hs. rewrite <- app_assoc in Hs. simpl in Hs.
  assert (Hx : insertLeft less x acc = x :: acc).
  { clear IH. induction (rev l) as [| z zs IHz]; simpl in Hs.
    - destruct acc as [| y acc]; [reflexivity |]. simpl.
      apply Sorted_inv in Hs. destruct Hs as [_ Hd].
      apply HdRel_inv in Hd. unfold settled in Hd. rewrite Hd. reflexivity.
    - apply Sorted_inv in Hs. apply IHz, Hs. }
  rewrite Hx, IH by exact Hs. rewrite <- app_assoc. reflexivity.
Qed.

Hypothesis less_asym : forall x y, less x y = true -> less y x = false.

Lemma insertLeft_settled (x : A) (rprefix : list A) :
  Sorted settled rprefix -> Sorted settled (insertLeft less x rprefix).
Proof.
  induction rprefix as [| y r IH]; intros Hs; simpl.
  - constructor; constructor.
  - apply Sorted_inv in Hs. destruct Hs as [Hr Hd].
    destruct (less x y) eqn:Hxy.
    + constructor; [apply IH, Hr |].
      destruct r as [| z r]; simpl.
      * constructor. apply less_asym, Hxy.
      * destruct (less x z); constructor.
        -- apply HdRel_inv in Hd. exact Hd.
        -- apply less_asym, Hxy.
    + constructor; [constructor; assumption |]. constructor. exact Hxy.
Qed.

Lemma fold_insertLeft_sorted (l acc : list A) :
  Sorted settled acc ->
  Sorted settled (fold_left (fun rp x => insertLeft less x rp) l acc).
Proof.
  revert acc. induction l as [| x l IH]; intros acc Hs; simpl; [exact Hs |].
  apply IH, insertLeft_settled, Hs.
Qed.

Lemma sort_Slice_idemp (l : list A) :
  sort_Slice less (sort_Slice less l) = sort_Slice less l.
Proof.
  unfold sort_Slice at 1. rewrite fold_insertLeft_settled.
  - rewrite app_nil_r, rev_involutive. reflexivity.
  - rewrite app_nil_r. unfold sort_Slice. rewrite rev_involutive.
    apply fold_insertLeft_sorted. constructor.
Qed.

End InsertionSortFacts.

(** ** Reference resolver *)

Lemma Split_nonempty (s : string) (sep : ascii) : Split s sep <> [].
Proof.
  destruct s as [| c s]; simpl; [discriminate |].
  destruct (Ascii.eqb c sep); [discriminate |].
  destruct (Split s sep); discriminate.
Qed.

Lemma getObservedState_reorder_ne (c : convergence) (name n : string)
    (f : Containers -> Containers) :
  n <> name ->
  getObservedState (reorderInPlace c name f) n = getObservedState c n.
Proof.
  intros Hne. unfold getObservedState, reorderInPlace. simpl.
  rewrite lookup_alter_ne by congruence. reflexivity.
Qed.

Lemma getObservedState_reorder_eq (c : convergence) (name : string)
    (f : Containers -> Containers) :
  getObservedState c name <> [] ->
  getObservedState (reorderInPlace c name f) name = f (getObservedState c name).
Proof.
  unfold getObservedState, reorderInPlace. simpl. intros Hne.
  rewrite lookup_alter_eq.
  destruct (services c !! name) as [l |]; simpl in *; [reflexivity | congruence].
Qed.

Lemma substring_all (s : string) : String.substring 0 (String.length s) s = s.
Proof. induction s as [| a s IH]; simpl; [reflexivity | rewrite IH; reflexivity]. Qed.

(** A mode [service:<svc>] names the service [<svc>], and a volumes-from
    entry names the service of its first segment. *)
Lemma modeService_service (svc : string) :
  svc <> "" -> modeService ("service:" ++ svc) = Some svc.
Proof.
  intros Hne. unfold modeService, getDependentServiceFromMode. simpl.
  change ("" ++ svc) with svc.
  assert (Hp : HasPrefix svc "" = true) by (destruct svc; reflexivity).
  rewrite Hp, Nat.sub_0_r, substring_all.
  apply String.eqb_neq in Hne. rewrite Hne. reflexivity.
Qed.

Lemma modeService_other (mode : string) :
  HasPrefix mode ServicePrefix = false -> modeService mode = None.
Proof.
  intros H. unfold modeService, getDependentServiceFromMode. rewrite H. reflexivity.
Qed.

Lemma volumeService_first_segment (vol name : string) (rest : list string) :
  Split vol ":" = name :: rest -> name <> "container" ->
  volumeService vol = Some name.
Proof.
  intros Hs Hn. unfold volumeService. rewrite Hs.
  apply String.eqb_neq in Hn. rewrite Hn. reflexivity.
Qed.

Section ResolverFacts.
Context {ext : Externals}.
Hypothesis sorted_length : forall l : Containers, length (sorted l) = length l.
Hypothesis sorted_idemp : forall l : Containers, sorted (sorted l) = sorted l.

Lemma sorted_nil_inv (l : Containers) : sorted l = [] -> l = [].
Proof.
  intros H. apply (f_equal length) in H. rewrite sorted_length in H.
  destruct l; [reflexivity | discriminate].
Qed.

Lemma reordered_refl (c : convergence) : reordered c c.
Proof. intros name. left. reflexivity. Qed.

Lemma reordered_empty (c0 c : convergence) (name : string) :
  reordered c0 c ->
  getObservedState c name = [] <-> getObservedState c0 name = [].
Proof.
  intros Hr. destruct (Hr name) as [H | H]; rewrite H; [tauto |].
  split; [apply sorted_nil_inv |]. intros H0. rewrite H0.
  destruct (sorted []) eqn:Hs; [reflexivity |].
  apply (f_equal length) in Hs. rewrite sorted_length in Hs. discriminate.
Qed.

Lemma reordered_sorted (c0 c : convergence) (name : string) :
  reordered c0 c ->
  sorted (getObservedState c name) = sorted (getObservedState c0 name).
Proof.
  intros Hr. destruct (Hr name) as [H | H]; rewrite H;
    [reflexivity | apply sorted_idemp].
Qed.

Lemma firstSorted_spec (c0 c : convergence) (name : string) :
  reordered c0 c ->
  getObservedState c name <> [] ->
  exists c' id,
    firstSorted c name = (c', Ok id)
    /\ reordered c0 c'
    /\ firstContainerID c0 name = Some id.
Proof.
  intros Hr Hne. unfold firstSorted, firstContainerID.
  rewrite (reordered_sorted c0 c name Hr).
  destruct (sorted (getObservedState c0 name)) as [| d ds] eqn:Hs.
  - exfalso. apply Hne. apply (reordered_empty c0 c name Hr).
    apply sorted_nil_inv. exact Hs.
  - simpl. eexists _, _. split; [reflexivity |]. split; [| reflexivity].
    intros n. destruct (String.eqb_spec n name) as [-> | Hn].
    + right. rewrite getObservedState_reorder_eq by exact Hne.
      apply reordered_sorted. exact Hr.
    + rewrite getObservedState_reorder_ne by exact Hn. apply Hr.
Qed.

Lemma length_eqb_0_nil {A} (l : list A) : (length l =? 0)%nat = true <-> l = [].
Proof.
  destruct l; simpl; split; intros H; try reflexivity; discriminate.
Qed.

(** One volumes-from entry: the rewritten value satisfies the
    specification, an error names a service without container, and a
    panic comes from the lone word [container]. *)
Lemma resolveVolume_spec (c0 c : convergence) (vol : string) :
  reordered c0 c ->
  exists c' r,
    resolveVolume c vol = (c', r)
    /\ reordered c0 c'
    /\ match r with
       | Ok new => volumeResolved c0 vol new
       | Err _ => exists name, volumeService vol = Some name
                               /\ getObservedState c0 name = []
       | Panic => Split vol ":" = ["container"]
       end.
Proof.
  intros Hr. unfold resolveVolume, volumeResolved, volumeService.
  destruct (Split vol ":") as [| s0 rest] eqn:Hsp.
  { exfalso. eapply Split_nonempty. exact Hsp. }
  simpl. destruct (String.eqb_spec s0 "container") as [-> | Hs0].
  - destruct rest as [| s1 rest]; simpl.
    + eexists _, _. split; [reflexivity |]. split; [exact Hr | reflexivity].
    + eexists _, _. split; [reflexivity |]. split; [exact Hr |].
      split; [| discriminate]. intros id rest' H. congruence.
  - destruct (length (getObservedState c s0) =? 0)%nat eqn:Hlen.
    + apply length_eqb_0_nil in Hlen.
      eexists _, _. split; [reflexivity |]. split; [exact Hr |].
      exists s0. split; [reflexivity |].
      apply (reordered_empty c0 c s0 Hr). exact Hlen.
    + assert (Hne : getObservedState c s0 <> []).
      { intros H. apply length_eqb_0_nil in H. congruence. }
      destruct (firstSorted_spec c0 c s0 Hr Hne) as (c' & id & Hf & Hr' & Hid).
      exists c', (Ok id). split; [exact Hf |]. split; [exact Hr' |].
      split.
      * intros id' rest' H. congruence.
      * intros name H. injection H as <-. exact Hid.
Qed.

(** The loop over the volumes-from entries. *)
Lemma resolveVolumes_spec (c0 : convergence) (todo : list string) :
  forall (c : convergence) (done : list string),
    reordered c0 c ->
    exists c' vf r,
      resolveVolumes c done todo = (c', vf, r)
      /\ reordered c0 c'
      /\ match r with
         | Ok _ => exists news, vf = (done ++ news)%list
                                /\ Forall2 (volumeResolved c0) todo news
         | Err _ => exists pre vol rest news name,
                      todo = (pre ++ vol :: rest)%list
                      /\ vf = (done ++ news ++ vol :: rest)%list
                      /\ length news = length pre
                      /\ volumeService vol = Some name
                      /\ getObservedState c0 name = []
         | Panic => exists vol, In vol todo /\ Split vol ":" = ["container"]
         end.
Proof.
  induction todo as [| vol rest IH]; intros c done Hr; simpl.
  - exists c, done, (Ok tt). split; [reflexivity |]. split; [exact Hr |].
    exists []. split; [symmetry; apply app_nil_r | constructor].
  - destruct (resolveVolume_spec c0 c vol Hr) as (c1 & r1 & Hv & Hr1 & Hspec).
    rewrite Hv. destruct r1 as [new | e |].
    + destruct (IH c1 (done ++ [new])%list Hr1) as (c' & vf & r & Hl & Hr' & Hres).
      exists c', vf, r. split; [exact Hl |]. split; [exact Hr' |].
      destruct r as [[] | e |].
      * destruct Hres as (news & -> & HF). exists (new :: news).
        split; [rewrite <- app_assoc; reflexivity |]. constructor; assumption.
      * destruct Hres as (pre & v & rest' & news & name & -> & -> & Hlen & Hn & He).
        exists (vol :: pre), v, rest', (new :: news), name.
        split; [reflexivity |]. split; [rewrite <- app_assoc; reflexivity |].
        split; [simpl; congruence |]. split; assumption.
      * destruct Hres as (v & Hin & Hs). exists v. split; [right; exact Hin | exact Hs].
    + destruct Hspec as (name & Hn & He).
      eexists _, _, _. split; [reflexivity |]. split; [exact Hr1 |].
      exists [], vol, rest, [], name. repeat split; assumption.
    + eexists _, _, _. split; [reflexivity |]. split; [exact Hr1 |].
      exists vol. split; [left; reflexivity | exact Hspec].
Qed.

(** One namespace mode. *)
Lemma resolveMode_spec (c0 c : convergence) (what mode : string) :
  reordered c0 c ->
  exists c' r,
    resolveMode c what mode = (c', r)
    /\ reordered c0 c'
    /\ match r with
       | Ok new => modeResolved c0 mode new
       | Err _ => exists name, modeService mode = Some name
                               /\ getObservedState c0 name = []
       | Panic => False
       end.
Proof.
  intros Hr. unfold resolveMode, modeResolved, modeService.
  set (name := getDependentServiceFromMode mode).
  destruct (String.eqb name "") eqn:Hname; simpl.
  - eexists _, _. split; [reflexivity |]. split; [exact Hr |].
    split; [reflexivity | discriminate].
  - destruct (length (getObservedState c name) =? 0)%nat eqn:Hlen.
    + apply length_eqb_0_nil in Hlen.
      eexists _, _. split; [reflexivity |]. split; [exact Hr |].
      exists name. split; [reflexivity |].
      apply (reordered_empty c0 c name Hr). exact Hlen.
    + assert (Hne : getObservedState c name <> []).
      { intros H. apply length_eqb_0_nil in H. congruence. }
      destruct (firstSorted_spec c0 c name Hr Hne) as (c' & id & Hf & Hr' & Hid).
      rewrite Hf. eexists _, _. split; [reflexivity |]. split; [exact Hr' |].
      split; [discriminate |].
      intros n H. injection H as <-. exists id. split; [exact Hid | reflexivity].
Qed.

(** The three namespace modes, in the order network, IPC, PID. *)
Lemma resolveSharedNamespaces_spec (c0 c : convergence) (service : Service.t) :
  reordered c0 c ->
  exists c' service' r,
    resolveSharedNamespaces c service = (c', service', r)
    /\ Service.VolumesFrom service' = Service.VolumesFrom service
    /\ match r with
       | Ok _ =>
           modeResolved c0 (Service.NetworkMode service) (Service.NetworkMode service')
           /\ modeResolved c0 (Service.Ipc service) (Service.Ipc service')
           /\ modeResolved c0 (Service.Pid service) (Service.Pid service')
       | Err _ =>
           (exists name, modeService (Service.NetworkMode service) = Some name
              /\ getObservedState c0 name = []
              /\ Service.NetworkMode service' = Service.NetworkMode service)
           \/ (exists name, modeService (Service.Ipc service) = Some name
                 /\ getObservedState c0 name = []
                 /\ Service.Ipc service' = Service.Ipc service)
           \/ (exists name, modeService (Service.Pid service) = Some name
                 /\ getObservedState c0 name = []
                 /\ Service.Pid service' = Service.Pid service)
       | Panic => False
       end.
Proof.
  intros Hr. unfold resolveSharedNamespaces.
  destruct (resolveMode_spec c0 c "network namespace" (Service.NetworkMode service) Hr)
    as (c1 & r1 & H1 & Hr1 & S1).
  rewrite H1. destruct r1 as [nm | e |]; [| | contradiction].
  2:{ eexists _, _, _. split; [reflexivity |]. split; [reflexivity |].
      left. destruct S1 as (name & ? & ?). exists name. auto. }
  simpl.
  destruct (resolveMode_spec c0 c1 "IPC namespace" (Service.Ipc service) Hr1)
    as (c2 & r2 & H2 & Hr2 & S2).
  rewrite H2. destruct r2 as [ipc | e |]; [| | contradiction].
  2:{ eexists _, _, _. split; [reflexivity |]. split; [reflexivity |].
      right. left. destruct S2 as (name & ? & ?). exists name. auto. }
  simpl.
  destruct (resolveMode_spec c0 c2 "PID namespace" (Service.Pid service) Hr2)
    as (c3 & r3 & H3 & Hr3 & S3).
  rewrite H3. destruct r3 as [pid | e |]; [| | contradiction].
  2:{ eexists _, _, _. split; [reflexivity |]. split; [reflexivity |].
      right. right. destruct S3 as (name & ? & ?). exists name. auto. }
  eexists _, _, _. split; [reflexivity |]. split; [reflexivity |].
  simpl. auto.
Qed.

Lemma firstContainerID_nonempty (c : convergence) (name id : string) :
  firstContainerID c name = Some id -> getObservedState c name <> [].
Proof.
  unfold firstContainerID. intros H Hnil. rewrite Hnil in H.
  destruct (sorted []) eqn:Hs; [discriminate |].
  apply (f_equal length) in Hs. rewrite sorted_length in Hs. discriminate.
Qed.

Lemma Forall2_volumeResolved_nonempty (c : convergence) (vols news : list string)
    (name : string) :
  Forall2 (volumeResolved c) vols news ->
  In name (omap volumeService vols) ->
  getObservedState c name <> [].
Proof.
  induction 1 as [| vol new vols news [_ Hv] _ IH]; simpl; [tauto |].
  destruct (volumeService vol) as [n |] eqn:Hn; [| exact IH].
  intros [<- | Hin]; [| exact (IH Hin)].
  eapply firstContainerID_nonempty. apply Hv. reflexivity.
Qed.

Lemma modeResolved_nonempty (c : convergence) (mode new name : string) :
  modeResolved c mode new ->
  modeService mode = Some name ->
  getObservedState c name <> [].
Proof.
  intros [_ H] Hm. destruct (H name Hm) as (id & Hid & _).
  eapply firstContainerID_nonempty. exact Hid.
Qed.

Lemma omap_modes_In (name : string) (modes : list string) :
  In name (omap modeService modes) ->
  exists mode, In mode modes /\ modeService mode = Some name.
Proof.
  intros H. apply list_elem_of_In, list_elem_of_omap in H.
  destruct H as (mode & Hin & Hm). exists mode.
  split; [apply list_elem_of_In; exact Hin | exact Hm].
Qed.

(** C5: [resolveServiceReferences], for an ordering [sorted] that keeps
    the length of a list and leaves an ordered list as it is.  When it
    succeeds, every volumes-from entry [container:ID] has become [ID],
    every entry that names a service has become the id of the first
    observed container of that service in the deterministic order, and
    each of the network, IPC and PID modes of the form [service:<svc>]
    has become [container:] followed by that id.  When it returns at all
    it fails exactly when a service referred to has no observed
    container, and the reference it fails on is left as it was. *)
Theorem resolveServiceReferences_spec :
  forall (c c' : convergence) (service service' : Service.t) (r : result unit),
    resolveServiceReferences c service = (c', service', r) ->
    (r = Ok tt ->
     Forall2 (volumeResolved c)
       (Service.VolumesFrom service) (Service.VolumesFrom service')
     /\ modeResolved c (Service.NetworkMode service) (Service.NetworkMode service')
     /\ modeResolved c (Service.Ipc service) (Service.Ipc service')
     /\ modeResolved c (Service.Pid service) (Service.Pid service'))
    /\ (r <> Panic ->
        (isErr r = true <->
         exists name, In name (referencedServices service)
                      /\ getObservedState c name = []))
    /\ (isErr r = true -> danglingReference c service service').
Proof.
  intros c c' service service' r. unfold resolveServiceReferences, resolveVolumeFrom.
  destruct (resolveVolumes_spec c (Service.VolumesFrom service) c [] (reordered_refl c))
    as (c1 & vf & r1 & Hv & Hr1 & S1).
  rewrite Hv. destruct r1 as [[] | e |].
  - destruct S1 as (news & -> & HF). simpl.
    destruct (resolveSharedNamespaces_spec c c1
                (Service.withVolumesFrom news service) Hr1)
      as (c2 & service2 & r2 & Hn & Hvf & S2).
    rewrite Hn. intros [= <- <- <-]. simpl in Hvf, S2.
    destruct r2 as [[] | e |]; [| | contradiction].
    + destruct S2 as (Snm & Sipc & Spid).
      split; [intros _; rewrite Hvf; auto |].
      split; [| discriminate]. intros _. split; [discriminate |].
      intros (name & Hin & Hnil). exfalso. revert Hnil.
      unfold referencedServices in Hin. apply in_app_or in Hin.
      destruct Hin as [Hin | Hin].
      * eapply Forall2_volumeResolved_nonempty; eassumption.
      * apply omap_modes_In in Hin. destruct Hin as (mode & Hmode & Hm).
        simpl in Hmode.
        destruct Hmode as [<- | [<- | [<- | []]]];
          refine (modeResolved_nonempty c _ _ name _ Hm); eassumption.
    + split; [discriminate |].
      assert (Hd : danglingReference c service service2).
      { right. exact S2. }
      split; [| intros _; exact Hd]. intros _. split; [| reflexivity].
      intros _. unfold referencedServices.
      destruct S2 as [(name & Hm & Hnil & _) | [(name & Hm & Hnil & _) | (name & Hm & Hnil & _)]];
        exists name; (split; [| exact Hnil]); apply in_or_app; right; simpl;
        repeat match goal with
               | |- context [modeService ?m] =>
                   let o := fresh "o" in
                   destruct (modeService m) as [o |] eqn:?; simplify_eq
               end; simpl; tauto.
  - destruct S1 as (pre & vol & rest & news & name & Hs & -> & Hlen & Hname & Hnil).
    intros [= <- <- <-]. simpl.
    split; [discriminate |].
    split.
    + intros _. split; [| reflexivity]. intros _. exists name.
      split; [| exact Hnil]. unfold referencedServices. apply in_or_app. left.
      apply list_elem_of_In, list_elem_of_omap. exists vol.
      split; [| exact Hname]. rewrite Hs. apply list_elem_of_In.
      apply in_or_app. right. left. reflexivity.
    + intros _. left. exists (length pre), vol, name.
      split; [rewrite Hs; apply list_lookup_middle; reflexivity |].
      split; [exact Hname |]. split; [exact Hnil |].
      apply list_lookup_middle. symmetry. exact Hlen.
  - intros [= <- <- <-]. simpl.
    split; [discriminate |]. split; [congruence | discriminate].
Qed.

End ResolverFacts.

(** The ordering of the sample collaborators keeps lengths and is
    idempotent. *)
Lemma ltb_string_asym (s1 s2 : string) :
  String.ltb s1 s2 = true -> String.ltb s2 s1 = false.
Proof.
  unfold String.ltb. rewrite (String.compare_antisym s1 s2).
  destruct (String.compare s2 s1); simpl; congruence.
Qed.

Lemma tieLess_asym (a b : Summary.t) :
  Sample.tieLess a b = true -> Sample.tieLess b a = false.
Proof.
  unfold Sample.tieLess. intros H.
  apply orb_true_iff in H. apply orb_false_iff.
  destruct H as [H | H].
  - apply Z.ltb_lt in H. split; [apply Z.ltb_ge; lia |].
    apply andb_false_iff. left. apply Z.eqb_neq. lia.
  - apply andb_true_iff in H. destruct H as [He Hl]. apply Z.eqb_eq in He.
    split; [apply Z.ltb_ge; lia |].
    apply andb_false_iff. right. apply ltb_string_asym, Hl.
Qed.

Lemma sortedLess_asym (k : string) (a b : Summary.t) :
  Sample.sortedLess k a b = true -> Sample.sortedLess k b a = false.
Proof.
  unfold Sample.sortedLess.
  destruct (Atoi (Summary.label a k)) as [x |], (Atoi (Summary.label b k)) as [y |];
    try congruence; try apply tieLess_asym.
  intros H. apply orb_true_iff in H. apply orb_false_iff.
  destruct H as [H | H].
  - apply Z.ltb_lt in H. split; [apply Z.ltb_ge; lia |].
    apply andb_false_iff. left. apply Z.eqb_neq. lia.
  - apply andb_true_iff in H. destruct H as [He Hl]. apply Z.eqb_eq in He.
    split; [apply Z.ltb_ge; lia |].
    apply andb_false_iff. right. apply tieLess_asym, Hl.
Qed.

Lemma sample_sorted_length (l : Containers) :
  length (sorted (Externals := Sample.ext) l) = length l.
Proof. apply sort_Slice_length. Qed.

Lemma sample_sorted_idemp (l : Containers) :
  sorted (Externals := Sample.ext) (sorted (Externals := Sample.ext) l)
  = sorted (Externals := Sample.ext) l.
Proof. apply sort_Slice_idemp, sortedLess_asym. Qed.

Lemma resolveServiceReferences_spec_witness :
  Forall2 (volumeResolved (ext := Sample.ext) Inputs.dbStore)
    ["container:abc:ro"; "db:rw"] ["abc"; "1111aaaa2222bbbb"]
  /\ modeResolved (ext := Sample.ext) Inputs.dbStore
       "service:db" "container:1111aaaa2222bbbb"
  /\ modeResolved (ext := Sample.ext) Inputs.dbStore "host" "host"
  /\ modeResolved (ext := Sample.ext) Inputs.dbStore
       "service:db" "container:1111aaaa2222bbbb".
Proof.
  exact (proj1
           (resolveServiceReferences_spec (ext := Sample.ext)
              sample_sorted_length sample_sorted_idemp
              Inputs.dbStore _ Inputs.webService _ _ eq_refl)
           eq_refl).
Defined.

(** C10: a volumes-from entry that is the word [container] alone splits
    into a single segment, and reading its second segment is out of
    range: [resolveVolumeFrom] panics on it, whatever the store holds. *)
Theorem resolveVolumeFrom_bare_container_panics :
  forall (ext : Externals) (c : convergence) (service : Service.t)
         (rest : list string),
    resolveVolumeFrom c (Service.withVolumesFrom ("container" :: rest) service)
    = (c, Service.withVolumesFrom ("container" :: rest) service, Panic).
Proof. intros ext c service rest. reflexivity. Qed.

(** The other accesses of [resolveVolumeFrom] are within range: an entry
    panics only when it splits into the single segment [container]. *)
Lemma resolveVolume_panics_only_bare (ext : Externals) (c : convergence)
    (vol : string) :
  (forall l : Containers, length (sorted l) = length l) ->
  snd (resolveVolume c vol) = Panic -> Split vol ":" = ["container"].
Proof.
  intros Hlen. unfold resolveVolume.
  destruct (Split vol ":") as [| s0 rest] eqn:Hsp.
  { exfalso. eapply Split_nonempty. exact Hsp. }
  simpl. destruct (String.eqb_spec s0 "container") as [-> | Hs0].
  - destruct rest; simpl; [reflexivity | discriminate].
  - destruct (length (getObservedState c s0) =? 0)%nat eqn:Hl; simpl; [discriminate |].
    unfold firstSorted.
    destruct (sorted (getObservedState c s0)) as [| d ds] eqn:Hs; simpl; [| discriminate].
    apply (f_equal length) in Hs. rewrite Hlen in Hs.
    apply length_zero_iff_nil in Hs. apply length_eqb_0_nil in Hs. congruence.
Qed.

(** ** Creating containers *)

Ltac engine_step :=
  match goal with
  | |- context [respond ?E ?s ?op] =>
      let r := fresh "r" in
      let s1 := fresh "s" in
      destruct (respond E s op) as [r s1]; destruct r; simpl
  end.

Ltac fold_omap :=
  repeat match goal with
         | |- context [list_omap ?A ?B ?f ?l] =>
             change (list_omap A B f l) with (omap f l)
         end.

Section CreateFacts.
Context {ext : Externals} (E : Engine).

Lemma connectNetworks_trace (project : Project.t) (service : Service.t)
    (number : Z) (cfgs : createConfigs) (opts : createOptions)
    (created : Summary.t) (keys : list string) (s : EState E) :
  omap requestedNumber
    (trace E (connectNetworks project service number cfgs opts created keys) s) = []
  /\ omap createdName
       (trace E (connectNetworks project service number cfgs opts created keys) s) = [].
Proof.
  revert s. unfold trace.
  induction keys as [| k keys IH]; intros s; simpl; [split; reflexivity |].
  destruct (String.eqb (HostNetworkMode cfgs)
              (default "" (Project.Networks project !! k))); [apply IH |].
  simpl. engine_step; try (split; reflexivity).
  specialize (IH s0).
  destruct (run E (connectNetworks project service number cfgs opts created keys) s0)
    as [[x s2] tr]. simpl in *. exact IH.
Qed.

(** [createMobyContainer] asks once for the create configurations, with
    the number it was given, and creates at most one container, under
    the name it was given. *)
Lemma createMobyContainer_trace (project : Project.t) (service : Service.t)
    (name : string) (number : Z) (inherit : option Summary.t)
    (opts : createOptions) (s : EState E) :
  let tr := trace E (createMobyContainer project service name number inherit opts) s in
  omap requestedNumber tr = [number]
  /\ (omap createdName tr = [] \/ omap createdName tr = [name]).
Proof.
  unfold trace, createMobyContainer. simpl.
  engine_step; try (split; [reflexivity | left; reflexivity]).
  match goal with
  | |- context [match ?p with Ok _ => _ | Err _ => _ | Panic => _ end] =>
      destruct p as [plat | e |]
  end; simpl; try (split; [reflexivity | left; reflexivity]).
  engine_step; try (split; [reflexivity | right; reflexivity]).
  engine_step; try (split; [reflexivity | right; reflexivity]).
  engine_step; try (split; [reflexivity | right; reflexivity]).
  match goal with
  | |- context [versions_LessThan ?v ?w] => destruct (versions_LessThan v w)
  end; simpl; [| split; [reflexivity | right; reflexivity]].
  rewrite run_bind.
  match goal with
  | |- context [run E (connectNetworks ?p ?sv ?n ?c ?o ?cr ?k) ?st] =>
      pose proof (connectNetworks_trace p sv n c o cr k st) as [H1 H2];
      unfold trace in H1, H2;
      destruct (run E (connectNetworks p sv n c o cr k) st) as [[x sx] trx]
  end.
  cbn [snd] in H1, H2. simpl. fold_omap. rewrite ?app_nil_r, H1, H2.
  split; [reflexivity | right; reflexivity].
Qed.

End CreateFacts.

Arguments createMobyContainer : simpl never.
Arguments createContainer : simpl never.

(** ** Scale-up: numbers and names of the new containers *)

Lemma wrap_small (z : Z) : MinInt <= z <= MaxInt -> wrap z = z.
Proof.
  unfold wrap, MinInt, MaxInt. intros H.
  rewrite Z.mod_small; lia.
Qed.

Lemma Atoi_range (s : string) (n : Z) : Atoi s = Some n -> MinInt <= n <= MaxInt.
Proof.
  unfold Atoi.
  destruct (match s with
            | String "-"%char r => (true, r)
            | String "+"%char r => (false, r)
            | _ => (false, s)
            end) as [neg body].
  destruct body as [| c body]; [discriminate |].
  destruct (digits (String c body) 0) as [v |]; [| discriminate].
  destruct (inInt (if neg then - v else v)) eqn:Hin; [| discriminate].
  intros [= <-]. unfold inInt in Hin.
  apply andb_true_iff in Hin. destruct Hin as [H1 H2].
  apply Z.leb_le in H1. apply Z.leb_le in H2. lia.
Qed.

Section ScaleUpFacts.
Context {ext : Externals}.

Lemma nextContainerNumber_fold (containers : Containers) (a : Z) :
  fold_left
    (fun maxNumber c =>
       match Atoi (Summary.label c ContainerNumberLabel) with
       | None => maxNumber
       | Some n => if maxNumber <? n then n else maxNumber
       end) containers a
  = fold_left Z.max (numbers containers) a.
Proof.
  revert a. induction containers as [| c cs IH]; intros a; [reflexivity |].
  unfold numbers. simpl.
  destruct (Atoi (Summary.label c ContainerNumberLabel)) as [n |]; simpl.
  - rewrite IH. f_equal. destruct (Z.ltb_spec a n); lia.
  - apply IH.
Qed.

Lemma fold_max_bounds (l : list Z) (a : Z) :
  a <= fold_left Z.max l a /\ Forall (fun n => n <= fold_left Z.max l a) l.
Proof.
  revert a. induction l as [| n l IH]; intros a; simpl.
  - split; [lia | constructor].
  - destruct (IH (Z.max a n)) as [H1 H2]. split; [lia |].
    constructor; [lia | exact H2].
Qed.

Lemma fold_max_upper (l : list Z) (a b : Z) :
  a <= b -> Forall (fun n => n <= b) l -> fold_left Z.max l a <= b.
Proof.
  revert a. induction l as [| n l IH]; intros a Ha Hl; simpl; [exact Ha |].
  apply Forall_cons_iff in Hl. destruct Hl as [Hn Hl]. apply IH; [lia | exact Hl].
Qed.

Lemma numbers_range (containers : Containers) :
  Forall (fun n => n <= MaxInt) (numbers containers).
Proof.
  unfold numbers. induction containers as [| c cs IH]; simpl; [constructor |].
  destruct (Atoi (Summary.label c ContainerNumberLabel)) as [n |] eqn:Hn; simpl;
    [| exact IH].
  constructor; [apply Atoi_range in Hn; lia | exact IH].
Qed.

(** The calls of the scale-up loop, on any engine. *)
Lemma scaleUp_trace (E : Engine) (project : Project.t) (service : Service.t)
    (next : Z) (actual : nat) (count : nat) :
  forall (i : nat) (st : loopState) (s : EState E),
    let number := fun k : nat => wrap (next + Z.of_nat k) in
    let out := run E (scaleUp project service next actual count i st) s in
    omap requestedNumber (snd out) `prefix_of` map number (seq i count)
    /\ (snd (fst (fst out)) = None ->
        omap requestedNumber (snd out) = map number (seq i count))
    /\ omap createdName (snd out)
         `sublist_of`
         map (fun k => getContainerName (Project.Name project) service (number k))
             (seq i count).
Proof.
  induction count as [| count IH]; intros i st s number.
  - simpl. split; [reflexivity |]. split; [reflexivity | constructor].
  - cbn [scaleUp seq map]. rewrite run_bind. unfold createContainer.
    match goal with
    | |- context [run E (createMobyContainer ?p ?sv ?n ?k ?h ?o) ?s0] =>
        pose proof (createMobyContainer_trace E p sv n k h o s0) as [H1 H2];
        unfold trace in H1, H2;
        destruct (run E (createMobyContainer p sv n k h o) s0) as [[cr s1] tr1]
    end.
    cbn [snd] in H1, H2.
    assert (Hname :
      omap createdName tr1 `sublist_of`
        [getContainerName (Project.Name project) service (number i)]).
    { destruct H2 as [-> | ->]; [apply sublist_nil_l | reflexivity]. }
    destruct (snd cr) as [[] | e |].
    + specialize (IH (S i)
        (egGo (setUpdated (actual + i) (fst cr) st) (Ok tt)) s1).
      destruct (run E (scaleUp project service next actual count (S i)
                         (egGo (setUpdated (actual + i) (fst cr) st) (Ok tt))) s1)
        as [[out s2] tr2].
      cbn [fst snd] in *. rewrite !omap_app, H1.
      destruct IH as (P1 & P2 & P3).
      split; [apply (prefix_app [number i]); exact P1 |].
      split; [intros H; rewrite (P2 H); reflexivity |].
      apply (sublist_app _ [_]); assumption.
    + specialize (IH (S i)
        (egGo (setUpdated (actual + i) (fst cr) st) (Err e)) s1).
      destruct (run E (scaleUp project service next actual count (S i)
                         (egGo (setUpdated (actual + i) (fst cr) st) (Err e))) s1)
        as [[out s2] tr2].
      cbn [fst snd] in *. rewrite !omap_app, H1.
      destruct IH as (P1 & P2 & P3).
      split; [apply (prefix_app [number i]); exact P1 |].
      split; [intros H; rewrite (P2 H); reflexivity |].
      apply (sublist_app _ [_]); assumption.
    + cbn [fst snd run]. rewrite !app_nil_r, H1.
      split; [exists (map number (seq (S i) count)); reflexivity |].
      split; [discriminate |].
      rewrite <- (app_nil_r (omap createdName tr1)).
      apply (sublist_app _ [_] [] _ Hname). apply sublist_nil_l.
Qed.

End ScaleUpFacts.

(** C8, as stated, fails on two inputs.  A container numbered -3 alone
    gives 1, not one plus the largest parsed number; and a container
    numbered with the largest [int] gives the smallest [int], which is
    not positive. *)
Lemma nextContainerNumber_not_max_plus_one :
  (numbers (ext := Sample.ext) [Inputs.negativeCtr] = [-3]
   /\ nextContainerNumber (ext := Sample.ext) [Inputs.negativeCtr] = 1
   /\ nextContainerNumber (ext := Sample.ext) [Inputs.negativeCtr] <> 1 + -3)
  /\ (numbers (ext := Sample.ext) [Inputs.maxIntCtr] = [MaxInt]
      /\ nextContainerNumber (ext := Sample.ext) [Inputs.maxIntCtr] = MinInt
      /\ ~ 0 < nextContainerNumber (ext := Sample.ext) [Inputs.maxIntCtr]).
Proof.
  split; (split; [reflexivity |]); (split; [reflexivity |]).
  - discriminate.
  - vm_compute. discriminate.
Qed.

(** C8 (amended): [nextContainerNumber] returns one plus the largest
    parsed container number, counted from a floor of 0 (hence 1 when no
    label parses), in 64-bit arithmetic.  On any engine the scale-up loop
    asks for the configuration of its k-th container with the number
    [next + k], as long as it runs, and creates containers only under
    the names [getContainerName] gives these numbers: the project name,
    the service name and the number joined by the separator, unless a
    custom container name replaces it.  When the largest number plus the
    count of new containers stays within [int], the new numbers are
    [max + 1 + k]: positive, above every parsed number of the observed
    containers, and distinct from one another. *)
Theorem scaleUp_numbers_and_names :
  forall (ext : Externals) (E : Engine) (project : Project.t)
         (service : Service.t) (containers : Containers) (actual count : nat)
         (st : loopState) (s : EState E),
    let m := fold_left Z.max (numbers containers) 0 in
    let next := nextContainerNumber containers in
    let number := fun k : nat => wrap (next + Z.of_nat k) in
    let name := fun k : nat =>
      getContainerName (Project.Name project) service (number k) in
    let out := run E (scaleUp project service next actual count 0 st) s in
    next = wrap (m + 1)
    /\ (numbers containers = [] -> next = 1)
    /\ omap requestedNumber (snd out) `prefix_of` map number (seq 0 count)
    /\ (snd (fst (fst out)) = None ->
        omap requestedNumber (snd out) = map number (seq 0 count))
    /\ omap createdName (snd out) `sublist_of` map name (seq 0 count)
    /\ (forall k,
          (Service.ContainerName service = "" ->
           name k = Project.Name project ++ Separator ++ Service.Name service
                      ++ Separator ++ Itoa (number k))
          /\ (Service.ContainerName service <> "" ->
              name k = Service.ContainerName service))
    /\ (m + Z.of_nat count <= MaxInt ->
        forall k, (k < count)%nat ->
          number k = m + 1 + Z.of_nat k
          /\ 0 < number k
          /\ Forall (fun n => n < number k) (numbers containers)).
Proof.
  intros ext E project service containers actual count st s m next number name out.
  assert (Hnext : next = wrap (m + 1)).
  { unfold next, nextContainerNumber. rewrite nextContainerNumber_fold. reflexivity. }
  split; [exact Hnext |].
  split.
  { intros Hnil. rewrite Hnext. unfold m. rewrite Hnil. reflexivity. }
  destruct (scaleUp_trace E project service next actual count 0 st s)
    as (P1 & P2 & P3).
  split; [exact P1 |]. split; [exact P2 |]. split; [exact P3 |].
  split.
  { intros k. unfold name, getContainerName, getDefaultContainerName. simpl. split.
    - intros ->. reflexivity.
    - intros Hn. apply String.eqb_neq in Hn. rewrite Hn. reflexivity. }
  intros Hbound k Hk.
  destruct (fold_max_bounds (numbers containers) 0) as [Hm0 Hmax].
  fold m in Hm0, Hmax.
  assert (Hwrap : number k = m + 1 + Z.of_nat k).
  { unfold number. rewrite Hnext.
    rewrite (wrap_small (m + 1)) by (unfold MinInt, MaxInt in *; lia).
    apply wrap_small. unfold MinInt, MaxInt in *. lia. }
  split; [exact Hwrap |]. split; [lia |].
  rewrite Hwrap. eapply Forall_impl; [exact Hmax |].
  simpl. intros n Hn. lia.
Qed.

Lemma scaleUp_numbers_and_names_witness :
  wrap (nextContainerNumber (ext := Sample.ext) [Inputs.db2; Inputs.db1] + 1)
  = 2 + 1 + 1
  /\ 0 < wrap (nextContainerNumber (ext := Sample.ext) [Inputs.db2; Inputs.db1] + 1)
  /\ Forall (fun n => n < wrap (nextContainerNumber (ext := Sample.ext)
                                  [Inputs.db2; Inputs.db1] + 1))
       (numbers (ext := Sample.ext) [Inputs.db2; Inputs.db1]).
Proof.
  refine (proj2 (proj2 (proj2 (proj2 (proj2 (proj2
    (scaleUp_numbers_and_names Sample.ext Sample.okEngine Sample.project
       Inputs.webService [Inputs.db2; Inputs.db1] 2 2
       {| conv := Inputs.dbStore; updated := []; egErr := None |} tt)))))) _ 1%nat _).
  - vm_compute. discriminate.
  - lia.
Defined.

(** ** Recreate protocol *)

Section RecreateFacts.
Context {ext : Externals} (E : Engine).

Lemma connectNetworks_steps (project : Project.t) (service : Service.t)
    (number : Z) (cfgs : createConfigs) (opts : createOptions)
    (created : Summary.t) (keys : list string) (s : EState E) :
  omap stepOf
    (snd (run E (connectNetworks project service number cfgs opts created keys) s))
  = [].
Proof.
  revert s.
  induction keys as [| k keys IH]; intros s; simpl; [reflexivity |].
  destruct (String.eqb (HostNetworkMode cfgs)
              (default "" (Project.Networks project !! k))); [apply IH |].
  simpl. engine_step; try reflexivity.
  specialize (IH s0).
  destruct (run E (connectNetworks project service number cfgs opts created keys) s0)
    as [[x s2] tr]. simpl in *. exact IH.
Qed.

(** The steps of [createMobyContainer]: the configuration, then the
    creation unless the configuration or the platform fails; a success
    has both. *)
Lemma createMobyContainer_steps (project : Project.t) (service : Service.t)
    (name : string) (number : Z) (inherit : option Summary.t)
    (opts : createOptions) (s : EState E) :
  let out := run E (createMobyContainer project service name number inherit opts) s in
  let steps := omap stepOf (snd out) in
  (steps = [Configure number inherit (OptLabels opts)]
   \/ steps = [Configure number inherit (OptLabels opts); Create name])
  /\ (snd (fst (fst out)) = Ok tt ->
      steps = [Configure number inherit (OptLabels opts); Create name]).
Proof.
  unfold createMobyContainer. simpl.
  engine_step; try (split; [left; reflexivity | discriminate]).
  match goal with
  | |- context [match ?p with Ok _ => _ | Err _ => _ | Panic => _ end] =>
      destruct p as [plat | e |]
  end; simpl; try (split; [left; reflexivity | discriminate]).
  engine_step; try (split; [right; reflexivity | discriminate]).
  engine_step; try (split; [right; reflexivity | discriminate]).
  engine_step; try (split; [right; reflexivity | discriminate]).
  match goal with
  | |- context [versions_LessThan ?v ?w] => destruct (versions_LessThan v w)
  end; simpl; [| split; [right; reflexivity | reflexivity]].
  rewrite run_bind.
  match goal with
  | |- context [run E (connectNetworks ?p ?sv ?n ?c ?o ?cr ?k) ?st] =>
      pose proof (connectNetworks_steps p sv n c o cr k st) as H1;
      destruct (run E (connectNetworks p sv n c o cr k) st) as [[x sx] trx]
  end.
  cbn [snd] in H1. simpl. fold_omap. rewrite ?app_nil_r, H1.
  split; [right; reflexivity | reflexivity].
Qed.

End RecreateFacts.

Arguments recreateContainer : simpl never.

(** C4: the recreate protocol on any engine.  A successful recreate has
    parsed the number of the replaced container from its label and runs
    exactly these steps in this order: the replacement is configured
    with that number and created under the transient name (the first 12
    characters of the replaced id, an underscore, the canonical name),
    the replaced container is stopped, then removed, then the
    replacement is renamed to the canonical name; so the container these
    steps bring about carries the canonical name and the number of the
    replaced one.  Every run, failed or not, issues a prefix of these
    steps and nothing else: a failure after the creation is not rolled
    back. *)
Theorem recreateContainer_protocol :
  forall (ext : Externals) (E : Engine) (s : EState E) (project : Project.t)
         (service : Service.t) (replaced : Summary.t) (inherit : bool)
         (timeout : option Z),
    let out := run E (recreateContainer project service replaced inherit timeout) s in
    let steps := omap stepOf (snd out) in
    (snd (fst (fst out)) = Ok tt ->
     exists number,
       Atoi (Summary.label replaced ContainerNumberLabel) = Some number
       /\ (12 <= String.length (Summary.ID replaced))%nat
       /\ steps = recreateSteps project service replaced inherit timeout number
                    (String.substring 0 12 (Summary.ID replaced))
       /\ born steps 0 [] =
          [(getContainerName (Project.Name project) service number, number)])
    /\ (forall number,
          Atoi (Summary.label replaced ContainerNumberLabel) = Some number ->
          steps `prefix_of`
            recreateSteps project service replaced inherit timeout number
              (String.substring 0 12 (Summary.ID replaced))).
Proof.
  intros ext E s project service replaced inherit timeout.
  unfold recreateContainer.
  destruct (Atoi (Summary.label replaced ContainerNumberLabel)) as [number |];
    [| simpl; split; [discriminate | intros n H; discriminate]].
  unfold sliceTo.
  destruct (Nat.leb_spec 12 (String.length (Summary.ID replaced))) as [Hlen | Hlen];
    [| simpl; split; [discriminate | intros n _; apply prefix_nil]].
  cbv zeta. rewrite run_bind.
  match goal with
  | |- context [run E (createMobyContainer ?p ?sv ?n ?k ?h ?o) ?s0] =>
      pose proof (createMobyContainer_steps E p sv n k h o s0) as [H1 H2];
      destruct (run E (createMobyContainer p sv n k h o) s0) as [[cr s1] tr1]
  end.
  cbn [fst snd OptLabels] in H1, H2.
  destruct (snd cr) as [[] | e |] eqn:Hcr.
  2,3: cbn [run fst snd]; rewrite app_nil_r;
       (split; [discriminate |]); intros n Hn;
       destruct H1 as [H1 | H1]; rewrite H1;
       injection Hn as <-; eexists; reflexivity.
  specialize (H2 eq_refl). clear H1.
  simpl. engine_step.
  2,3: fold_omap; rewrite !omap_app, H2, ?app_nil_r;
       (split; [discriminate |]); intros n Hn; injection Hn as <-;
       eexists; reflexivity.
  engine_step.
  2,3: fold_omap; rewrite !omap_app, H2, ?app_nil_r;
       (split; [discriminate |]); intros n Hn; injection Hn as <-;
       eexists; reflexivity.
  engine_step.
  2,3: fold_omap; rewrite !omap_app, H2, ?app_nil_r;
       (split; [discriminate |]); intros n Hn; injection Hn as <-;
       exists []; reflexivity.
  fold_omap. rewrite !omap_app, H2, ?app_nil_r. split.
  - intros _. exists number. split; [reflexivity |]. split; [exact Hlen |].
    split; [reflexivity |]. simpl. rewrite String.eqb_refl. reflexivity.
  - intros n Hn. injection Hn as <-. exists []. reflexivity.
Qed.

Lemma recreateContainer_protocol_witness :
  let steps :=
    omap stepOf
      (snd (run Sample.okEngine
              (recreateContainer (ext := Sample.ext) Sample.project
                 Inputs.dbService Inputs.db1 false (Some 10)) tt)) in
  steps = [Configure 1 None (<["com.docker.compose.replace" := "db-1"]> ∅);
           Create "1111aaaa2222_app-db-1";
           Stop "1111aaaa2222bbbb" (Some 10);
           Remove "1111aaaa2222bbbb";
           Rename "1111aaaa2222_app-db-1" "app-db-1"]
  /\ born steps 0 [] = [("app-db-1", 1)].
Proof.
  destruct (proj1 (recreateContainer_protocol Sample.ext Sample.okEngine tt
                     Sample.project Inputs.dbService Inputs.db1 false (Some 10))
              eq_refl) as (number & Hn & _ & Hs & Hb).
  injection Hn as <-. split; [exact Hs | exact Hb].
Defined.

(** When the removal of the replaced container fails, the run stops
    there: the replacement keeps its transient name and nothing is
    undone. *)
Example recreateContainer_failed_removal :
  let out :=
    run Inputs.noRemoveEngine
      (recreateContainer (ext := Sample.ext) Sample.project
         Inputs.dbService Inputs.db1 false (Some 10)) tt in
  snd (fst (fst out)) = Err "removal in progress"
  /\ omap stepOf (snd out)
     = [Configure 1 None (<["com.docker.compose.replace" := "db-1"]> ∅);
        Create "1111aaaa2222_app-db-1";
        Stop "1111aaaa2222bbbb" (Some 10);
        Remove "1111aaaa2222bbbb"]
  /\ born (omap stepOf (snd out)) 0 [] = [("1111aaaa2222_app-db-1", 1)].
Proof. vm_compute. repeat split. Qed.

(** ** Waiting for a healthy dependency *)

Section HealthFacts.
Variable inspect : string -> result Inspect.t.
Let E := snapshotEngine inspect.

Lemma isServiceHealthy_skip (c : Summary.t) (rest : Containers) :
  reportsHealthy (inspect (Summary.ID c)) = true ->
  value E (isServiceHealthy (c :: rest) false) tt
  = value E (isServiceHealthy rest false) tt.
Proof.
  unfold value, reportsHealthy. simpl.
  destruct (inspect (Summary.ID c)) as [container | e |]; try discriminate.
  destruct (Inspect.State container) as [state |] eqn:Hst; [| discriminate].
  intros H. apply andb_true_iff in H. destruct H as [H Hh].
  apply andb_true_iff in H. destruct H as [Hn Hx].
  apply negb_true_iff in Hn, Hx.
  destruct (Inspect.Health state) as [status |] eqn:Hhe; [| discriminate].
  simpl. unfold sliceFrom.
  destruct (Inspect.Name container) as [| a name]; [discriminate |].
  simpl. rewrite Hx. simpl. rewrite Hh, andb_false_r.
  destruct (run E (isServiceHealthy rest false) tt) as [[v s] tr].
  reflexivity.
Qed.

Lemma isServiceHealthy_stop (c : Summary.t) (rest : Containers) :
  reportsHealthy (inspect (Summary.ID c)) = false ->
  value E (isServiceHealthy (c :: rest) false) tt
  = value E (isServiceHealthy [c] false) tt
  /\ value E (isServiceHealthy [c] false) tt <> Ok true.
Proof.
  unfold value, reportsHealthy. simpl.
  destruct (inspect (Summary.ID c)) as [container | e |];
    [| split; [reflexivity | discriminate] ..].
  unfold sliceFrom.
  destruct (Inspect.Name container) as [| a name];
    [split; [reflexivity | discriminate] |].
  simpl.
  destruct (Inspect.State container) as [state |];
    [| split; [reflexivity | discriminate]].
  destruct (String.eqb (Inspect.Status state) "exited");
    [split; [reflexivity | discriminate] |].
  simpl. rewrite andb_false_r.
  destruct (Inspect.Health state) as [status |];
    [| split; [reflexivity | discriminate]].
  intros Hh. rewrite Hh.
  destruct (String.eqb status Unhealthy); [split; [reflexivity | discriminate] |].
  destruct (String.eqb status Starting); split; try reflexivity; discriminate.
Qed.

Lemma isServiceHealthy_first (containers : Containers) :
  match firstNotHealthy inspect containers with
  | None => value E (isServiceHealthy containers false) tt = Ok true
  | Some c =>
      value E (isServiceHealthy containers false) tt
      = value E (isServiceHealthy [c] false) tt
      /\ value E (isServiceHealthy [c] false) tt <> Ok true
  end.
Proof.
  unfold firstNotHealthy.
  induction containers as [| c rest IH]; [reflexivity |].
  cbn [find]. destruct (reportsHealthy (inspect (Summary.ID c))) eqn:Hc; cbn [negb].
  - destruct (find _ rest); rewrite isServiceHealthy_skip by exact Hc; exact IH.
  - apply isServiceHealthy_stop, Hc.
Qed.

Lemma firstNotHealthy_None (containers : Containers) :
  firstNotHealthy inspect containers = None
  <-> Forall (fun c => reportsHealthy (inspect (Summary.ID c)) = true) containers.
Proof.
  unfold firstNotHealthy. induction containers as [| c rest IH]; simpl.
  - split; [constructor | reflexivity].
  - destruct (reportsHealthy (inspect (Summary.ID c))) eqn:Hc; simpl.
    + rewrite IH. split; [constructor; assumption |].
      intros H. apply Forall_cons_iff in H. apply H.
    + split; [discriminate |]. intros H. apply Forall_cons_iff in H.
      destruct H as [H _]. congruence.
Qed.

(** What a single container that is not healthy makes of the check. *)
Lemma isServiceHealthy_single (c : Summary.t) (container : Inspect.t)
    (state : Inspect.ContainerState) :
  inspect (Summary.ID c) = Ok container ->
  Inspect.Name container <> "" ->
  Inspect.State container = Some state ->
  let h := value E (isServiceHealthy [c] false) tt in
  (Inspect.Status state = "exited" -> isErr h = true)
  /\ (Inspect.Status state <> "exited" ->
      (Inspect.Health state = None -> isErr h = true)
      /\ (Inspect.Health state = Some Unhealthy -> isErr h = true)
      /\ (Inspect.Health state = Some Starting -> h = Ok false)).
Proof.
  intros Hi Hn Hst. unfold value. simpl. rewrite Hi. unfold sliceFrom.
  destruct (Inspect.Name container) as [| a name]; [congruence |].
  simpl. rewrite Hst. split.
  - intros ->. reflexivity.
  - intros Hx. apply String.eqb_neq in Hx. rewrite Hx. simpl.
    rewrite andb_false_r.
    split; [intros ->; reflexivity |]. split; intros ->; reflexivity.
Qed.

End HealthFacts.

Lemma value_bind_snapshot {A B} (inspect : string -> result Inspect.t)
    (m : Eng A) (f : A -> Eng B) :
  value (snapshotEngine inspect) (bind m f) tt
  = value (snapshotEngine inspect) (f (value (snapshotEngine inspect) m tt)) tt.
Proof.
  unfold value. rewrite run_bind.
  destruct (run (snapshotEngine inspect) m tt) as [[a []] tr1]. simpl.
  destruct (run (snapshotEngine inspect) (f a) tt) as [[b s2] tr2]. reflexivity.
Qed.

(** C6, as stated, fails when the containers disagree: with a container
    that is starting listed before one that is unhealthy, the check
    reports not-yet-healthy without an error and the wait goes on; with
    the two in the other order the check fails although a container is
    still starting. *)
Lemma isServiceHealthy_starting_hides_unhealthy :
  let E := snapshotEngine Inputs.startingThenUnhealthy in
  Inputs.startingThenUnhealthy (Summary.ID Inputs.depB)
    = Ok (Inputs.inspected "b" "running" 0 (Some Unhealthy))
  /\ value E (isServiceHealthy [Inputs.depA; Inputs.depB] false) tt = Ok false
  /\ value E (waitTick "db" (Inputs.requiredDep ServiceConditionHealthy)
                [Inputs.depA; Inputs.depB]) tt = None
  /\ Inputs.startingThenUnhealthy (Summary.ID Inputs.depA)
       = Ok (Inputs.inspected "a" "running" 0 (Some Starting))
  /\ value E (isServiceHealthy [Inputs.depB; Inputs.depA] false) tt
       = Err "container b is unhealthy".
Proof. vm_compute. repeat split. Qed.

(** C6 (amended): for the condition [service_healthy], on one snapshot
    of the engine, the health check reports success exactly when every
    container is shown in health status [Healthy]; otherwise the first
    container of the list that is not shown healthy decides: the check
    fails with an error when that container has exited, is unhealthy or
    has no health check configured, and reports not-yet-healthy without
    an error, so that the wait polls again, when its status is
    [Starting].  A failure ends the wait with an error when the
    dependency is required and is downgraded to a skip with a warning
    when it is not. *)
Theorem waitTick_healthy_first_decides :
  forall (inspect : string -> result Inspect.t) (containers : Containers)
         (dep : string) (config : ServiceDependency),
    let E := snapshotEngine inspect in
    let h := value E (isServiceHealthy containers false) tt in
    let t := value E (waitTick dep config containers) tt in
    (h = Ok true <->
     Forall (fun c => reportsHealthy (inspect (Summary.ID c)) = true) containers)
    /\ (forall c container state,
          firstNotHealthy inspect containers = Some c ->
          inspect (Summary.ID c) = Ok container ->
          Inspect.Name container <> "" ->
          Inspect.State container = Some state ->
          (Inspect.Status state = "exited" -> isErr h = true)
          /\ (Inspect.Status state <> "exited" ->
              (Inspect.Health state = None -> isErr h = true)
              /\ (Inspect.Health state = Some Unhealthy -> isErr h = true)
              /\ (Inspect.Health state = Some Starting -> h = Ok false)))
    /\ (Condition config = ServiceConditionHealthy ->
        (h = Ok true -> t = Some Satisfied)
        /\ (h = Ok false -> t = None)
        /\ (forall e, h = Err e ->
              (Required config = true ->
               t = Some (Failed ("dependency failed to start: " ++ e)))
              /\ (Required config = false ->
                  t = Some (Skipped ("optional dependency " ++ Quote dep
                                       ++ " failed to start"))))).
Proof.
  intros inspect containers dep config E h t.
  pose proof (isServiceHealthy_first inspect containers) as Hfirst.
  split; [| split].
  - rewrite <- firstNotHealthy_None.
    destruct (firstNotHealthy inspect containers) as [c |].
    + destruct Hfirst as [Heq Hne]. fold E in Heq, Hne. fold h in Heq.
      split; [| discriminate]. intros H. rewrite H in Heq. congruence.
    + split; [reflexivity | intros _; exact Hfirst].
  - intros c container state Hc Hi Hn Hst.
    rewrite Hc in Hfirst. destruct Hfirst as [Heq _].
    unfold h, E. rewrite Heq.
    exact (isServiceHealthy_single inspect c container state Hi Hn Hst).
  - intros Hcond. unfold t, E, waitTick. rewrite Hcond. simpl.
    rewrite value_bind_snapshot. fold E. fold h.
    split; [intros ->; reflexivity |]. split; [intros ->; reflexivity |].
    intros e ->. split; intros ->; reflexivity.
Qed.

Lemma waitTick_healthy_first_decides_witness :
  let E := snapshotEngine Inputs.healthyThenStarting in
  value E (isServiceHealthy [Inputs.depA; Inputs.depB] false) tt = Ok false
  /\ value E (waitTick "db" (Inputs.requiredDep ServiceConditionHealthy)
                [Inputs.depA; Inputs.depB]) tt = None.
Proof.
  pose proof (waitTick_healthy_first_decides Inputs.healthyThenStarting
                [Inputs.depA; Inputs.depB] "db"
                (Inputs.requiredDep ServiceConditionHealthy)) as (_ & H2 & H3).
  assert (Hh : value (snapshotEngine Inputs.healthyThenStarting)
                 (isServiceHealthy [Inputs.depA; Inputs.depB] false) tt = Ok false).
  { refine (proj2 (proj2 (proj2
      (H2 Inputs.depB (Inputs.inspected "b" "running" 0 (Some Starting))
          {| Inspect.Status := "running"; Inspect.ExitCode := 0;
             Inspect.Health := Some Starting |}
          eq_refl eq_refl _ eq_refl) _)) eq_refl); discriminate. }
  split; [exact Hh |].
  exact (proj1 (proj2 (H3 eq_refl)) Hh).
Defined.

(** ** Waiting for a dependency to complete *)

Section CompletedFacts.
Variable inspect : string -> result Inspect.t.
Let E := snapshotEngine inspect.

Lemma isServiceCompleted_first (containers : Containers) :
  match firstExited inspect containers with
  | None => value E (isServiceCompleted containers) tt = Ok (false, 0)
  | Some c =>
      value E (isServiceCompleted containers) tt
      = match inspect (Summary.ID c) with
        | Ok _ =>
            match exitedWith (inspect (Summary.ID c)) with
            | Some code => Ok (true, code)
            | None => Ok (false, 0)
            end
        | Err e => Err e
        | Panic => Panic
        end
  end.
Proof.
  unfold firstExited, value.
  induction containers as [| c rest IH]; [reflexivity |].
  cbn [find isServiceCompleted]. simpl run. unfold exitedWith at 1.
  destruct (inspect (Summary.ID c)) as [container | e |] eqn:Hi; simpl;
    [| rewrite Hi; reflexivity ..].
  destruct (Inspect.State container) as [state |] eqn:Hst.
  - destruct (String.eqb (Inspect.Status state) "exited") eqn:Hx; simpl.
    + rewrite Hi. simpl. rewrite Hst, Hx. reflexivity.
    + destruct (run E (isServiceCompleted rest) tt) as [[v s] tr].
      simpl in *. exact IH.
  - destruct (run E (isServiceCompleted rest) tt) as [[v s] tr].
    simpl in *. exact IH.
Qed.

Lemma firstExited_decides (containers : Containers) (c : Summary.t) :
  firstExited inspect containers = Some c ->
  isOk (inspect (Summary.ID c)) = false
  \/ exists code, exitedWith (inspect (Summary.ID c)) = Some code.
Proof.
  unfold firstExited. intros H. apply find_some in H. destruct H as [_ H].
  apply orb_true_iff in H. destruct H as [H | H].
  - left. apply negb_true_iff, H.
  - right. destruct (exitedWith (inspect (Summary.ID c))) as [code |];
      [exists code; reflexivity | discriminate].
Qed.

End CompletedFacts.




(** A round that does not end the wait is followed by the next one, and
    the wait gives up when the context is done. *)
Lemma waitFor_polls_again (inspect : string -> result Inspect.t) (ticks : nat)
    (dep : string) (config : ServiceDependency) (containers : Containers) :
  value (snapshotEngine inspect) (waitFor (S ticks) dep config containers) tt
  = match value (snapshotEngine inspect) (waitTick dep config containers) tt with
    | Some outcome => outcome
    | None => value (snapshotEngine inspect) (waitFor ticks dep config containers) tt
    end.
Proof.
  cbn [waitFor]. rewrite value_bind_snapshot.
  destruct (value (snapshotEngine inspect) (waitTick dep config containers) tt);
    reflexivity.
Qed.

(** ** The reconciler and the observed-state store *)

Arguments stopDependentContainers : simpl never.
Arguments mustRecreate : simpl never.

Lemma egGo_updated {ext : Externals} (st : loopState) (r : result unit) :
  updated (egGo st r) = updated st.
Proof. unfold egGo. destruct (egErr st), r; reflexivity. Qed.

Section ReconcileFacts.
Context {ext : Externals} (E : Engine).

(** The loop over the traversal keeps the length of [updated], and none
    of its early returns is the return after the wait. *)
Lemma reconcile_inv (project : Project.t) (service : Service.t)
    (recreate : string) (inherit : bool) (timeout : option Z) (expected : Z)
    (todo : Containers) :
  forall (i : nat) (st : loopState) (s : EState E),
    let v := value E (reconcile project service recreate inherit timeout
                        expected i todo st) s in
    length (updated (fst v)) = length (updated st) /\ notAtWait (snd v).
Proof.
  unfold value.
  induction todo as [| container rest IH]; intros i st s.
  { simpl. split; [reflexivity | intros site r u H; discriminate]. }
  cbn [reconcile].
  destruct (expected <=? Z.of_nat i).
  { simpl. engine_step.
    3: { split; [reflexivity | intros site r u [= <- _]; discriminate]. }
    all: match goal with
         | |- context [run E (reconcile ?p ?sv ?rc ?inh ?t ?e ?j ?l ?st') ?s'] =>
             specialize (IH j st' s');
             destruct (run E (reconcile p sv rc inh t e j l st') s') as [[o s2] tr2]
         end; cbn [fst snd] in *; rewrite egGo_updated in IH; exact IH. }
  destruct (mustRecreate (conv st) service container recreate) as [[|] | e |].
  - rewrite run_bind.
    destruct (run E (stopDependentContainers (conv st) project service) s)
      as [[d s1] tr1].
    destruct (snd d) as [[] | e |].
    2,3: cbn [run fst snd]; split; [reflexivity |];
         intros site r u [= <- _]; discriminate.
    rewrite run_bind.
    destruct (run E (recreateContainer project service container inherit timeout) s1)
      as [[rc s2] tr2].
    destruct (snd rc) as [[] | e |].
    3: { cbn [run fst snd]. split; [apply length_insert |].
         intros site r u [= <- _]; discriminate. }
    all: match goal with
         | |- context [run E (reconcile ?p ?sv ?rc ?inh ?t ?e ?j ?l ?st') ?s'] =>
             specialize (IH j st' s');
             destruct (run E (reconcile p sv rc inh t e j l st') s') as [[o s3] tr3]
         end; cbn [fst snd] in *; rewrite egGo_updated in IH;
         cbn [updated setUpdated setConv] in IH; rewrite length_insert in IH;
         exact IH.
  - destruct (isSettled (Summary.State container)).
    + match goal with
      | |- context [run E (reconcile ?p ?sv ?rc ?inh ?t ?e ?j ?l ?st') ?s'] =>
          specialize (IH j st' s');
          destruct (run E (reconcile p sv rc inh t e j l st') s') as [[o s3] tr3]
      end; cbn [fst snd] in *.
      cbn [updated setUpdated] in IH; rewrite length_insert in IH. exact IH.
    + unfold startContainer. simpl. engine_step.
      3: { split; [reflexivity | intros site r u [= <- _]; discriminate]. }
      all: match goal with
           | |- context [run E (reconcile ?p ?sv ?rc ?inh ?t ?e ?j ?l ?st') ?s'] =>
               specialize (IH j st' s');
               destruct (run E (reconcile p sv rc inh t e j l st') s') as [[o s2] tr2]
           end; cbn [fst snd] in *;
           cbn [updated setUpdated] in IH; rewrite length_insert, egGo_updated in IH;
           exact IH.
  - cbn [run fst snd]. split; [reflexivity | intros site r u [= <- _]; discriminate].
  - cbn [run fst snd]. split; [reflexivity | intros site r u [= <- _]; discriminate].
Qed.

Lemma scaleUp_inv (project : Project.t) (service : Service.t) (next : Z)
    (actual : nat) (count : nat) :
  forall (i : nat) (st : loopState) (s : EState E),
    let v := value E (scaleUp project service next actual count i st) s in
    length (updated (fst v)) = length (updated st) /\ notAtWait (snd v).
Proof.
  unfold value.
  induction count as [| count IH]; intros i st s.
  { simpl. split; [reflexivity | intros site r u H; discriminate]. }
  cbn [scaleUp]. rewrite run_bind.
  match goal with
  | |- context [run E (createContainer ?p ?sv ?n ?k ?o) ?s0] =>
      destruct (run E (createContainer p sv n k o) s0) as [[cr s1] tr1]
  end.
  destruct (snd cr) as [[] | e |].
  3: { cbn [run fst snd]. split; [apply length_insert |].
       intros site r u [= <- _]; discriminate. }
  all: match goal with
       | |- context [run E (scaleUp ?p ?sv ?n ?a ?c ?j ?st') ?s'] =>
           specialize (IH j st' s');
           destruct (run E (scaleUp p sv n a c j st') s') as [[o s3] tr3]
       end; cbn [fst snd] in *; rewrite egGo_updated in IH;
       cbn [updated setUpdated] in IH; rewrite length_insert in IH; exact IH.
Qed.

End ReconcileFacts.

Lemma resolveMode_cases {ext : Externals} (c : convergence) (what mode : string) :
  exists c' r, resolveMode c what mode = (c', r).
Proof. destruct (resolveMode c what mode) as [c' r]. eauto. Qed.

Lemma resolveServiceReferences_name {ext : Externals} (c c' : convergence)
    (service service' : Service.t) (r : result unit) :
  resolveServiceReferences c service = (c', service', r) ->
  Service.Name service' = Service.Name service.
Proof.
  unfold resolveServiceReferences, resolveVolumeFrom.
  destruct (resolveVolumes c [] (Service.VolumesFrom service)) as [[c1 vf] r1].
  destruct r1 as [[] | e |]; [| intros [= _ <- _]; reflexivity ..].
  unfold resolveSharedNamespaces.
  destruct (resolveMode c1 "network namespace"
              (Service.NetworkMode (Service.withVolumesFrom vf service)))
    as [c2 [nm | e |]]; [| intros [= _ <- _]; reflexivity ..].
  destruct (resolveMode c2 "IPC namespace"
              (Service.Ipc (Service.withNetworkMode nm
                              (Service.withVolumesFrom vf service))))
    as [c3 [ipc | e |]]; [| intros [= _ <- _]; reflexivity ..].
  destruct (resolveMode c3 "PID namespace"
              (Service.Pid (Service.withIpc ipc
                 (Service.withNetworkMode nm
                    (Service.withVolumesFrom vf service)))))
    as [c4 [pid | e |]]; intros [= _ <- _]; reflexivity.
Qed.



(** ** The order of the traversal *)

Section TraversalFacts.
Context {ext : Externals}.
Variables (c : convergence) (service : Service.t) (recreate : string).

Let ob := fun x : Summary.t => obsolete c service x recreate.
Let lt := less c service recreate.

Lemma traversal_fold (l : Containers) :
  traversal c service recreate l
  = fold_left (fun rp x => insertLeft lt x rp) l [].
Proof. unfold traversal, sort_Slice. apply rev_involutive. Qed.

Lemma less_obsolete_l (x y : Summary.t) : ob x = true -> lt x y = true.
Proof. unfold lt, less, ob. intros ->. reflexivity. Qed.

Lemma less_obsolete_r (x y : Summary.t) :
  ob x = false -> ob y = true -> lt x y = false.
Proof. unfold lt, less, ob. intros -> ->. reflexivity. Qed.

Lemma less_up_to_date (x y : Summary.t) :
  ob x = false -> ob y = false -> lt x y = lessUpToDate x y.
Proof. unfold lt, less, ob. intros -> ->. reflexivity. Qed.

(** A container that has to be recreated moves to the far left of the
    slice, that is, to the end of the traversal. *)
Lemma insertLeft_obsolete (x : Summary.t) (rp : Containers) :
  ob x = true -> insertLeft lt x rp = (rp ++ [x])%list.
Proof.
  intros Hx. induction rp as [| y rp IH]; simpl; [reflexivity |].
  rewrite (less_obsolete_l x y Hx), IH. reflexivity.
Qed.

(** An up-to-date container stops at the containers to recreate. *)
Lemma insertLeft_up_to_date (x : Summary.t) (u o : Containers) :
  ob x = false ->
  Forall (fun y => ob y = true) o ->
  insertLeft lt x (u ++ o) = (insertLeft lt x u ++ o)%list.
Proof.
  intros Hx Ho. induction u as [| y u IH]; simpl.
  - destruct o as [| y o]; [reflexivity |]. simpl.
    apply Forall_cons_iff in Ho. destruct Ho as [Hy _].
    rewrite (less_obsolete_r x y Hx Hy). reflexivity.
  - destruct (lt x y); [rewrite IH |]; reflexivity.
Qed.

Lemma fold_insertLeft_split (l : Containers) :
  forall u o : Containers,
    Forall (fun y => ob y = true) o ->
    fold_left (fun rp x => insertLeft lt x rp) l (u ++ o)%list
    = (fold_left (fun rp x => insertLeft lt x rp)
         (List.filter (fun x => negb (ob x)) l) u
       ++ (o ++ List.filter ob l))%list.
Proof.
  induction l as [| x l IH]; intros u o Ho; simpl.
  - rewrite app_nil_r. reflexivity.
  - destruct (ob x) eqn:Hx; simpl.
    + rewrite insertLeft_obsolete by exact Hx.
      rewrite <- app_assoc. rewrite IH.
      * rewrite <- app_assoc. reflexivity.
      * apply Forall_app. split; [exact Ho |]. constructor; [exact Hx | constructor].
    + rewrite insertLeft_up_to_date by assumption. apply IH, Ho.
Qed.

(** On containers none of which has to be recreated, [less] sorts as
    [lessUpToDate] does. *)
Lemma insertLeft_ext (x : Summary.t) (rp : Containers) :
  ob x = false ->
  Forall (fun y => ob y = false) rp ->
  insertLeft lt x rp = insertLeft lessUpToDate x rp.
Proof.
  intros Hx Hrp. induction rp as [| y rp IH]; simpl; [reflexivity |].
  apply Forall_cons_iff in Hrp. destruct Hrp as [Hy Hrp].
  rewrite (less_up_to_date x y Hx Hy), (IH Hrp). reflexivity.
Qed.

Lemma fold_insertLeft_ext (l : Containers) :
  forall rp : Containers,
    Forall (fun y => ob y = false) l ->
    Forall (fun y => ob y = false) rp ->
    fold_left (fun rp x => insertLeft lt x rp) l rp
    = fold_left (fun rp x => insertLeft lessUpToDate x rp) l rp.
Proof.
  induction l as [| x l IH]; intros rp Hl Hrp; simpl; [reflexivity |].
  apply Forall_cons_iff in Hl. destruct Hl as [Hx Hl].
  rewrite (insertLeft_ext x rp Hx Hrp). apply IH; [exact Hl |].
  eapply Permutation_Forall; [symmetry; apply insertLeft_perm |].
  constructor; assumption.
Qed.

Lemma lessUpToDate_asym (x y : Summary.t) :
  lessUpToDate x y = true -> lessUpToDate y x = false.
Proof.
  unfold lessUpToDate.
  destruct (Atoi (Summary.label x ContainerNumberLabel)) as [nx |],
           (Atoi (Summary.label y ContainerNumberLabel)) as [ny |];
    intros H; apply Z.ltb_lt in H; apply Z.ltb_ge; lia.
Qed.

End TraversalFacts.

(** ** Scale-down follows the traversal *)

Lemma omap_none {A B} (f : A -> option B) (l : list A) :
  Forall (fun x => f x = None) l -> omap f l = [].
Proof.
  induction 1 as [| x l Hx _ IH]; [reflexivity |].
  cbn [omap list_omap]. rewrite Hx. exact IH.
Qed.

Section ScaleDownFacts.
Context {ext : Externals} (E : Engine).

Local Abbreviation quiet := (Forall (fun op => scaledDown op = None)).

Lemma connectNetworks_quiet (project : Project.t) (service : Service.t)
    (number : Z) (cfgs : createConfigs) (opts : createOptions)
    (created : Summary.t) (keys : list string) (s : EState E) :
  quiet (snd (run E (connectNetworks project service number cfgs opts created keys) s)).
Proof.
  revert s.
  induction keys as [| k keys IH]; intros s; simpl; [constructor |].
  destruct (String.eqb (HostNetworkMode cfgs)
              (default "" (Project.Networks project !! k))); [apply IH |].
  simpl. engine_step; try (constructor; [reflexivity | constructor]).
  specialize (IH s0).
  destruct (run E (connectNetworks project service number cfgs opts created keys) s0)
    as [[x s2] tr]. simpl in *. constructor; [reflexivity | exact IH].
Qed.

Lemma createMobyContainer_quiet (project : Project.t) (service : Service.t)
    (name : string) (number : Z) (inherit : option Summary.t)
    (opts : createOptions) (s : EState E) :
  quiet (snd (run E (createMobyContainer project service name number inherit opts) s)).
Proof.
  unfold createMobyContainer. simpl.
  engine_step; try (repeat constructor).
  match goal with
  | |- context [match ?p with Ok _ => _ | Err _ => _ | Panic => _ end] =>
      destruct p as [plat | e |]
  end; simpl; try (repeat constructor).
  engine_step; try (repeat constructor).
  engine_step; try (repeat constructor).
  engine_step; try (repeat constructor).
  match goal with
  | |- context [versions_LessThan ?v ?w] => destruct (versions_LessThan v w)
  end; simpl; [| repeat constructor].
  rewrite run_bind.
  match goal with
  | |- context [run E (connectNetworks ?p ?sv ?n ?c ?o ?cr ?k) ?st] =>
      pose proof (connectNetworks_quiet p sv n c o cr k st) as H1;
      destruct (run E (connectNetworks p sv n c o cr k) st) as [[x sx] trx]
  end.
  cbn [snd] in H1. simpl. rewrite app_nil_r.
  repeat (constructor; [reflexivity |]). exact H1.
Qed.

Lemma recreateContainer_quiet (project : Project.t) (service : Service.t)
    (replaced : Summary.t) (inherit : bool) (timeout : option Z) (s : EState E) :
  quiet (snd (run E (recreateContainer project service replaced inherit timeout) s)).
Proof.
  unfold recreateContainer.
  destruct (Atoi (Summary.label replaced ContainerNumberLabel)) as [number |];
    [| constructor].
  destruct (sliceTo (Summary.ID replaced) 12) as [prefix | e |]; try constructor.
  cbv zeta. rewrite run_bind.
  match goal with
  | |- context [run E (createMobyContainer ?p ?sv ?n ?k ?h ?o) ?s0] =>
      pose proof (createMobyContainer_quiet p sv n k h o s0) as H1;
      destruct (run E (createMobyContainer p sv n k h o) s0) as [[cr s1] tr1]
  end.
  cbn [snd] in H1.
  destruct (snd cr) as [[] | e |];
    [| cbn [run fst snd]; rewrite app_nil_r; exact H1 ..].
  simpl.
  engine_step; [| apply Forall_app; split; [exact H1 | repeat constructor] ..].
  engine_step; [| apply Forall_app; split; [exact H1 | repeat constructor] ..].
  engine_step; apply Forall_app; (split; [exact H1 | repeat constructor]).
Qed.

Lemma stopDependentContainers_quiet (c : convergence) (project : Project.t)
    (service : Service.t) (s : EState E) :
  quiet (snd (run E (stopDependentContainers c project service) s)).
Proof.
  unfold stopDependentContainers.
  destruct (length (Project.Dependents project service) =? 0)%nat; [constructor |].
  simpl. engine_step; repeat constructor.
Qed.

(** The containers that the loop hands to [stopAndRemoveContainer] are,
    in order, those of the traversal from the index [expected] on: all
    of them when the loop runs through, the first of them when it is cut
    short. *)
Lemma reconcile_scaledDown (project : Project.t) (service : Service.t)
    (recreate : string) (inherit : bool) (timeout : option Z) (expected : Z)
    (todo : Containers) :
  forall (i : nat) (st : loopState) (s : EState E),
    let out := run E (reconcile project service recreate inherit timeout
                        expected i todo st) s in
    omap scaledDown (snd out) `prefix_of` drop (Z.to_nat expected - i) todo
    /\ (snd (fst (fst out)) = None ->
        omap scaledDown (snd out) = drop (Z.to_nat expected - i) todo).
Proof.
  induction todo as [| container rest IH]; intros i st s.
  { simpl. rewrite drop_nil. split; reflexivity. }
  cbn [reconcile].
  destruct (Z.leb_spec expected (Z.of_nat i)) as [Hle | Hgt].
  { replace (Z.to_nat expected - i)%nat with 0%nat by lia.
    specialize (IH (S i)).
    replace (Z.to_nat expected - S i)%nat with 0%nat in IH by lia.
    simpl. engine_step.
    3: { split; [| discriminate]. exists rest. reflexivity. }
    all: match goal with
         | |- context [run E (reconcile ?p ?sv ?rc ?inh ?t ?e ?j ?l ?st') ?s'] =>
             specialize (IH st' s');
             destruct (run E (reconcile p sv rc inh t e j l st') s') as [[o s2] tr2]
         end; cbn [fst snd] in *; cbn [omap list_omap scaledDown]; fold_omap;
         destruct IH as [P1 P2];
         (split; [apply (prefix_app [container]); exact P1 |]);
         intros H; rewrite (P2 H); reflexivity. }
  replace (Z.to_nat expected - i)%nat with (S (Z.to_nat expected - S i)) by lia.
  cbn [drop]. specialize (IH (S i)).
  destruct (mustRecreate (conv st) service container recreate) as [[|] | e |].
  - rewrite run_bind.
    pose proof (stopDependentContainers_quiet (conv st) project service s) as Hq1.
    destruct (run E (stopDependentContainers (conv st) project service) s)
      as [[d s1] tr1].
    cbn [snd] in Hq1. apply omap_none in Hq1.
    destruct (snd d) as [[] | e |].
    2,3: cbn [run fst snd]; rewrite app_nil_r, Hq1;
         split; [apply prefix_nil | discriminate].
    rewrite run_bind.
    pose proof (recreateContainer_quiet project service container inherit timeout s1)
      as Hq2.
    destruct (run E (recreateContainer project service container inherit timeout) s1)
      as [[rc s2] tr2].
    cbn [snd] in Hq2. apply omap_none in Hq2.
    destruct (snd rc) as [[] | e |].
    3: { cbn [run fst snd]. rewrite !omap_app, Hq1, Hq2.
         split; [apply prefix_nil | discriminate]. }
    all: match goal with
         | |- context [run E (reconcile ?p ?sv ?rc ?inh ?t ?e ?j ?l ?st') ?s'] =>
             specialize (IH st' s');
             destruct (run E (reconcile p sv rc inh t e j l st') s') as [[o s3] tr3]
         end; cbn [fst snd] in *; rewrite !omap_app, Hq1, Hq2; exact IH.
  - destruct (isSettled (Summary.State container)).
    + apply IH.
    + unfold startContainer. simpl. engine_step.
      3: { split; [apply prefix_nil | discriminate]. }
      all: match goal with
           | |- context [run E (reconcile ?p ?sv ?rc ?inh ?t ?e ?j ?l ?st') ?s'] =>
               specialize (IH st' s');
               destruct (run E (reconcile p sv rc inh t e j l st') s') as [[o s2] tr2]
           end; cbn [fst snd] in *; fold_omap; exact IH.
  - cbn [run fst snd]. split; [apply prefix_nil | discriminate].
  - cbn [run fst snd]. split; [apply prefix_nil | discriminate].
Qed.

End ScaleDownFacts.

Section TraversalOrder.
Context {ext : Externals}.

Lemma settled_numbers (l : Containers) :
  Sorted (settled lessUpToDate) l ->
  Forall hasNumber l ->
  Sorted Z.le (numbers l).
Proof.
  induction 1 as [| y l Hs IH Hd]; intros Hn; [constructor |].
  apply Forall_cons_iff in Hn. destruct Hn as [[ny Hy] Hn].
  unfold numbers. cbn [omap list_omap]. rewrite Hy. fold_omap.
  constructor; [apply IH, Hn |].
  destruct Hd as [| z l Hyz]; [constructor |].
  apply Forall_cons_iff in Hn. destruct Hn as [[nz Hz] _].
  cbn [omap list_omap]. rewrite Hz. constructor.
  unfold settled, lessUpToDate in Hyz. rewrite Hy, Hz in Hyz.
  apply Z.ltb_ge in Hyz. exact Hyz.
Qed.

Lemma settled_created (l : Containers) :
  Sorted (settled lessUpToDate) l ->
  Forall (fun x => ~ hasNumber x) l ->
  Sorted Z.ge (map Summary.Created l).
Proof.
  induction 1 as [| y l Hs IH Hd]; intros Hn; [constructor |].
  apply Forall_cons_iff in Hn. destruct Hn as [Hy Hn].
  cbn [map]. constructor; [apply IH, Hn |].
  destruct Hd as [| z l Hyz]; [constructor |].
  cbn [map]. constructor.
  unfold settled, lessUpToDate in Hyz.
  destruct (Atoi (Summary.label y ContainerNumberLabel)) as [ny |] eqn:Ey.
  { exfalso. apply Hy. exists ny. exact Ey. }
  apply Z.ltb_ge in Hyz. lia.
Qed.

End TraversalOrder.




(** * Further properties *)

(** ** The observed-state store *)

(** X1: what is stored under a name is what is read back under it, the
    other names read as before, and a name never stored reads as the
    empty list. *)
Theorem setObservedState_getObservedState :
  forall (c : convergence) (name other : string) (containers : Containers),
    getObservedState (setObservedState c name containers) name = containers
    /\ (other <> name ->
        getObservedState (setObservedState c name containers) other
        = getObservedState c other)
    /\ (services c !! other = None -> getObservedState c other = []).
Proof.
  intros c name other containers. unfold getObservedState, setObservedState.
  simpl. split; [rewrite lookup_insert_eq; reflexivity |]. split.
  - intros Hne. rewrite lookup_insert_ne by congruence. reflexivity.
  - intros ->. reflexivity.
Qed.

Section NewConvergenceFacts.
Variables (ServiceLabel : string) (isNotOneOff : Summary.t -> bool).

Let group := fun (m : gmap string Containers) (c : Summary.t) =>
  let service := Summary.label c ServiceLabel in
  <[service := (default [] (m !! service) ++ [c])%list]> m.

Lemma group_lookup (l : Containers) :
  forall (m : gmap string Containers) (name : string),
    default [] (fold_left group l m !! name)
    = (default [] (m !! name)
       ++ List.filter (fun c => String.eqb (Summary.label c ServiceLabel) name) l)%list.
Proof.
  induction l as [| c l IH]; intros m name; simpl.
  - rewrite app_nil_r. reflexivity.
  - rewrite IH. unfold group.
    destruct (String.eqb_spec (Summary.label c ServiceLabel) name) as [-> | Hne].
    + rewrite lookup_insert_eq. simpl. rewrite <- app_assoc. reflexivity.
    + rewrite lookup_insert_ne by exact Hne. reflexivity.
Qed.

Lemma group_keeps_keys (l : Containers) :
  forall (m : gmap string Containers) (name : string),
    is_Some (m !! name) -> is_Some (fold_left group l m !! name).
Proof.
  induction l as [| c l IH]; intros m name Hm; simpl; [exact Hm |].
  apply IH. unfold group.
  destruct (String.eqb_spec (Summary.label c ServiceLabel) name) as [-> | Hne].
  - rewrite lookup_insert_eq. eauto.
  - rewrite lookup_insert_ne by exact Hne. exact Hm.
Qed.

Lemma declare_lookup (names : list string) :
  forall (m : gmap string Containers) (name : string),
    (In name names ->
     fold_left (fun m s => <[s := []]> m) names m !! name = Some [])
    /\ (~ In name names ->
        fold_left (fun m s => <[s := []]> m) names m !! name = m !! name).
Proof.
  induction names as [| s names IH]; intros m name; simpl.
  - split; [tauto | reflexivity].
  - destruct (IH (<[s := []]> m) name) as [Hin Hout].
    destruct (in_dec String.string_dec name names) as [Hd | Hd].
    + split; [intros _; apply Hin, Hd | intros H; exfalso; apply H; right; exact Hd].
    + split.
      * intros [-> | H]; [| tauto]. rewrite (Hout Hd). apply lookup_insert_eq.
      * intros H. rewrite (Hout Hd). apply lookup_insert_ne. tauto.
Qed.

(** X2: the state [newConvergence] builds holds, under every name, the
    containers that are not one-offs and carry that name in their
    service label, in the order of the listing; every listed service
    has an entry, be it empty; and the network and volume maps are kept. *)
Theorem newConvergence_groups_by_service :
  forall (serviceNames : list string) (state : Containers)
         (nets vols : option (gmap string string)) (name : string),
    let c := newConvergence ServiceLabel isNotOneOff serviceNames state
               nets vols in
    getObservedState c name
    = List.filter (fun ctr => String.eqb (Summary.label ctr ServiceLabel) name)
        (List.filter isNotOneOff state)
    /\ (In name serviceNames -> is_Some (services c !! name))
    /\ networks c = nets /\ volumes c = vols.
Proof.
  intros serviceNames state nets vols name c.
  unfold c, newConvergence, getObservedState. cbn [services].
  fold group. split; [| split; [| split; reflexivity]].
  - rewrite group_lookup.
    destruct (declare_lookup serviceNames ∅ name) as [Hin Hout].
    destruct (in_dec String.string_dec name serviceNames) as [Hd | Hd].
    + rewrite (Hin Hd). reflexivity.
    + rewrite (Hout Hd), lookup_empty. reflexivity.
  - intros Hin. apply group_keeps_keys.
    rewrite (proj1 (declare_lookup serviceNames ∅ name) Hin). eauto.
Qed.

End NewConvergenceFacts.

(** ** The divergence detector under the default policy *)

Section DetectorFacts.
Context {ext : Externals}.

Lemma checkExpectedNetworks_iff (expected : Service.t) (actual : Summary.t)
    (nets : gmap string string) :
  checkExpectedNetworks expected actual nets = true
  <-> missingNetwork expected actual nets.
Proof.
  unfold checkExpectedNetworks, missingNetwork. rewrite existsb_exists. split.
  - intros (net & Hin & H). exists net.
    apply list_elem_of_In, elem_of_elements in Hin. split; [exact Hin |].
    destruct (String.eqb_spec (default "" (nets !! net)) "swarm") as [| Hsw];
      [discriminate |].
    split; [exact Hsw |]. intros name id Hl Heq.
    apply negb_true_iff in H.
    assert (Hex : existsb (fun settings => String.eqb (snd settings)
                                             (default "" (nets !! net)))
                    (map_to_list (Summary.Networks actual)) = true).
    { apply existsb_exists. exists (name, id). split.
      - apply list_elem_of_In, elem_of_map_to_list. exact Hl.
      - simpl. apply String.eqb_eq. exact Heq. }
    congruence.
  - intros (net & Hin & Hsw & Hno). exists net. split.
    + apply list_elem_of_In, elem_of_elements. exact Hin.
    + apply String.eqb_neq in Hsw. rewrite Hsw. apply negb_true_iff.
      destruct (existsb _ (map_to_list (Summary.Networks actual))) eqn:Hex;
        [| reflexivity].
      apply existsb_exists in Hex. destruct Hex as ([name id] & Hl & Heq).
      apply list_elem_of_In, elem_of_map_to_list in Hl. simpl in Heq.
      apply String.eqb_eq in Heq. exfalso. exact (Hno name id Hl Heq).
Qed.

Lemma checkExpectedVolumes_iff (expected : Service.t) (actual : Summary.t)
    (vols : gmap string string) :
  checkExpectedVolumes expected actual vols = true
  <-> missingVolume expected actual vols.
Proof.
  unfold checkExpectedVolumes, missingVolume. rewrite existsb_exists. split.
  - intros (vol & Hin & H). exists vol. split; [exact Hin |].
    destruct (String.eqb_spec (Service.VolType vol) TypeVolume) as [Ht |];
      [| discriminate].
    destruct (String.eqb_spec (Service.VolSource vol) "") as [| Hs];
      [discriminate |].
    simpl in H. split; [exact Ht |]. split; [exact Hs |].
    intros m Hm Hty Hname. apply negb_true_iff in H.
    assert (Hex : existsb
              (fun mount => String.eqb (Summary.MountType mount) TypeVolume
                 && String.eqb (Summary.MountName mount)
                      (default "" (vols !! Service.VolSource vol)))
              (Summary.Mounts actual) = true).
    { apply existsb_exists. exists m. split; [exact Hm |].
      apply andb_true_iff. split; apply String.eqb_eq; assumption. }
    congruence.
  - intros (vol & Hin & Ht & Hs & Hno). exists vol. split; [exact Hin |].
    apply String.eqb_eq in Ht. rewrite Ht.
    apply String.eqb_neq in Hs. rewrite Hs. simpl.
    apply negb_true_iff.
    destruct (existsb _ (Summary.Mounts actual)) eqn:Hex; [| reflexivity].
    apply existsb_exists in Hex. destruct Hex as (m & Hm & H).
    apply andb_true_iff in H. destruct H as [H1 H2].
    apply String.eqb_eq in H1, H2. exfalso. exact (Hno m Hm H1 H2).
Qed.

Lemma mustRecreate_diverged_checks :
  forall (c : convergence) (expected : Service.t) (actual : Summary.t)
         (policy : string),
    policy <> RecreateNever ->
    policy <> RecreateForce ->
    (forall e, ServiceHash expected = inr e ->
               mustRecreate c expected actual policy = Err e)
    /\ (forall h, ServiceHash expected = inl h ->
        exists b,
          mustRecreate c expected actual policy = Ok b
          /\ (b = true <->
              Summary.label actual ConfigHashLabel <> h
              \/ Summary.label actual ImageDigestLabel
                 <> Service.customLabel expected ImageDigestLabel
              \/ (exists nets,
                    networks c = Some nets
                    /\ Summary.State actual = "running"
                    /\ checkExpectedNetworks expected actual nets = true)
              \/ (exists vols,
                    volumes c = Some vols
                    /\ checkExpectedVolumes expected actual vols = true))).
Proof.
  intros c expected actual policy Hn Hf.
  apply String.eqb_neq in Hn, Hf. unfold mustRecreate. rewrite Hn, Hf.
  split; [intros e ->; reflexivity |]. intros h ->.
  destruct (String.eqb_spec (Summary.label actual ConfigHashLabel) h) as [Hh | Hh];
    simpl; [| exists true; split; [reflexivity | tauto]].
  destruct (String.eqb_spec (Summary.label actual ImageDigestLabel)
              (Service.customLabel expected ImageDigestLabel)) as [Hd | Hd];
    simpl; [| exists true; split; [reflexivity | tauto]].
  destruct (networks c) as [nets |] eqn:Hnets.
  - destruct (String.eqb_spec (Summary.State actual) "running") as [Hr | Hr]; simpl.
    + destruct (checkExpectedNetworks expected actual nets) eqn:Hcn.
      * exists true. split; [reflexivity |]. split; [| reflexivity].
        intros _. right. right. left. exists nets. auto.
      * destruct (volumes c) as [vols |] eqn:Hvols.
        -- destruct (checkExpectedVolumes expected actual vols) eqn:Hcv.
           ++ exists true. split; [reflexivity |]. split; [| reflexivity].
              intros _. right. right. right. exists vols. auto.
           ++ exists false. split; [reflexivity |]. split; [discriminate |].
              intros [H | [H | [(n & [= <-] & _ & H) | (v & [= <-] & H)]]];
                congruence.
        -- exists false. split; [reflexivity |]. split; [discriminate |].
           intros [H | [H | [(n & [= <-] & _ & H) | (v & H & _)]]]; congruence.
    + destruct (volumes c) as [vols |] eqn:Hvols.
      * destruct (checkExpectedVolumes expected actual vols) eqn:Hcv.
        -- exists true. split; [reflexivity |]. split; [| reflexivity].
           intros _. right. right. right. exists vols. auto.
        -- exists false. split; [reflexivity |]. split; [discriminate |].
           intros [H | [H | [(n & _ & H & _) | (v & [= <-] & H)]]]; congruence.
      * exists false. split; [reflexivity |]. split; [discriminate |].
        intros [H | [H | [(n & _ & H & _) | (v & H & _)]]]; congruence.
  - simpl. destruct (volumes c) as [vols |] eqn:Hvols.
    + destruct (checkExpectedVolumes expected actual vols) eqn:Hcv.
      * exists true. split; [reflexivity |]. split; [| reflexivity].
        intros _. right. right. right. exists vols. auto.
      * exists false. split; [reflexivity |]. split; [discriminate |].
        intros [H | [H | [(n & H & _) | (v & [= <-] & H)]]]; congruence.
    + exists false. split; [reflexivity |]. split; [discriminate |].
      intros [H | [H | [(n & H & _) | (v & H & _)]]]; congruence.
Qed.

(** X3: under a policy that is neither [never] nor [force], a failure of
    the service hash is returned as the error; otherwise the detector
    answers, and it answers true exactly when the hash label differs
    from the hash, or the image digest label differs from the declared
    one, or, a network map being given and the container running, some
    declared network whose id is not the word [swarm] has no endpoint of
    the container attached, or, a volume map being given, some declared
    named volume with a source has no volume mount of the container of
    its id. *)
Theorem mustRecreate_diverged :
  forall (c : convergence) (expected : Service.t) (actual : Summary.t)
         (policy : string),
    policy <> RecreateNever ->
    policy <> RecreateForce ->
    (forall e, ServiceHash expected = inr e ->
               mustRecreate c expected actual policy = Err e)
    /\ (forall h, ServiceHash expected = inl h ->
        exists b,
          mustRecreate c expected actual policy = Ok b
          /\ (b = true <->
              Summary.label actual ConfigHashLabel <> h
              \/ Summary.label actual ImageDigestLabel
                 <> Service.customLabel expected ImageDigestLabel
              \/ (exists nets,
                    networks c = Some nets
                    /\ Summary.State actual = "running"
                    /\ missingNetwork expected actual nets)
              \/ (exists vols,
                    volumes c = Some vols
                    /\ missingVolume expected actual vols))).
Proof.
  intros c expected actual policy Hn Hf.
  destruct (mustRecreate_diverged_checks c expected actual policy Hn Hf)
    as [He Hh].
  split; [exact He |]. intros h Hhash.
  destruct (Hh h Hhash) as (b & Hb & Hiff). exists b. split; [exact Hb |].
  rewrite Hiff. clear.
  split; (intros [H | [H | [(n & Hn & Hr & H) | (v & Hv & H)]]];
          [left; exact H | right; left; exact H
          | right; right; left; exists n; repeat split; try assumption;
            apply checkExpectedNetworks_iff; exact H
          | right; right; right; exists v; split; [exact Hv |];
            apply checkExpectedVolumes_iff; exact H]).
Qed.

End DetectorFacts.

(** ** Reconciling containers that have not diverged *)

Lemma egGo_conv {ext : Externals} (st : loopState) (r : result unit) :
  conv (egGo st r) = conv st.
Proof. unfold egGo. destruct (egErr st), r; reflexivity. Qed.

Section UpToDateFacts.
Context {ext : Externals} (E : Engine).

(** The loop over containers that need no recreate: its calls, in order,
    and what it leaves in [updated]; only a panic of a call cuts it
    short. *)
Lemma reconcile_up_to_date (project : Project.t) (service : Service.t)
    (recreate : string) (inherit : bool) (timeout : option Z) (expected : Z)
    (todo : Containers) :
  forall (i : nat) (st : loopState) (s : EState E),
    Forall (fun ctr => mustRecreate (conv st) service ctr recreate = Ok false)
      (take (Z.to_nat expected - i) todo) ->
    let out := run E (reconcile project service recreate inherit timeout
                        expected i todo st) s in
    let v := fst (fst out) in
    snd out `prefix_of` upToDateCalls service timeout expected i todo
    /\ (snd v = None \/ snd v = Some (AtPanic, Panic))
    /\ (snd v = None ->
        snd out = upToDateCalls service timeout expected i todo
        /\ conv (fst v) = conv st
        /\ updated (fst v) = keepUpToDate expected i todo (updated st)).
Proof.
  induction todo as [| container rest IH]; intros i st s Hup.
  { simpl. split; [reflexivity |]. split; [left; reflexivity |].
    intros _. repeat split. }
  cbn [reconcile upToDateCalls keepUpToDate].
  destruct (Z.leb_spec expected (Z.of_nat i)) as [Hle | Hgt].
  { assert (Hup' : Forall (fun ctr => mustRecreate (conv st) service ctr recreate
                                      = Ok false)
                     (take (Z.to_nat expected - S i) rest)).
    { replace (Z.to_nat expected - S i)%nat with 0%nat by lia. constructor. }
    simpl. engine_step.
    3: { split; [exists (upToDateCalls service timeout expected (S i) rest);
                 reflexivity |].
         split; [right; reflexivity | discriminate]. }
    all: match goal with
         | |- context [run E (reconcile ?p ?sv ?rc ?inh ?t ?e ?j ?l ?st') ?s'] =>
             specialize (IH j st' s');
             rewrite egGo_conv, egGo_updated in IH;
             specialize (IH Hup');
             destruct (run E (reconcile p sv rc inh t e j l st') s') as [[o s2] tr2]
         end; cbn [fst snd] in *; destruct IH as (P1 & P2 & P3);
         (split; [apply (prefix_app [_]); exact P1 |]);
         (split; [exact P2 |]);
         intros H; destruct (P3 H) as (Q1 & Q2 & Q3);
         rewrite Q1; repeat split; assumption. }
  assert (Hsplit : (Z.to_nat expected - i)%nat = S (Z.to_nat expected - S i))
    by lia.
  rewrite Hsplit in Hup. cbn [take] in Hup.
  apply Forall_cons_iff in Hup. destruct Hup as [Hc Hup]. rewrite Hc.
  destruct (isSettled (Summary.State container)).
  - specialize (IH (S i) (setUpdated i container st) s Hup).
    cbn [app]. exact IH.
  - unfold startContainer. simpl. engine_step.
    3: { split; [exists (upToDateCalls service timeout expected (S i) rest);
                 reflexivity |].
         split; [right; reflexivity | discriminate]. }
    all: match goal with
         | |- context [run E (reconcile ?p ?sv ?rc ?inh ?t ?e ?j ?l ?st') ?s'] =>
             specialize (IH j st' s');
             cbn [conv updated setUpdated] in IH;
             rewrite egGo_conv, egGo_updated in IH;
             specialize (IH Hup);
             destruct (run E (reconcile p sv rc inh t e j l st') s') as [[o s2] tr2]
         end; cbn [fst snd] in *; destruct IH as (P1 & P2 & P3);
         (split; [apply (prefix_app [_]); exact P1 |]);
         (split; [exact P2 |]);
         intros H; destruct (P3 H) as (Q1 & Q2 & Q3);
         rewrite Q1; repeat split; assumption.
Qed.

End UpToDateFacts.

Lemma keepUpToDate_ge (expected : Z) (todo : Containers) :
  forall (i : nat) (slots : Containers),
    expected <= Z.of_nat i -> keepUpToDate expected i todo slots = slots.
Proof.
  induction todo as [| ctr rest IH]; intros i slots Hle; simpl; [reflexivity |].
  destruct (Z.leb_spec expected (Z.of_nat i)); [| lia]. apply IH. lia.
Qed.

Lemma keepUpToDate_fill (n : nat) (todo : Containers) :
  forall (i : nat) (pre : Containers),
    length pre = i -> (i <= n)%nat ->
    keepUpToDate (Z.of_nat n) i todo
      (pre ++ replicate (n - i) Summary.zero)%list
    = (pre ++ take (n - i) todo
       ++ replicate (n - i - length todo) Summary.zero)%list.
Proof.
  induction todo as [| ctr rest IH]; intros i pre Hlen Hle.
  - simpl. rewrite take_nil, Nat.sub_0_r. reflexivity.
  - cbn [keepUpToDate].
    destruct (Z.leb_spec (Z.of_nat n) (Z.of_nat i)) as [Hge | Hlt].
    + replace (n - i)%nat with 0%nat by lia. simpl.
      apply keepUpToDate_ge. lia.
    + replace (n - i)%nat with (S (n - S i)) by lia. cbn [replicate take length].
      rewrite insert_app_r_alt by lia.
      replace (i - length pre)%nat with 0%nat by lia. cbn [insert list_insert].
      specialize (IH (S i) (pre ++ [ctr])%list).
      rewrite <- app_assoc in IH. cbn [app] in IH.
      rewrite IH by (rewrite ?length_app; simpl; lia).
      rewrite <- app_assoc. reflexivity.
Qed.

Lemma mustRecreate_store {ext : Externals} (c : convergence)
    (m : gmap string Containers) (expected : Service.t) (actual : Summary.t)
    (policy : string) :
  mustRecreate (withServices m c) expected actual policy
  = mustRecreate c expected actual policy.
Proof. reflexivity. Qed.

Lemma scaledDown_upToDateCalls (service : Service.t) (timeout : option Z)
    (expected : Z) (todo : Containers) :
  forall i : nat,
    omap scaledDown (upToDateCalls service timeout expected i todo)
    = drop (Z.to_nat expected - i) todo.
Proof.
  induction todo as [| ctr rest IH]; intros i; simpl.
  - rewrite drop_nil. reflexivity.
  - fold_omap. rewrite omap_app, IH.
    destruct (Z.leb_spec expected (Z.of_nat i)) as [Hle | Hgt].
    + replace (Z.to_nat expected - i)%nat with 0%nat by lia.
      replace (Z.to_nat expected - S i)%nat with 0%nat by lia. reflexivity.
    + replace (Z.to_nat expected - i)%nat with (S (Z.to_nat expected - S i)) by lia.
      destruct (isSettled (Summary.State ctr)); reflexivity.
Qed.

(** ** The resolver and the store *)

Lemma getObservedState_reorder_perm (c : convergence) (name n : string)
    (f : Containers -> Containers) :
  (forall l, Permutation (f l) l) ->
  Permutation (getObservedState (reorderInPlace c name f) n) (getObservedState c n).
Proof.
  intros Hf. unfold getObservedState, reorderInPlace. simpl.
  destruct (String.eqb_spec name n) as [-> | Hne].
  - rewrite lookup_alter_eq. destruct (services c !! n); simpl; [apply Hf | reflexivity].
  - rewrite lookup_alter_ne by exact Hne. reflexivity.
Qed.

Section ResolverStoreFacts.
Context {ext : Externals}.
Hypothesis sorted_perm : forall l : Containers, Permutation (sorted l) l.

Let same (c c' : convergence) : Prop :=
  networks c' = networks c /\ volumes c' = volumes c
  /\ forall n, Permutation (getObservedState c' n) (getObservedState c n).

Lemma same_refl (c : convergence) : same c c.
Proof. unfold same. repeat split; reflexivity. Qed.

Lemma same_trans (c1 c2 c3 : convergence) : same c1 c2 -> same c2 c3 -> same c1 c3.
Proof.
  unfold same. intros (N1 & V1 & P1) (N2 & V2 & P2). split; [congruence |].
  split; [congruence |]. intros n. rewrite P2. apply P1.
Qed.

Lemma firstSorted_same (c : convergence) (name : string) :
  same c (fst (firstSorted c name)).
Proof.
  unfold firstSorted.
  assert (H : same c (reorderInPlace c name sorted)).
  { unfold same. repeat split; try reflexivity.
    intros n. apply getObservedState_reorder_perm, sorted_perm. }
  destruct (sorted (getObservedState c name) !! 0%nat); exact H.
Qed.

Lemma resolveVolume_same (c : convergence) (vol : string) :
  same c (fst (resolveVolume c vol)).
Proof.
  unfold resolveVolume.
  destruct (length (Split vol ":") =? 0)%nat; [apply same_refl |].
  destruct (Split vol ":" !! 0%nat) as [s0 |]; [| apply same_refl].
  destruct (String.eqb s0 "container").
  - destruct (Split vol ":" !! 1%nat); apply same_refl.
  - destruct (length (getObservedState c s0) =? 0)%nat;
      [apply same_refl | apply firstSorted_same].
Qed.

Lemma resolveVolumes_same (todo : list string) :
  forall (c : convergence) (done : list string),
    same c (fst (fst (resolveVolumes c done todo)))
    /\ length (snd (fst (resolveVolumes c done todo)))
       = (length done + length todo)%nat.
Proof.
  induction todo as [| vol rest IH]; intros c done; simpl.
  - split; [apply same_refl | lia].
  - pose proof (resolveVolume_same c vol) as Hv.
    destruct (resolveVolume c vol) as [c1 [v | e |]]; simpl in Hv.
    + destruct (IH c1 (done ++ [v])%list) as [Hs Hl]. split.
      * eapply same_trans; eassumption.
      * rewrite Hl, length_app. simpl. lia.
    + simpl. split; [exact Hv | rewrite length_app; reflexivity].
    + simpl. split; [exact Hv | rewrite length_app; reflexivity].
Qed.

Lemma resolveMode_same (c : convergence) (what mode : string) :
  same c (fst (resolveMode c what mode)).
Proof.
  unfold resolveMode.
  destruct (negb (String.eqb (getDependentServiceFromMode mode) ""));
    [| apply same_refl].
  destruct (length (getObservedState c (getDependentServiceFromMode mode)) =? 0)%nat;
    [apply same_refl |].
  pose proof (firstSorted_same c (getDependentServiceFromMode mode)) as H.
  destruct (firstSorted c (getDependentServiceFromMode mode)) as [c' [id | e |]];
    exact H.
Qed.

Lemma resolveServiceReferences_same :
  forall (c c' : convergence) (service service' : Service.t) (r : result unit),
    resolveServiceReferences c service = (c', service', r) ->
    (forall n, Permutation (getObservedState c' n) (getObservedState c n))
    /\ networks c' = networks c /\ volumes c' = volumes c
    /\ length (Service.VolumesFrom service') = length (Service.VolumesFrom service)
    /\ Service.withPid (Service.Pid service)
         (Service.withIpc (Service.Ipc service)
            (Service.withNetworkMode (Service.NetworkMode service)
               (Service.withVolumesFrom (Service.VolumesFrom service) service')))
       = service.
Proof.
  intros c c' service service' r.
  unfold resolveServiceReferences, resolveVolumeFrom.
  destruct (resolveVolumes_same (Service.VolumesFrom service) c []) as [Hs Hl].
  destruct (resolveVolumes c [] (Service.VolumesFrom service)) as [[c1 vf] r1].
  cbn [fst snd] in Hs, Hl. simpl in Hl.
  assert (Hfin : forall c2, same c1 c2 ->
            (forall n, Permutation (getObservedState c2 n) (getObservedState c n))
            /\ networks c2 = networks c /\ volumes c2 = volumes c).
  { intros c2 H2. destruct (same_trans c c1 c2 Hs H2) as (N & V & P). auto. }
  destruct service as [nm cn sc pr pl la cl ne np vo vfrom nmode ipc pid].
  cbn [Service.VolumesFrom Service.NetworkMode Service.Ipc Service.Pid] in *.
  destruct r1 as [[] | e |].
  2,3: intros [= <- <- <-]; destruct (Hfin c1 (same_refl c1)) as (P & N & V);
       repeat split; assumption.
  unfold resolveSharedNamespaces.
  cbn [Service.withVolumesFrom Service.NetworkMode Service.Ipc Service.Pid
       Service.withNetworkMode Service.withIpc].
  pose proof (resolveMode_same c1 "network namespace" nmode) as H1.
  destruct (resolveMode c1 "network namespace" nmode) as [c2 [nm' | e |]];
    cbn [fst] in H1.
  2,3: intros [= <- <- <-]; destruct (Hfin c2 H1) as (P & N & V);
       repeat split; assumption.
  cbn [Service.withVolumesFrom Service.NetworkMode Service.Ipc Service.Pid
       Service.withNetworkMode Service.withIpc].
  pose proof (resolveMode_same c2 "IPC namespace" ipc) as H2.
  destruct (resolveMode c2 "IPC namespace" ipc) as [c3 [ipc' | e |]];
    cbn [fst] in H2.
  2,3: intros [= <- <- <-];
       destruct (Hfin c3 (same_trans _ _ _ H1 H2)) as (P & N & V);
       repeat split; assumption.
  cbn [Service.withVolumesFrom Service.NetworkMode Service.Ipc Service.Pid
       Service.withNetworkMode Service.withIpc].
  pose proof (resolveMode_same c3 "PID namespace" pid) as H3.
  destruct (resolveMode c3 "PID namespace" pid) as [c4 [pid' | e |]];
    cbn [fst] in H3;
    intros [= <- <- <-];
    destruct (Hfin c4 (same_trans _ _ _ (same_trans _ _ _ H1 H2) H3)) as (P & N & V);
    repeat split; assumption.
Qed.

(** X4: whatever its outcome, [resolveServiceReferences] keeps in the
    store the containers of every service, in some order, and the
    network and volume maps; of the service configuration it changes
    only the volumes-from entries, whose count it keeps, and the
    network, IPC and PID modes. *)
Theorem resolveServiceReferences_frame :
  forall (c c' : convergence) (service service' : Service.t) (r : result unit),
    resolveServiceReferences c service = (c', service', r) ->
    (forall n, Permutation (getObservedState c' n) (getObservedState c n))
    /\ networks c' = networks c /\ volumes c' = volumes c
    /\ length (Service.VolumesFrom service') = length (Service.VolumesFrom service)
    /\ Service.withPid (Service.Pid service)
         (Service.withIpc (Service.Ipc service)
            (Service.withNetworkMode (Service.NetworkMode service)
               (Service.withVolumesFrom (Service.VolumesFrom service) service')))
       = service.
Proof. exact resolveServiceReferences_same. Qed.

End ResolverStoreFacts.

Section EnsureUpToDate.
Context {ext : Externals}.
Hypothesis sorted_perm : forall l : Containers, Permutation (sorted l) l.

Lemma traversal_perm (c : convergence) (service : Service.t) (recreate : string)
    (l : Containers) :
  Permutation (traversal c service recreate l) l.
Proof. unfold traversal. rewrite <- Permutation_rev. apply sort_Slice_perm. Qed.

Lemma ensureService_up_to_date_calls :
  forall (E : Engine) (s : EState E) (c c1 : convergence) (project : Project.t)
         (service service1 : Service.t) (recreate : string) (inherit : bool)
         (timeout : option Z) (expected : Z),
    Service.Provider service = false ->
    getScale service = Ok expected ->
    0 <= expected <= Z.of_nat (length (getObservedState c (Service.Name service))) ->
    resolveServiceReferences c service = (c1, service1, Ok tt) ->
    let name := Service.Name service in
    let t := traversal c1 service1 recreate (getObservedState c1 name) in
    Forall (fun ctr => mustRecreate c1 service1 ctr recreate = Ok false)
      (take (Z.to_nat expected) t) ->
    let out := run E (ensureService c project service recreate inherit timeout) s in
    let calls := upToDateCalls service1 timeout expected 0 t in
    snd out `prefix_of` calls
    /\ forall c' u r,
         fst (fst out) = (c', AtWait u, r) ->
         snd out = calls
         /\ u = take (Z.to_nat expected) t
         /\ c' = setObservedState
                   (reorderInPlace c1 name (traversal c1 service1 recreate)) name u
         /\ Permutation (u ++ omap scaledDown (snd out))
              (getObservedState c name).
Proof.
  intros E s c c1 project service service1 recreate inherit timeout expected
         Hp Hscale Hexp Hres name t Hup out calls.
  subst name.
  pose proof (resolveServiceReferences_name c c1 service service1 _ Hres) as Hname.
  destruct (resolveServiceReferences_same sorted_perm c c1 service service1 _ Hres)
    as (Hperm & _).
  assert (Hlen : length t = length (getObservedState c (Service.Name service))).
  { unfold t.
    etransitivity; [apply Permutation_length, traversal_perm |].
    apply Permutation_length, Hperm. }
  unfold out, ensureService. rewrite Hp, Hscale.
  destruct (Z.ltb_spec expected 0) as [| _]; [lia |].
  rewrite Hres, Hname. fold t.
  rewrite run_bind.
  match goal with
  | |- context [run E (reconcile ?p ?sv ?rc ?inh ?tm ?e ?j ?l ?st') ?s'] =>
      pose proof (reconcile_up_to_date E p sv rc inh tm e l j st' s') as Hrec;
      destruct (run E (reconcile p sv rc inh tm e j l st') s') as [[l1 s1] tr1]
  end.
  cbn [conv updated fst snd] in Hrec. rewrite Nat.sub_0_r in Hrec.
  specialize (Hrec Hup). destruct Hrec as (P1 & P2 & P3).
  destruct P2 as [Hnone | Hpanic].
  2:{ rewrite Hpanic. cbn [run fst snd]. rewrite app_nil_r.
      split; [exact P1 |]. intros c' u r H. discriminate H. }
  rewrite Hnone. destruct (P3 Hnone) as (Q1 & Q2 & Q3).
  replace (Z.to_nat (expected
                      - Z.of_nat (length (getObservedState c (Service.Name service)))))
    with 0%nat by lia.
  cbn [scaleUp run fst snd bind]. rewrite !app_nil_r.
  split; [exact P1 |]. intros c' u r [= <- <- _].
  assert (Hu : updated (fst l1) = take (Z.to_nat expected) t).
  { rewrite Q3.
    pose proof (keepUpToDate_fill (Z.to_nat expected) t 0 [] eq_refl
                  ltac:(lia)) as Hfill.
    rewrite Nat.sub_0_r, Z2Nat.id in Hfill by lia. cbn [app] in Hfill.
    rewrite Hfill.
    replace (Z.to_nat expected - length t)%nat with 0%nat by lia.
    apply app_nil_r. }
  split; [exact Q1 |]. split; [exact Hu |].
  split; [rewrite Q2, Hu; reflexivity |].
  rewrite Hu, Q1. unfold calls. rewrite scaledDown_upToDateCalls, Nat.sub_0_r.
  rewrite take_drop. unfold t. rewrite traversal_perm. apply Hperm.
Qed.


Lemma upToDateCalls_zero (service : Service.t) (timeout : option Z)
    (todo : Containers) :
  forall i : nat,
    upToDateCalls service timeout 0 i todo
    = map (fun ctr => StopAndRemoveContainer ctr service timeout false) todo.
Proof.
  induction todo as [| ctr rest IH]; intros i; simpl; [reflexivity |].
  destruct (Z.leb_spec 0 (Z.of_nat i)); [| lia]. rewrite IH. reflexivity.
Qed.


End EnsureUpToDate.

Section NothingToDo.
Context {ext : Externals}.
Hypothesis sorted_perm : forall l : Containers, Permutation (sorted l) l.

Lemma reconcile_settled (E : Engine) (project : Project.t) (service : Service.t)
    (recreate : string) (inherit : bool) (timeout : option Z) (expected : Z)
    (todo : Containers) :
  forall (i : nat) (st : loopState) (s : EState E),
    Z.of_nat (i + length todo) <= expected ->
    Forall (fun ctr => mustRecreate (conv st) service ctr recreate = Ok false
                       /\ isSettled (Summary.State ctr) = true) todo ->
    run E (reconcile project service recreate inherit timeout expected i todo st) s
    = (({| conv := conv st;
           updated := keepUpToDate expected i todo (updated st);
           egErr := egErr st |}, None), s, []).
Proof.
  induction todo as [| ctr rest IH]; intros i st s Hle Hall.
  { destruct st. reflexivity. }
  apply Forall_cons_iff in Hall. destruct Hall as [[Hm Hs] Hall].
  cbn [reconcile keepUpToDate]. cbn [length] in Hle.
  destruct (Z.leb_spec expected (Z.of_nat i)); [lia |].
  rewrite Hm, Hs. rewrite IH by (try exact Hall; lia). reflexivity.
Qed.


End NothingToDo.

(** ** What the policy [never] rules out *)

Section CreationOps.
Context {ext : Externals} (E : Engine).

Lemma connectNetworks_ops (project : Project.t) (service : Service.t)
    (number : Z) (cfgs : createConfigs) (opts : createOptions)
    (created : Summary.t) (keys : list string) (s : EState E) :
  Forall isCreationOp
    (snd (run E (connectNetworks project service number cfgs opts created keys) s)).
Proof.
  revert s.
  induction keys as [| k keys IH]; intros s; simpl; [constructor |].
  destruct (String.eqb (HostNetworkMode cfgs)
              (default "" (Project.Networks project !! k))); [apply IH |].
  simpl. engine_step; try (constructor; [exact I | constructor]).
  specialize (IH s0).
  destruct (run E (connectNetworks project service number cfgs opts created keys) s0)
    as [[x s2] tr]. simpl in *. constructor; [exact I | exact IH].
Qed.

Lemma createMobyContainer_ops (project : Project.t) (service : Service.t)
    (name : string) (number : Z) (inherit : option Summary.t)
    (opts : createOptions) (s : EState E) :
  Forall isCreationOp
    (snd (run E (createMobyContainer project service name number inherit opts) s)).
Proof.
  unfold createMobyContainer. simpl.
  engine_step; try (repeat constructor).
  match goal with
  | |- context [match ?p with Ok _ => _ | Err _ => _ | Panic => _ end] =>
      destruct p as [plat | e |]
  end; simpl; try (repeat constructor).
  engine_step; try (repeat constructor).
  engine_step; try (repeat constructor).
  engine_step; try (repeat constructor).
  match goal with
  | |- context [versions_LessThan ?v ?w] => destruct (versions_LessThan v w)
  end; simpl; [| repeat constructor].
  rewrite run_bind.
  match goal with
  | |- context [run E (connectNetworks ?p ?sv ?n ?c ?o ?cr ?k) ?st] =>
      pose proof (connectNetworks_ops p sv n c o cr k st) as H1;
      destruct (run E (connectNetworks p sv n c o cr k) st) as [[x sx] trx]
  end.
  cbn [snd] in H1. simpl. rewrite app_nil_r.
  repeat (constructor; [exact I |]). exact H1.
Qed.

Lemma scaleUp_ops (project : Project.t) (service : Service.t) (next : Z)
    (actual : nat) (count : nat) :
  forall (i : nat) (st : loopState) (s : EState E),
    Forall isCreationOp
      (snd (run E (scaleUp project service next actual count i st) s)).
Proof.
  induction count as [| count IH]; intros i st s; [constructor |].
  cbn [scaleUp]. rewrite run_bind. unfold createContainer.
  match goal with
  | |- context [run E (createMobyContainer ?p ?sv ?n ?k ?h ?o) ?s0] =>
      pose proof (createMobyContainer_ops p sv n k h o s0) as H1;
      destruct (run E (createMobyContainer p sv n k h o) s0) as [[cr s1] tr1]
  end.
  cbn [snd] in H1.
  destruct (snd cr) as [[] | e |].
  3: { cbn [run fst snd]. rewrite app_nil_r. exact H1. }
  all: match goal with
       | |- context [run E (scaleUp ?p ?sv ?n ?a ?c ?j ?st') ?s'] =>
           specialize (IH j st' s');
           destruct (run E (scaleUp p sv n a c j st') s') as [[o s3] tr3]
       end; cbn [fst snd] in *; apply Forall_app; split; assumption.
Qed.

End CreationOps.

Lemma upToDateCalls_ops (service : Service.t) (timeout : option Z)
    (expected : Z) (todo : Containers) :
  forall i : nat,
    Forall (fun op => ~ isReplaceOp op /\ ~ isCreationOp op)
      (upToDateCalls service timeout expected i todo).
Proof.
  induction todo as [| ctr rest IH]; intros i; simpl; [constructor |].
  apply Forall_app. split; [| apply IH].
  destruct (expected <=? Z.of_nat i); [repeat constructor; tauto |].
  destruct (isSettled (Summary.State ctr)); repeat constructor; tauto.
Qed.

Lemma Forall_prefix {A} (P : A -> Prop) (l1 l2 : list A) :
  l1 `prefix_of` l2 -> Forall P l2 -> Forall P l1.
Proof. intros [k ->] H. apply Forall_app in H. apply H. Qed.


(** ** Failures before the first call *)

Lemma getDependentServiceFromMode_service (svc : string) :
  getDependentServiceFromMode ("service:" ++ svc) = svc.
Proof.
  unfold getDependentServiceFromMode. simpl.
  change ("" ++ svc) with svc.
  assert (Hp : HasPrefix svc "" = true) by (destruct svc; reflexivity).
  rewrite Hp, Nat.sub_0_r. apply substring_all.
Qed.

(** X9: a reference to a service of which the store holds no container
    fails [ensureService] before any call, with the store as it was: a
    first volumes-from entry that names such a service gives the error
    of the volumes, and, without volumes-from entries, a network mode
    [service:<svc>] for such a service gives the error of the network
    namespace. *)
Theorem ensureService_missing_reference :
  forall (ext : Externals) (E : Engine) (s : EState E) (c : convergence)
         (project : Project.t) (service : Service.t) (recreate : string)
         (inherit : bool) (timeout : option Z) (expected : Z) (svc : string),
    Service.Provider service = false ->
    getScale service = Ok expected ->
    0 <= expected ->
    getObservedState c svc = [] ->
    (forall vol rest,
       Service.VolumesFrom service = vol :: rest ->
       volumeService vol = Some svc ->
       run E (ensureService c project service recreate inherit timeout) s
       = ((c, AtReferences,
           Err ("cannot share volume with service " ++ svc
                  ++ ": container missing")), s, []))
    /\ (Service.VolumesFrom service = [] ->
        Service.NetworkMode service = "service:" ++ svc ->
        svc <> "" ->
        run E (ensureService c project service recreate inherit timeout) s
        = ((c, AtReferences,
            Err ("cannot share network namespace with service " ++ svc
                   ++ ": container missing")), s, [])).
Proof.
  intros ext E s c project service recreate inherit timeout expected svc
         Hp Hscale Hexp Hnil.
  split.
  - intros vol rest Hvf Hvol. unfold ensureService. rewrite Hp, Hscale.
    destruct (Z.ltb_spec expected 0); [lia |].
    unfold resolveServiceReferences, resolveVolumeFrom. rewrite Hvf.
    cbn [resolveVolumes]. unfold resolveVolume.
    unfold volumeService in Hvol.
    destruct (Split vol ":") as [| s0 segs] eqn:Hsp; [discriminate |].
    cbn [length Nat.eqb lookup list_lookup].
    destruct (String.eqb s0 "container"); [discriminate |].
    injection Hvol as ->. rewrite Hnil. reflexivity.
  - intros Hvf Hnm Hne. unfold ensureService. rewrite Hp, Hscale.
    destruct (Z.ltb_spec expected 0); [lia |].
    unfold resolveServiceReferences, resolveVolumeFrom. rewrite Hvf.
    cbn [resolveVolumes]. unfold resolveSharedNamespaces, resolveMode.
    cbn [Service.NetworkMode Service.withVolumesFrom]. rewrite Hnm.
    rewrite getDependentServiceFromMode_service.
    apply String.eqb_neq in Hne. rewrite Hne, Hnil. reflexivity.
Qed.


(** ** Stopping the dependents *)

Section DependentsFacts.
Context {ext : Externals}.

Let exited := map (Summary.withState ContainerExited).
Let mark := fun (c : convergence) (name : string) =>
  setObservedState c name (exited (getObservedState c name)).

Lemma exited_idemp (l : Containers) : exited (exited l) = exited l.
Proof. unfold exited. rewrite map_map. reflexivity. Qed.

Lemma mark_all (names : list string) :
  forall (c : convergence) (name : string),
    (In name names ->
     getObservedState (fold_left mark names c) name = exited (getObservedState c name))
    /\ (~ In name names ->
        getObservedState (fold_left mark names c) name = getObservedState c name).
Proof.
  induction names as [| n names IH]; intros c name; simpl.
  - split; [tauto | reflexivity].
  - destruct (IH (mark c n) name) as [Hin Hout].
    assert (Hmark : getObservedState (mark c n) name
                    = if String.eqb n name then exited (getObservedState c name)
                      else getObservedState c name).
    { unfold mark, getObservedState, setObservedState. simpl.
      destruct (String.eqb_spec n name) as [-> | Hne].
      - rewrite lookup_insert_eq. reflexivity.
      - rewrite lookup_insert_ne by exact Hne. reflexivity. }
    destruct (in_dec String.string_dec name names) as [Hd | Hd].
    + split; [| intros H; exfalso; apply H; right; exact Hd].
      intros _. rewrite (Hin Hd), Hmark.
      destruct (String.eqb n name); [apply exited_idemp | reflexivity].
    + split.
      * intros [-> | H]; [| tauto]. rewrite (Hout Hd), Hmark.
        rewrite String.eqb_refl. reflexivity.
      * intros H. rewrite (Hout Hd), Hmark.
        destruct (String.eqb_spec n name) as [-> | _]; [tauto | reflexivity].
Qed.

(** X11: [stopDependentContainers] on any engine.  Without dependents it
    makes no call and leaves the store as it is.  Otherwise it makes the
    one call that stops all the dependents; when that call fails the
    store is as it was and the error is returned; when it succeeds the
    containers of every dependent are in the store in the state
    [exited], otherwise unchanged and in their order, and the entries of
    the other services are as they were. *)
Theorem stopDependentContainers_marks_exited :
  forall (E : Engine) (s : EState E) (c : convergence) (project : Project.t)
         (service : Service.t),
    let dependents := Project.Dependents project service in
    let out := run E (stopDependentContainers c project service) s in
    let c' := fst (fst (fst out)) in
    (dependents = [] -> out = ((c, Ok tt), s, []))
    /\ (dependents <> [] ->
        snd out = [StopServices (Project.Name project) dependents]
        /\ (snd (fst (fst out)) <> Ok tt -> c' = c)
        /\ (snd (fst (fst out)) = Ok tt ->
            forall name,
              (In name dependents ->
               getObservedState c' name
               = map (Summary.withState ContainerExited) (getObservedState c name))
              /\ (~ In name dependents ->
                  getObservedState c' name = getObservedState c name))).
Proof.
  intros E s c project service dependents out c'.
  unfold c', out, stopDependentContainers. fold dependents.
  destruct dependents as [| d ds] eqn:Hd.
  - split; [reflexivity | congruence].
  - split; [discriminate |]. intros _. cbn [length Nat.eqb]. simpl.
    engine_step.
    + split; [reflexivity |]. split; [congruence |]. intros _ name.
      exact (mark_all (d :: ds) c name).
    + split; [reflexivity |]. split; [reflexivity | discriminate].
    + split; [reflexivity |]. split; [reflexivity | discriminate].
Qed.

End DependentsFacts.

(** ** Creating a container *)

Section CreateShape.
Context {ext : Externals} (E : Engine).

Lemma connectNetworks_calls (project : Project.t) (service : Service.t)
    (number : Z) (cfgs : createConfigs) (opts : createOptions)
    (created : Summary.t) (keys : list string) :
  forall s : EState E,
    let out := run E (connectNetworks project service number cfgs opts created keys) s in
    snd out `prefix_of` connectCalls project service number cfgs opts created keys
    /\ (fst (fst out) = Ok tt ->
        snd out = connectCalls project service number cfgs opts created keys).
Proof.
  induction keys as [| k keys IH]; intros s; simpl.
  - split; reflexivity.
  - destruct (String.eqb (HostNetworkMode cfgs)
                (default "" (Project.Networks project !! k))); [apply IH |].
    simpl. engine_step.
    2,3: split; [eexists; reflexivity | discriminate].
    specialize (IH s0).
    destruct (run E (connectNetworks project service number cfgs opts created keys) s0)
      as [[x s2] tr]. cbn [fst snd] in *. destruct IH as [P1 P2].
    split; [apply (prefix_app [_]); exact P1 |].
    intros H. rewrite (P2 H). reflexivity.
Qed.


(** X13: a run of [createMobyContainer], on any engine, that has not
    come to inspect the new container is a failed one, and what it
    returns beside the failure is the zero value of a summary. *)
Theorem createMobyContainer_failure_zero :
  forall (s : EState E) (project : Project.t) (service : Service.t)
         (name : string) (number : Z) (inherit : option Summary.t)
         (opts : createOptions),
    let out := run E (createMobyContainer project service name number inherit
                        opts) s in
    existsb isInspection (snd out) = false ->
    fst (fst (fst out)) = Summary.zero /\ snd (fst (fst out)) <> Ok tt.
Proof.
  intros s project service name number inherit opts.
  unfold createMobyContainer. simpl.
  engine_step; try (intros _; split; [reflexivity | discriminate]).
  match goal with
  | |- context [match ?p with Ok _ => _ | Err _ => _ | Panic => _ end] =>
      destruct p as [plat | e |]
  end; simpl; try (intros _; split; [reflexivity | discriminate]).
  engine_step; try (intros _; split; [reflexivity | discriminate]).
  match goal with
  | |- context [respond E ?st ?op] => destruct (respond E st op) as [r2 s2]
  end.
  match goal with
  | |- context [run E ?m s2] => destruct (run E m s2) as [[x sx] trx]
  end.
  simpl. discriminate.
Qed.

End CreateShape.

(** ** Recreating a container *)


(** ** Waiting for dependencies *)

Section WaitCalls.
Context {ext : Externals} (E : Engine).

Lemma inspects_cons (c : Summary.t) (rest : Containers) (op : Op) :
  inspects rest op -> inspects (c :: rest) op.
Proof. intros [x [Hx ->]]. exists x. split; [right; exact Hx | reflexivity]. Qed.

Lemma isServiceHealthy_inspects (containers : Containers) (fallback : bool) :
  forall s : EState E,
    Forall (inspects containers) (snd (run E (isServiceHealthy containers fallback) s)).
Proof.
  induction containers as [| c rest IH]; intros s; [constructor |].
  assert (Hc : inspects (c :: rest) (ContainerInspect (Summary.ID c))).
  { exists c. split; [left; reflexivity | reflexivity]. }
  assert (Hone : Forall (inspects (c :: rest)) [ContainerInspect (Summary.ID c)]).
  { constructor; [exact Hc | constructor]. }
  simpl. destruct (respond E s (ContainerInspect (Summary.ID c))) as [r s0].
  destruct r as [r | e |]; simpl; try exact Hone.
  destruct (sliceFrom (Inspect.Name r) 1); simpl; try exact Hone.
  destruct (Inspect.State r) as [state |]; simpl; try exact Hone.
  destruct (String.eqb (Inspect.Status state) "exited"); simpl; try exact Hone.
  destruct (negb (Inspect.Healthcheck r) && fallback); simpl; try exact Hone.
  destruct (Inspect.Health state) as [status |]; simpl; try exact Hone.
  destruct (String.eqb status Healthy); simpl.
  - specialize (IH s0).
    destruct (run E (isServiceHealthy rest fallback) s0) as [[x sx] trx].
    simpl in *. constructor; [exact Hc |].
    eapply List.Forall_impl; [| exact IH]. intros op. apply inspects_cons.
  - destruct (String.eqb status Unhealthy); simpl; try exact Hone.
    destruct (String.eqb status Starting); simpl; exact Hone.
Qed.

Lemma isServiceCompleted_inspects (containers : Containers) :
  forall s : EState E,
    Forall (inspects containers) (snd (run E (isServiceCompleted containers) s)).
Proof.
  induction containers as [| c rest IH]; intros s; [constructor |].
  assert (Hc : inspects (c :: rest) (ContainerInspect (Summary.ID c))).
  { exists c. split; [left; reflexivity | reflexivity]. }
  assert (Hone : Forall (inspects (c :: rest)) [ContainerInspect (Summary.ID c)]).
  { constructor; [exact Hc | constructor]. }
  assert (Hrest : forall s0 : EState E,
             Forall (inspects (c :: rest))
               (ContainerInspect (Summary.ID c)
                :: snd (run E (isServiceCompleted rest) s0))).
  { intros s0. constructor; [exact Hc |].
    eapply List.Forall_impl; [| exact (IH s0)]. intros op. apply inspects_cons. }
  simpl. destruct (respond E s (ContainerInspect (Summary.ID c))) as [r s0].
  destruct r as [r | e |]; simpl; try exact Hone.
  destruct (Inspect.State r) as [state |]; simpl.
  - destruct (String.eqb (Inspect.Status state) "exited"); simpl; try exact Hone.
    specialize (Hrest s0).
    destruct (run E (isServiceCompleted rest) s0) as [[x sx] trx]. exact Hrest.
  - specialize (Hrest s0).
    destruct (run E (isServiceCompleted rest) s0) as [[x sx] trx]. exact Hrest.
Qed.

Lemma waitTick_inspects (dep : string) (config : ServiceDependency)
    (containers : Containers) (s : EState E) :
  Forall (inspects containers) (snd (run E (waitTick dep config containers) s)).
Proof.
  unfold waitTick.
  destruct (String.eqb (Condition config) ServiceConditionRunningOrHealthy).
  { rewrite run_bind.
    pose proof (isServiceHealthy_inspects containers true s) as H.
    destruct (run E (isServiceHealthy containers true) s) as [[x sx] trx].
    cbn [fst snd] in *.
    destruct x as [[|] | e |]; [| | destruct (negb (Required config)) |];
      simpl; rewrite app_nil_r; exact H. }
  destruct (String.eqb (Condition config) ServiceConditionHealthy).
  { rewrite run_bind.
    pose proof (isServiceHealthy_inspects containers false s) as H.
    destruct (run E (isServiceHealthy containers false) s) as [[x sx] trx].
    cbn [fst snd] in *.
    destruct x as [[|] | e |]; [| | destruct (negb (Required config)) |];
      simpl; rewrite app_nil_r; exact H. }
  destruct (String.eqb (Condition config) ServiceConditionCompletedSuccessfully).
  { rewrite run_bind.
    pose proof (isServiceCompleted_inspects containers s) as H.
    destruct (run E (isServiceCompleted containers) s) as [[x sx] trx].
    cbn [fst snd] in *.
    destruct x as [[[|] code] | e |];
      [destruct (code =? 0); [| destruct (negb (Required config))] | | |];
      simpl; rewrite app_nil_r; exact H. }
  constructor.
Qed.

(** X15: on any engine, whatever its answers and however long it polls,
    the goroutine that waits for a dependency makes no call but
    inspections of the containers it waits for: it never starts, stops
    or changes anything.  Under a condition that is none of the three
    supported ones it makes no call at all and ends on the first tick. *)
Theorem waitFor_only_inspects :
  forall (ticks : nat) (dep : string) (config : ServiceDependency)
         (containers : Containers) (s : EState E),
    let out := run E (waitFor ticks dep config containers) s in
    Forall (inspects containers) (snd out)
    /\ (Condition config <> ServiceConditionRunningOrHealthy ->
        Condition config <> ServiceConditionHealthy ->
        Condition config <> ServiceConditionCompletedSuccessfully ->
        forall k, ticks = S k -> out = (Unsupported, s, [])).
Proof.
  intros ticks dep config containers s. cbv zeta. split.
  - revert s. induction ticks as [| k IH]; intros s; [constructor |].
    cbn [waitFor]. rewrite run_bind.
    pose proof (waitTick_inspects dep config containers s) as H.
    destruct (run E (waitTick dep config containers) s) as [[x sx] trx].
    cbn [fst snd] in *. destruct x as [outcome |].
    + simpl. rewrite app_nil_r. exact H.
    + specialize (IH sx).
      destruct (run E (waitFor k dep config containers) sx) as [[y sy] try].
      cbn [fst snd] in *. apply Forall_app. split; assumption.
  - intros H1 H2 H3 k ->. cbn [waitFor]. unfold waitTick.
    apply String.eqb_neq in H1, H2, H3. rewrite H1, H2, H3. reflexivity.
Qed.

End WaitCalls.

Section WaitSnapshot.
Context {ext : Externals}.
Variable inspect : string -> result Inspect.t.
Let E := snapshotEngine inspect.

Lemma isServiceCompleted_error_source (containers : Containers) (e : error) :
  value E (isServiceCompleted containers) tt = Err e ->
  exists c, In c containers /\ inspect (Summary.ID c) = Err e.
Proof.
  induction containers as [| c rest IH]; [discriminate |].
  unfold value. simpl.
  destruct (inspect (Summary.ID c)) as [container | e' |] eqn:Hi.
  - assert (Hgo : fst (fst (run E (isServiceCompleted rest) tt)) = Err e ->
                  exists c0, In c0 (c :: rest) /\ inspect (Summary.ID c0) = Err e).
    { intros H. destruct (IH H) as [x [Hx Hxe]]. exists x.
      split; [right; exact Hx | exact Hxe]. }
    destruct (Inspect.State container) as [state |];
      [destruct (String.eqb (Inspect.Status state) "exited"); [discriminate |] |];
      destruct (run E (isServiceCompleted rest) tt) as [[x sx] trx]; exact Hgo.
  - simpl. intros [= ->]. exists c. split; [left; reflexivity | exact Hi].
  - discriminate.
Qed.

(** X16: an optional dependency (one that is not required) makes a round
    of the wait fail in one case only: under
    [service_completed_successfully], when the inspection of one of the
    containers fails; the error is then the one of that inspection.
    Under the two health conditions no error of an optional dependency
    is returned, inspection errors included. *)
Theorem waitTick_optional_fails_only_on_inspection :
  forall (dep : string) (config : ServiceDependency) (containers : Containers)
         (e : error),
    Required config = false ->
    value E (waitTick dep config containers) tt = Some (Failed e) ->
    Condition config = ServiceConditionCompletedSuccessfully
    /\ exists c, In c containers /\ inspect (Summary.ID c) = Err e.
Proof.
  intros dep config containers e Hreq. unfold waitTick. rewrite Hreq.
  destruct (String.eqb (Condition config) ServiceConditionRunningOrHealthy).
  { unfold E. rewrite value_bind_snapshot.
    destruct (value (snapshotEngine inspect) (isServiceHealthy containers true) tt) as [[|] | e' |];
      discriminate. }
  destruct (String.eqb (Condition config) ServiceConditionHealthy).
  { unfold E. rewrite value_bind_snapshot.
    destruct (value (snapshotEngine inspect) (isServiceHealthy containers false) tt) as [[|] | e' |];
      discriminate. }
  destruct (String.eqb_spec (Condition config) ServiceConditionCompletedSuccessfully)
    as [Hc | Hc]; [| discriminate].
  unfold E. rewrite value_bind_snapshot.
  destruct (value (snapshotEngine inspect) (isServiceCompleted containers) tt) as [[[|] code] | e' |] eqn:Hv;
    try discriminate.
  - destruct (code =? 0); discriminate.
  - intros [= ->]. split; [exact Hc |].
    apply isServiceCompleted_error_source. exact Hv.
Qed.

(** X17: under [running_or_healthy] the first container decides alone
    when it has no healthcheck and has not exited: the round is satisfied
    when its status is running and goes round again otherwise, whatever
    the state of the containers listed after it, which are not
    inspected. *)
Theorem waitTick_running_fallback_first_only :
  forall (dep : string) (config : ServiceDependency) (c : Summary.t)
         (rest : Containers) (container : Inspect.t)
         (state : Inspect.ContainerState),
    Condition config = ServiceConditionRunningOrHealthy ->
    inspect (Summary.ID c) = Ok container ->
    Inspect.Name container <> "" ->
    Inspect.State container = Some state ->
    Inspect.Status state <> "exited" ->
    Inspect.Healthcheck container = false ->
    run E (waitTick dep config (c :: rest)) tt
    = (if String.eqb (Inspect.Status state) "running" then Some Satisfied else None,
       tt, [ContainerInspect (Summary.ID c)]).
Proof.
  intros dep config c rest container state Hc Hi Hn Hst Hex Hh.
  unfold waitTick. rewrite Hc. simpl. rewrite Hi. unfold sliceFrom.
  destruct (Inspect.Name container) as [| a name]; [congruence |].
  simpl. rewrite Hst. apply String.eqb_neq in Hex. rewrite Hex, Hh. simpl.
  destruct (String.eqb (Inspect.Status state) "running"); reflexivity.
Qed.

End WaitSnapshot.

Section WaitLoop.
Variable GetService : string -> Service.t + error.
Variable DisabledServices : list Service.t.
Variable isService : string -> Summary.t -> bool.
Variable isNotOneOff : Summary.t -> bool.

Let shouldWait := shouldWaitForDependency GetService DisabledServices.
Let loop := waitDependenciesLoop GetService DisabledServices isService isNotOneOff.
Let found := waitingFor isService isNotOneOff.

Lemma waitDependenciesLoop_inv (dependant : string) (containers : Containers)
    (dependencies : list (string * ServiceDependency)) :
  forall launched : list waiter,
    let out := loop dependant dependencies containers launched in
    (exists more,
        fst out = (launched ++ more)%list
        /\ (forall dep config ws,
              In (dep, config, ws) more ->
              In (dep, config) dependencies
              /\ shouldWait dep config = Ok true
              /\ ws = found dep containers /\ ws <> [])
        /\ (snd out = Ok tt ->
            forall dep config,
              In (dep, config) dependencies ->
              shouldWait dep config = Ok true ->
              (found dep containers <> []
               /\ In (dep, config, found dep containers) more)
              \/ (found dep containers = [] /\ Required config = false)))
    /\ (forall e, snd out = Err e ->
          exists dep config,
            In (dep, config) dependencies
            /\ (shouldWait dep config = Err e
                \/ (shouldWait dep config = Ok true
                    /\ found dep containers = []
                    /\ Required config = true
                    /\ e = dependant ++ " is missing dependency " ++ dep))).
Proof.
  induction dependencies as [| [dep config] rest IH]; intros launched.
  { simpl. split.
    - exists []. rewrite app_nil_r. split; [reflexivity |].
      split; [intros ? ? ? [] | intros _ ? ? []].
    - intros e H. discriminate H. }
  assert (Hskip :
    (shouldWait dep config = Ok false
     \/ (shouldWait dep config = Ok true /\ found dep containers = []
         /\ Required config = false)) ->
    let out := loop dependant rest containers launched in
    (exists more,
        fst out = (launched ++ more)%list
        /\ (forall dep0 config0 ws,
              In (dep0, config0, ws) more ->
              In (dep0, config0) ((dep, config) :: rest)
              /\ shouldWait dep0 config0 = Ok true
              /\ ws = found dep0 containers /\ ws <> [])
        /\ (snd out = Ok tt ->
            forall dep0 config0,
              In (dep0, config0) ((dep, config) :: rest) ->
              shouldWait dep0 config0 = Ok true ->
              (found dep0 containers <> []
               /\ In (dep0, config0, found dep0 containers) more)
              \/ (found dep0 containers = [] /\ Required config0 = false)))
    /\ (forall e, snd out = Err e ->
          exists dep0 config0,
            In (dep0, config0) ((dep, config) :: rest)
            /\ (shouldWait dep0 config0 = Err e
                \/ (shouldWait dep0 config0 = Ok true
                    /\ found dep0 containers = []
                    /\ Required config0 = true
                    /\ e = dependant ++ " is missing dependency " ++ dep0)))).
  { intros Hs. destruct (IH launched) as [[more [P1 [P2 P3]]] P4]. split.
    - exists more. split; [exact P1 |]. split.
      + intros d c ws Hin. destruct (P2 d c ws Hin) as [Q1 Q2].
        split; [right; exact Q1 | exact Q2].
      + intros Hok d c [[= -> ->] | Hin] Hw; [| exact (P3 Hok d c Hin Hw)].
        destruct Hs as [Hs | [_ [Hs1 Hs2]]]; [congruence |].
        right. split; assumption.
    - intros e He. destruct (P4 e He) as [d [c [Hin Hd]]].
      exists d, c. split; [right; exact Hin | exact Hd]. }
  cbn [loop waitDependenciesLoop].
  unfold loop in *. cbn [waitDependenciesLoop].
  fold shouldWait. fold found.
  destruct (shouldWait dep config) as [[|] | e0 |] eqn:Hw.
  - destruct (Nat.eqb_spec (length (found dep containers)) 0) as [Hl | Hl].
    + apply length_zero_iff_nil in Hl.
      destruct (Required config) eqn:Hreq.
      * simpl. split.
        -- exists []. rewrite app_nil_r. split; [reflexivity |].
           split; [intros ? ? ? [] | discriminate].
        -- intros e [= <-]. exists dep, config.
           split; [left; reflexivity |]. right. repeat split; assumption.
      * apply Hskip. right. repeat split; assumption.
    + assert (Hne : found dep containers <> []).
      { intros H. apply Hl. rewrite H. reflexivity. }
      destruct (IH (launched ++ [(dep, config, found dep containers)])%list)
        as [[more [P1 [P2 P3]]] P4]. split.
      * exists ((dep, config, found dep containers) :: more).
        split; [rewrite P1, <- app_assoc; reflexivity |]. split.
        -- intros d c ws [[= <- <- <-] | Hin].
           ++ split; [left; reflexivity |]. repeat split; assumption.
           ++ destruct (P2 d c ws Hin) as [Q1 Q2].
              split; [right; exact Q1 | exact Q2].
        -- intros Hok d c [[= -> ->] | Hin] Hw'.
           ++ left. split; [exact Hne | left; reflexivity].
           ++ destruct (P3 Hok d c Hin Hw') as [[Q1 Q2] | Q]; [left | right; exact Q].
              split; [exact Q1 | right; exact Q2].
      * intros e He. destruct (P4 e He) as [d [c [Hin Hd]]].
        exists d, c. split; [right; exact Hin | exact Hd].
  - apply Hskip. left. reflexivity.
  - simpl. split.
    + exists []. rewrite app_nil_r. split; [reflexivity |].
      split; [intros ? ? ? [] | discriminate].
    + intros e [= <-]. exists dep, config. split; [left; reflexivity |].
      left. exact Hw.
  - simpl. split.
    + exists []. rewrite app_nil_r. split; [reflexivity |].
      split; [intros ? ? ? [] | discriminate].
    + intros e H. discriminate H.
Qed.

(** X18: the loop of [waitDependencies].  Whatever the order in which
    the dependencies are visited, every goroutine it hands to the group
    is for a dependency that is to be waited for and has at least one
    container that is not one-off, and waits for exactly these
    containers.  When the loop ends without an error, every dependency
    to be waited for either has its goroutine or is optional and has no
    container.  When it returns an error at once, that error is the one
    of a service lookup, or names a required dependency that has no
    container; a dependency that is not to be waited for (condition
    [service_started], a disabled service, scale 0, a provider) never
    raises the second one. *)
Theorem waitDependencies_loop :
  forall (dependant : string) (dependencies : list (string * ServiceDependency))
         (containers : Containers),
    let out := waitDependenciesLoop GetService DisabledServices isService
                 isNotOneOff dependant dependencies containers [] in
    let shouldWait := shouldWaitForDependency GetService DisabledServices in
    let found := waitingFor isService isNotOneOff in
    (forall dep config ws,
        In (dep, config, ws) (fst out) ->
        In (dep, config) dependencies
        /\ shouldWait dep config = Ok true
        /\ ws = found dep containers /\ ws <> [])
    /\ (snd out = Ok tt ->
        forall dep config,
          In (dep, config) dependencies ->
          shouldWait dep config = Ok true ->
          (found dep containers <> []
           /\ In (dep, config, found dep containers) (fst out))
          \/ (found dep containers = [] /\ Required config = false))
    /\ (forall e, snd out = Err e ->
          exists dep config,
            In (dep, config) dependencies
            /\ (shouldWait dep config = Err e
                \/ (shouldWait dep config = Ok true
                    /\ found dep containers = []
                    /\ Required config = true
                    /\ e = dependant ++ " is missing dependency " ++ dep))).
Proof.
  intros dependant dependencies containers. cbv zeta.
  destruct (waitDependenciesLoop_inv dependant containers dependencies [])
    as [[more [P1 [P2 P3]]] P4].
  simpl in P1. unfold loop, shouldWait, found in *.
  rewrite P1. split; [exact P2 |]. split; [exact P3 | exact P4].
Qed.

End WaitLoop.

(** X19: [shouldWaitForDependency] returns an error exactly when the
    condition is not [service_started], the project does not know the
    service and no disabled service has its name; the error is the one
    of the lookup.  It answers to wait exactly when the condition is not
    [service_started] and the service is known, has a scale other than 0
    and is not a provider.  So a dependency under [service_started] on a
    service the project does not know raises nothing. *)
Theorem shouldWaitForDependency_cases :
  forall (GetService : string -> Service.t + error)
         (DisabledServices : list Service.t) (serviceName : string)
         (config : ServiceDependency),
    let r := shouldWaitForDependency GetService DisabledServices serviceName config in
    (forall e,
        r = Err e <->
        Condition config <> ServiceConditionStarted
        /\ GetService serviceName = inr e
        /\ Forall (fun ds => Service.Name ds <> serviceName) DisabledServices)
    /\ (r = Ok true <->
        Condition config <> ServiceConditionStarted
        /\ exists service,
             GetService serviceName = inl service
             /\ Service.Scale service <> 0
             /\ Service.Provider service = false)
    /\ r <> Panic.
Proof.
  intros GetService DisabledServices serviceName config.
  unfold shouldWaitForDependency.
  destruct (String.eqb_spec (Condition config) ServiceConditionStarted) as [Hc | Hc].
  { cbv zeta. split; [| split]; [| | discriminate].
    - intros e. split; [discriminate | tauto].
    - split; [discriminate | tauto]. }
  destruct (GetService serviceName) as [service | err].
  - cbv zeta. split; [| split].
    + intros e. split.
      * destruct (Service.Scale service =? 0); [discriminate |].
        destruct (Service.Provider service); discriminate.
      * intros [_ [H _]]. discriminate H.
    + destruct (Z.eqb_spec (Service.Scale service) 0) as [Hs | Hs].
      * split; [discriminate |]. intros [_ [sv [[= <-] [H _]]]]. contradiction.
      * destruct (Service.Provider service) eqn:Hp.
        -- split; [discriminate |]. intros [_ [sv [[= <-] [_ H]]]]. congruence.
        -- split; [| reflexivity]. intros _. split; [exact Hc |].
           exists service. repeat split; assumption.
    + destruct (Service.Scale service =? 0); [discriminate |].
      destruct (Service.Provider service); discriminate.
  - cbv zeta.
    destruct (existsb (fun ds => String.eqb (Service.Name ds) serviceName)
                DisabledServices) eqn:Hd.
    + apply existsb_exists in Hd. destruct Hd as [ds [Hin Hds]].
      apply String.eqb_eq in Hds.
      split; [| split]; [| | discriminate].
      * intros e. split; [discriminate |]. intros [_ [_ H]].
        rewrite List.Forall_forall in H. exfalso. exact (H ds Hin Hds).
      * split; [discriminate |]. intros [_ [sv [H _]]]. discriminate H.
    + split; [| split]; [| | discriminate].
      * intros e. split.
        -- intros [= ->]. split; [exact Hc |]. split; [reflexivity |].
           apply List.Forall_forall. intros ds Hin Heq.
           assert (Ht : existsb (fun ds => String.eqb (Service.Name ds) serviceName)
                          DisabledServices = true).
           { apply existsb_exists. exists ds. split; [exact Hin |].
             apply String.eqb_eq. exact Heq. }
           congruence.
        -- intros [_ [[= ->] _]]. reflexivity.
      * split; [discriminate |]. intros [_ [sv [H _]]]. discriminate H.
Qed.

(** ** Numbers, names and labels *)

Section NumberFacts.
Context {ext : Externals}.

Let pick (maxNumber : Z) (c : Summary.t) : Z :=
  match Atoi (Summary.label c ContainerNumberLabel) with
  | None => maxNumber
  | Some n => if maxNumber <? n then n else maxNumber
  end.

Lemma pick_comm (a : Z) (x y : Summary.t) :
  pick (pick a x) y = pick (pick a y) x.
Proof.
  unfold pick.
  destruct (Atoi (Summary.label x ContainerNumberLabel)) as [n |];
    destruct (Atoi (Summary.label y ContainerNumberLabel)) as [m |];
    try reflexivity.
  destruct (Z.ltb_spec a n), (Z.ltb_spec a m);
    repeat match goal with
           | |- context [?u <? ?v] => destruct (Z.ltb_spec u v)
           end; lia.
Qed.

Lemma fold_pick_perm (l l' : Containers) :
  Permutation l l' -> forall a, fold_left pick l a = fold_left pick l' a.
Proof.
  induction 1 as [| x l l' _ IH | x y l | l l' l'' _ IH1 _ IH2]; intros a; simpl.
  - reflexivity.
  - apply IH.
  - rewrite pick_comm. reflexivity.
  - rewrite IH1. apply IH2.
Qed.

(** X20: [nextContainerNumber] does not depend on the order of the
    containers it is given. *)
Theorem nextContainerNumber_order_free :
  forall (l l' : Containers),
    Permutation l l' ->
    nextContainerNumber l = nextContainerNumber l'.
Proof.
  intros l l' Hp. unfold nextContainerNumber. fold pick.
  rewrite (fold_pick_perm l l' Hp). reflexivity.
Qed.

End NumberFacts.

Lemma int_of_string_of_int (d : Decimal.signed_int) :
  option_map Z.of_int (NilZero.int_of_string (NilZero.string_of_int d))
  = Some (Z.of_int d).
Proof.
  destruct d as [u | u]; destruct u;
    try (rewrite NilZero.isi by discriminate; reflexivity).
  - rewrite NilZero.isi_posnil. reflexivity.
  - rewrite NilZero.isi_negnil. reflexivity.
Qed.

Lemma Itoa_inj (n m : Z) : Itoa n = Itoa m -> n = m.
Proof.
  unfold Itoa. intros H.
  pose proof (int_of_string_of_int (Z.to_int n)) as Hn.
  pose proof (int_of_string_of_int (Z.to_int m)) as Hm.
  rewrite H, Hm, !DecimalZ.of_to in Hn. congruence.
Qed.

Lemma append_inv_head (p a b : string) : (p ++ a = p ++ b)%string -> a = b.
Proof.
  induction p as [| ch p IH]; simpl; [tauto |].
  intros [= H]. exact (IH H).
Qed.

(** X21: without a custom container name, [getContainerName] gives two
    different numbers two different names; with a custom name it gives
    every number that name. *)
Theorem getContainerName_numbers :
  forall (ext : Externals) (projectName : string) (service : Service.t)
         (n m : Z),
    (Service.ContainerName service = "" ->
     getContainerName projectName service n = getContainerName projectName service m ->
     n = m)
    /\ (Service.ContainerName service <> "" ->
        getContainerName projectName service n = Service.ContainerName service).
Proof.
  intros ext projectName service n m. unfold getContainerName. split.
  - intros ->. simpl. unfold getDefaultContainerName. simpl.
    intros H. apply Itoa_inj.
    repeat apply append_inv_head in H. exact H.
  - intros H. apply String.eqb_neq in H. rewrite H. reflexivity.
Qed.

Lemma mergeLabels_snoc (ls : list (gmap string string)) (l : gmap string string) :
  mergeLabels (ls ++ [l]) = l ∪ mergeLabels ls.
Proof. unfold mergeLabels. rewrite fold_left_app. reflexivity. Qed.

(** X22: [mergeLabels] lets a later map win: a key of the last map has
    the value of the last map, any other key has what the maps before
    it give; and a key is absent from the result exactly when it is
    absent from every map. *)
Theorem mergeLabels_later_wins :
  forall (ls : list (gmap string string)) (l : gmap string string) (k : string),
    mergeLabels (ls ++ [l]) !! k
    = match l !! k with
      | Some v => Some v
      | None => mergeLabels ls !! k
      end
    /\ (mergeLabels ls !! k = None <-> Forall (fun m => m !! k = None) ls).
Proof.
  intros ls l k. split.
  - rewrite mergeLabels_snoc, lookup_union.
    destruct (l !! k) as [v |]; [| rewrite (left_id_L None union)]; [| reflexivity].
    destruct (mergeLabels ls !! k); reflexivity.
  - induction ls as [| m ls IH] using rev_ind.
    + split; [constructor | reflexivity].
    + rewrite mergeLabels_snoc, lookup_union_None, IH, List.Forall_app.
      split.
      * intros [H1 H2]. split; [exact H2 | constructor; [exact H1 | constructor]].
      * intros [H1 H2]. inversion H2; subst. split; assumption.
Qed.

(** ** Links *)

Section LinksFacts.
Context {ext : Externals}.
Variable getServiceContainers : string -> result Containers.
Variable getCanonicalContainerName : Summary.t -> string.
Variable OneoffLabel : string.

Lemma splitLink_ok (raw : string) :
  exists name linkName,
    splitLink raw = Ok (name, linkName)
    /\ (linkName = name \/ Split raw ":" = [name; linkName]).
Proof.
  unfold splitLink. pose proof (Split_nonempty raw ":") as Hne.
  destruct (Split raw ":") as [| name rest]; [congruence |].
  destruct rest as [| a [| b rest]]; eexists _, _; split; try reflexivity; tauto.
Qed.

Lemma length_flat_map_three {A B} (f : A -> list B) (l : list A) :
  (forall a, length (f a) = 3%nat) -> length (flat_map f l) = (3 * length l)%nat.
Proof.
  intros H. induction l as [| a l IH]; [reflexivity |].
  simpl flat_map. rewrite length_app, H, IH. simpl. lia.
Qed.

Lemma linksOfServices_spec (projectName : string) (number : Z)
    (rawLinks : list string) :
  forall links : list string,
    match linksOfServices getServiceContainers getCanonicalContainerName
            projectName number rawLinks links with
    | Ok out =>
        exists more,
          out = (links ++ more)%list
          /\ length more
             = (3 * list_sum (map (fun raw =>
                                     containerCount getServiceContainers
                                       (linkedService raw)) rawLinks))%nat
    | Err e =>
        exists raw, In raw rawLinks
                    /\ getServiceContainers (linkedService raw) = Err e
    | Panic =>
        exists raw, In raw rawLinks
                    /\ getServiceContainers (linkedService raw) = Panic
    end.
Proof.
  induction rawLinks as [| raw rest IH]; intros links.
  { simpl. exists []. rewrite app_nil_r. split; reflexivity. }
  destruct (splitLink_ok raw) as [name [linkName [Hs _]]].
  assert (Hl : linkedService raw = name) by (unfold linkedService; rewrite Hs; reflexivity).
  cbn [linksOfServices map list_sum]. rewrite Hs, Hl.
  unfold containerCount at 1.
  destruct (getServiceContainers name) as [cnts | e |] eqn:Hg.
  - match goal with
    | |- context [linksOfServices _ _ _ _ rest ?acc] => specialize (IH acc)
    end.
    destruct (linksOfServices _ _ _ _ rest _) as [out | e |].
    + destruct IH as [more [-> Hlen]]. eexists. rewrite <- app_assoc.
      split; [reflexivity |]. rewrite length_app, Hlen, length_flat_map_three
        by reflexivity. unfold list_sum. cbn [fold_right]. lia.
    + destruct IH as [r [Hin Hr]]. exists r. split; [right; exact Hin | exact Hr].
    + destruct IH as [r [Hin Hr]]. exists r. split; [right; exact Hin | exact Hr].
  - exists raw. split; [left; reflexivity |]. rewrite Hl. exact Hg.
  - exists raw. split; [left; reflexivity |]. rewrite Hl. exact Hg.
Qed.

Lemma externalLinks_spec (rawExtLinks : list string) :
  forall links : list string,
    exists more,
      externalLinks rawExtLinks links = Ok (links ++ more)%list
      /\ length more = length rawExtLinks.
Proof.
  induction rawExtLinks as [| raw rest IH]; intros links.
  { exists []. rewrite app_nil_r. split; reflexivity. }
  cbn [externalLinks].
  destruct (splitLink_ok raw) as [name [linkName [Hs _]]]. rewrite Hs.
  destruct (IH (links ++ [format name linkName])%list) as [more [-> Hlen]].
  eexists. rewrite <- app_assoc. split; [reflexivity |]. simpl. lia.
Qed.

(** X23: what [getLinks] returns.  It fails only with what the lookup
    of the containers of a linked service, or of the service itself
    when it is one-off, answered; the external links alone never fail.
    When it succeeds the list holds three entries for every container
    of every linked service, three for every container of the service
    itself when it is one-off, and one for every external link. *)
Theorem getLinks_entries :
  forall (projectName : string) (service : Service.t)
         (Links ExternalLinks : list string) (number : Z),
    let oneOff :=
      String.eqb (default "" (Service.Labels service !! OneoffLabel)) "True" in
    let count := containerCount getServiceContainers in
    match getLinks getServiceContainers getCanonicalContainerName OneoffLabel
            projectName service Links ExternalLinks number with
    | Ok links =>
        length links
        = (3 * list_sum (map (fun raw => count (linkedService raw)) Links)
           + (if oneOff then 3 * count (Service.Name service) else 0)
           + length ExternalLinks)%nat
    | Err e =>
        (exists raw, In raw Links
                     /\ getServiceContainers (linkedService raw) = Err e)
        \/ (oneOff = true
            /\ getServiceContainers (Service.Name service) = Err e)
    | Panic =>
        (exists raw, In raw Links
                     /\ getServiceContainers (linkedService raw) = Panic)
        \/ (oneOff = true
            /\ getServiceContainers (Service.Name service) = Panic)
    end.
Proof.
  intros projectName service Links ExternalLinks number. cbv zeta.
  unfold getLinks.
  pose proof (linksOfServices_spec projectName number Links []) as H.
  destruct (linksOfServices _ _ _ _ Links []) as [links | e |];
    [| left; exact H ..].
  destruct H as [more [-> Hlen]]. change ([] ++ more)%list with more.
  destruct (String.eqb (default "" (Service.Labels service !! OneoffLabel)) "True").
  - unfold containerCount at 2.
    destruct (getServiceContainers (Service.Name service)) as [cnts | e |] eqn:Hg;
      [| right; split; reflexivity ..].
    match goal with
    | |- context [externalLinks ExternalLinks ?acc] =>
        destruct (externalLinks_spec ExternalLinks acc) as [ext' [-> Hext]]
    end.
    rewrite !length_app, Hlen, Hext, length_flat_map_three by reflexivity. lia.
  - destruct (externalLinks_spec ExternalLinks more) as [ext' [-> Hext]].
    rewrite length_app, Hlen, Hext. lia.
Qed.

(** X24: the alias of a link.  [getLinks] takes the second piece of a
    link as its alias only when the link has exactly two pieces between
    colons; with one piece, or with three and more, the alias is the
    service name, and splitting never fails. *)
Theorem splitLink_alias :
  forall raw : string,
    exists name linkName,
      splitLink raw = Ok (name, linkName)
      /\ hd_error (Split raw ":") = Some name
      /\ (length (Split raw ":") = 2%nat -> Split raw ":" = [name; linkName])
      /\ (length (Split raw ":") <> 2%nat -> linkName = name).
Proof.
  intros raw. unfold splitLink. pose proof (Split_nonempty raw ":") as Hne.
  destruct (Split raw ":") as [| name rest]; [congruence |].
  destruct rest as [| a [| b rest]]; eexists _, _;
    (split; [reflexivity |]); (split; [reflexivity |]);
    split; simpl; intros H; try reflexivity; try discriminate; congruence.
Qed.

End LinksFacts.

(** * Worked cases *)

Lemma sample_sorted_perm (l : Containers) :
  Permutation (sorted (Externals := Sample.ext) l) l.
Proof. apply sort_Slice_perm. Qed.

Lemma setObservedState_getObservedState_witness :
  getObservedState (setObservedState Inputs.dbStore "web" [Inputs.db1]) "db"
  = getObservedState Inputs.dbStore "db".
Proof.
  exact (proj1 (proj2 (setObservedState_getObservedState Inputs.dbStore "web" "db"
                         [Inputs.db1]))
           ltac:(discriminate)).
Defined.

Lemma newConvergence_groups_by_service_witness :
  is_Some (services (newConvergence "com.docker.compose.service" (fun _ => true)
                       ["db"; "web"] [] None None) !! "web").
Proof.
  exact (proj1 (proj2 (newConvergence_groups_by_service
                         "com.docker.compose.service" (fun _ => true)
                         ["db"; "web"] [] None None "web"))
           (or_intror (or_introl eq_refl))).
Defined.

Lemma mustRecreate_diverged_witness :
  exists b,
    mustRecreate (ext := Sample.ext) Inputs.dbStoreAB Inputs.dbService Inputs.dbA
      "diverged" = Ok b.
Proof.
  destruct (proj2 (mustRecreate_diverged (ext := Sample.ext) Inputs.dbStoreAB
                     Inputs.dbService Inputs.dbA "diverged"
                     ltac:(discriminate) ltac:(discriminate))
              Inputs.hashOfDb eq_refl) as (b & Hb & _).
  exists b. exact Hb.
Defined.

Lemma resolveServiceReferences_frame_witness :
  let out := resolveServiceReferences (ext := Sample.ext) Inputs.dbStore
               Inputs.webService in
  (forall n, Permutation (getObservedState (fst (fst out)) n)
               (getObservedState Inputs.dbStore n))
  /\ length (Service.VolumesFrom (snd (fst out))) = 2%nat.
Proof.
  intros out.
  destruct (resolveServiceReferences_frame (ext := Sample.ext) sample_sorted_perm
              Inputs.dbStore (fst (fst out)) Inputs.webService (snd (fst out))
              (snd out)) as (H1 & _ & _ & H2 & _).
  - subst out.
    destruct (resolveServiceReferences Inputs.dbStore Inputs.webService)
      as [[c' service'] r]. reflexivity.
  - split; [exact H1 | exact H2].
Defined.




Lemma ensureService_missing_reference_witness :
  run Sample.okEngine
    (ensureService (ext := Sample.ext) (Sample.store ∅) Sample.project
       Cases.sidecar "diverged" false None) tt
  = ((Sample.store ∅, AtReferences,
      Err "cannot share volume with service db: container missing"), tt, [])
  /\ run Sample.okEngine
       (ensureService (ext := Sample.ext) (Sample.store ∅) Sample.project
          Cases.netSidecar "diverged" false None) tt
     = ((Sample.store ∅, AtReferences,
         Err "cannot share network namespace with service db: container missing"),
        tt, []).
Proof.
  split.
  - exact (proj1 (ensureService_missing_reference Sample.ext Sample.okEngine tt
                    (Sample.store ∅) Sample.project Cases.sidecar "diverged"
                    false None 1 "db" eq_refl eq_refl ltac:(lia) eq_refl)
             "db:ro" [] eq_refl eq_refl).
  - exact (proj2 (ensureService_missing_reference Sample.ext Sample.okEngine tt
                    (Sample.store ∅) Sample.project Cases.netSidecar "diverged"
                    false None 1 "db" eq_refl eq_refl ltac:(lia) eq_refl)
             eq_refl eq_refl ltac:(discriminate)).
Defined.


Lemma stopDependentContainers_marks_exited_witness :
  let out := run Sample.okEngine
               (stopDependentContainers Cases.webStore Cases.dependentsProject
                  Inputs.dbService) tt in
  snd out = [StopServices "app" ["web"]]
  /\ getObservedState (fst (fst (fst out))) "web"
     = map (Summary.withState ContainerExited)
         (getObservedState Cases.webStore "web")
  /\ getObservedState (fst (fst (fst out))) "db"
     = getObservedState Cases.webStore "db".
Proof.
  intros out.
  destruct (proj2 (stopDependentContainers_marks_exited Sample.okEngine tt
                     Cases.webStore Cases.dependentsProject Inputs.dbService)
              ltac:(discriminate)) as (H1 & _ & H3).
  split; [exact H1 |]. split.
  - exact (proj1 (H3 eq_refl "web") (or_introl eq_refl)).
  - refine (proj2 (H3 eq_refl "db") _). intros [H | []]. discriminate H.
Defined.


Lemma createMobyContainer_failure_zero_witness :
  let out := run Inputs.noCreateEngine
               (createMobyContainer (ext := Sample.ext) Sample.project
                  Inputs.dbService "app-db-1" 1 None
                  {| AutoRemove := false; AttachStdin := false;
                     UseNetworkAliases := true; OptLabels := ∅ |}) tt in
  fst (fst (fst out)) = Summary.zero /\ snd (fst (fst out)) <> Ok tt.
Proof.
  exact (createMobyContainer_failure_zero (ext := Sample.ext)
           Inputs.noCreateEngine tt Sample.project Inputs.dbService "app-db-1" 1
           None
           {| AutoRemove := false; AttachStdin := false;
              UseNetworkAliases := true; OptLabels := ∅ |} eq_refl).
Defined.


Lemma waitFor_only_inspects_witness :
  run (snapshotEngine Cases.unreachable)
    (waitFor 3 "db" (Inputs.requiredDep ServiceConditionStarted) [Inputs.depA]) tt
  = (Unsupported, tt, []).
Proof.
  refine (proj2 (waitFor_only_inspects (snapshotEngine Cases.unreachable) 3 "db"
                   (Inputs.requiredDep ServiceConditionStarted) [Inputs.depA] tt)
            _ _ _ 2%nat eq_refl); discriminate.
Defined.

Lemma waitTick_optional_fails_only_on_inspection_witness :
  exists c, In c [Inputs.depA; Inputs.depB]
            /\ Cases.unreachable (Summary.ID c) = Err "No such container: a".
Proof.
  exact (proj2 (waitTick_optional_fails_only_on_inspection Cases.unreachable
                  "db" (Inputs.optionalDep ServiceConditionCompletedSuccessfully)
                  [Inputs.depA; Inputs.depB] "No such container: a"
                  eq_refl eq_refl)).
Defined.

Lemma waitTick_running_fallback_first_only_witness :
  run (snapshotEngine Cases.plainRunning)
    (waitTick "db" (Inputs.requiredDep ServiceConditionRunningOrHealthy)
       [Inputs.depA; Inputs.depB]) tt
  = (Some Satisfied, tt, [ContainerInspect "a"]).
Proof.
  refine (waitTick_running_fallback_first_only Cases.plainRunning "db"
            (Inputs.requiredDep ServiceConditionRunningOrHealthy) Inputs.depA
            [Inputs.depB] _ _ eq_refl eq_refl _ eq_refl _ eq_refl);
    discriminate.
Defined.

Lemma waitDependencies_loop_witness :
  exists dep config,
    In (dep, config) [("cache", Inputs.requiredDep ServiceConditionStarted);
                      ("db", Inputs.requiredDep ServiceConditionHealthy)]
    /\ (shouldWaitForDependency Cases.knownServices [] dep config
        = Err "web is missing dependency db"
        \/ (shouldWaitForDependency Cases.knownServices [] dep config = Ok true
            /\ waitingFor (fun _ _ => false) (fun _ => true) dep [Inputs.db1] = []
            /\ Required config = true
            /\ "web is missing dependency db" = "web" ++ " is missing dependency " ++ dep)).
Proof.
  exact (proj2 (proj2 (waitDependencies_loop Cases.knownServices []
                         (fun _ _ => false) (fun _ => true) "web"
                         [("cache", Inputs.requiredDep ServiceConditionStarted);
                          ("db", Inputs.requiredDep ServiceConditionHealthy)]
                         [Inputs.db1]))
           "web is missing dependency db" eq_refl).
Defined.

Lemma shouldWaitForDependency_cases_witness :
  shouldWaitForDependency Cases.knownServices [] "db"
    (Inputs.requiredDep ServiceConditionHealthy) = Ok true
  /\ forall e,
       shouldWaitForDependency Cases.knownServices [] "cache"
         (Inputs.requiredDep ServiceConditionStarted) <> Err e.
Proof.
  split.
  - refine (proj2 (proj1 (proj2 (shouldWaitForDependency_cases Cases.knownServices
                                   [] "db"
                                   (Inputs.requiredDep ServiceConditionHealthy))))
              (conj _ (ex_intro _ Inputs.dbService (conj eq_refl (conj _ eq_refl)))));
      discriminate.
  - intros e H.
    destruct (proj1 (proj1 (shouldWaitForDependency_cases Cases.knownServices []
                              "cache"
                              (Inputs.requiredDep ServiceConditionStarted)) e) H)
      as [Hc _].
    apply Hc. reflexivity.
Defined.

Lemma nextContainerNumber_order_free_witness :
  nextContainerNumber (ext := Sample.ext) [Inputs.db1; Inputs.db2]
  = nextContainerNumber (ext := Sample.ext) [Inputs.db2; Inputs.db1].
Proof.
  exact (nextContainerNumber_order_free (ext := Sample.ext)
           [Inputs.db1; Inputs.db2] [Inputs.db2; Inputs.db1]
           (perm_swap Inputs.db2 Inputs.db1 [])).
Defined.

Lemma getContainerName_numbers_witness :
  getContainerName (ext := Sample.ext) "app" (Sample.svc "db" "database" 1 false) 7
  = "database".
Proof.
  exact (proj2 (getContainerName_numbers Sample.ext "app"
                  (Sample.svc "db" "database" 1 false) 7 7)
           ltac:(discriminate)).
Defined.

Lemma splitLink_alias_witness :
  exists name linkName,
    splitLink "db:database" = Ok (name, linkName)
    /\ Split "db:database" ":" = [name; linkName].
Proof.
  destruct (splitLink_alias "db:database") as (name & linkName & H1 & _ & H2 & _).
  exists name, linkName. split; [exact H1 | exact (H2 eq_refl)].
Defined.
